(** * xnmt training task: a shallow embedding of [xnmt/training_task.py]

    The development follows the Python class [SimpleTrainingTask] and its
    companion [TrainingState].  Python integers are [Z], Python floats are
    binary64 primitive floats, attributes of [self] are record fields, and
    every call that leaves the class (random number library, batcher, readers,
    model, logger, sub-processes, [print]) is either a field of a collaborator
    record or an event appended to the trace of the [World].  Methods are
    computations in a state-and-exception monad over the [World]; they take
    [self] and return it as they leave it, and an exception ends the
    computation.  What the environment answers (exit status of a
    sub-process, dev scores, the logger's verdict) is an argument of the
    method that asks. *)

From Stdlib Require Import ZArith List String Bool Lia Permutation.
From Stdlib Require Import DecimalString.
From Stdlib Require Import Floats.PrimFloat.
Import ListNotations.

Local Open Scope string_scope.
Local Open Scope list_scope.
Local Open Scope Z_scope.

(** ** Python values used by the task *)

(** A sentence is a sequence of token ids; only its length is inspected. *)
Definition sentence := list Z.

(** A minibatch as produced by the batcher: a group of sentences. *)
Definition batch := list sentence.

(** The state of a pseudo random generator ([random] or [numpy.random]). *)
Definition rng_state := Z.

(** [str(n)] / ["%d" % n] / ["%s" % n] for a Python integer. *)
Definition str_of_int (n : Z) : string := NilZero.string_of_int (Z.to_int n).

(** ** Exceptions and the effect monad *)

Inductive exn : Type :=
| RuntimeError (msg : string)
| TypeError (msg : string)
| IndexError (msg : string)
| AttributeError (attr : string)
| AssertionError.

Inductive result (A : Type) : Type :=
| Ok (a : A)
| Raise (e : exn).
Arguments Ok {A} a.
Arguments Raise {A} e.

(** A dynet expression, kept symbolic: [value] gives the scalar it evaluates
    to.  [ENoBackprop] is [dy.nobackprop], the gradient-blocking primitive. *)
Inductive Expression : Type :=
| EInput (v : float)
| EAdd (a b : Expression)
| ENeg (a : Expression)
| ENoBackprop (a : Expression).

(** A sub-process handle ([subprocess.Popen]). *)
Record Popen : Type := mkPopen {
  pid : nat;
  args : string;
  returncode : option Z
}.

(** Calls that leave the task, in the order they happen. *)
Inductive event : Type :=
| EvPrint (msg : string)
| EvPrintLearningRate (lr : float)
| EvPopen (cmd : string) (p : nat)
| EvWait (p : nat)
| EvPoll (p : nat)
| EvReadTrainingCorpus
| EvLoadPretrained (file : string)
| EvSetPadToken
| EvCountSents (file : string)
| EvReadSents (file : string)
| EvFreeze
| EvRandint (lo hi : Z)
| EvSeed (s : Z)
| EvNpSeed (s : Z)
| EvNpChoice (n k : Z)
| EvPack
| EvShuffle
| EvNewEpoch (num_sents : Z)
| EvCalcLoss (src trg : batch)
| EvCalcAdditionalLoss (arg : Expression)
| EvUpdateEpochLoss (breakdown : list (string * Expression))
| EvReportTrainProcess
| EvNewLogger
| EvNewDev
| EvDevEval (task : nat)
| EvSetDevScore (score : Z)
| EvReportAuxiliaryScore (score : Z)
| EvReportDevAndCheckModel
| EvTrainerRestart
| EvRevertToBestModel.

(** Process-wide state: the two global generators, the next free process id
    and the trace of events. *)
Record World : Type := mkWorld {
  py_random : rng_state;
  np_random : rng_state;
  next_pid : nat;
  trace : list event
}.

Definition M (A : Type) : Type := World -> result A * World.

Definition ret {A} (a : A) : M A := fun w => (Ok a, w).
Definition raise {A} (e : exn) : M A := fun w => (Raise e, w).
Definition bind {A B} (m : M A) (k : A -> M B) : M B :=
  fun w => match m w with
           | (Ok a, w') => k a w'
           | (Raise e, w') => (Raise e, w')
           end.

Declare Scope py_scope.
Delimit Scope py_scope with py.
Notation "x <- m ;; k" := (bind m (fun x => k))
  (at level 61, m at next level, right associativity) : py_scope.
Notation "m ;;; k" := (bind m (fun _ => k))
  (at level 61, right associativity) : py_scope.

Definition emit (e : event) : M unit :=
  fun w => (Ok tt, mkWorld (py_random w) (np_random w) (next_pid w) (trace w ++ [e])).
Definition print (msg : string) : M unit := emit (EvPrint msg).

(** ** [class TrainingState] *)

Record TrainingState : Type := mkTrainingState {
  num_times_lr_decayed : Z;
  cur_attempt : Z;
  epoch_num : Z;
  steps_into_epoch : Z;
  epoch_seed : Z
}.

(** ** Collaborators *)

(** The functions of [random] and [numpy.random] the task calls.  Each takes
    the generator state it reads and returns the state it leaves. *)
Record RandomLib : Type := mkRandomLib {
  random_randint : rng_state -> Z -> Z -> Z * rng_state;
  random_seed : Z -> rng_state;
  np_random_seed : Z -> rng_state;
  np_random_shuffle : rng_state -> list Z -> list Z * rng_state;
  np_random_choice : rng_state -> Z -> Z -> list Z * rng_state
}.

(** A corpus reader ([model.src_reader], [model.trg_reader]). *)
Record Reader : Type := mkReader {
  count_sents : option string -> Z;
  read_sents : option string -> option (list Z) -> list sentence
}.

(** What [model.calc_loss] returns: a single expression, or a [LossBuilder]
    whose [loss_nodes] are named expressions. *)
Inductive Loss : Type :=
| ScalarLoss (e : Expression)
| BundleLoss (loss_nodes : list (string * Expression)).

Record Model : Type := mkModel {
  src_reader : Reader;
  trg_reader : Reader;
  calc_loss : batch -> batch -> Loss;
  calc_additional_loss : Expression -> option Expression
}.

(** The batch packer; it may consult both global generators. *)
Record Batcher : Type := mkBatcher {
  pack : rng_state -> rng_state -> list sentence -> list sentence ->
         (list batch * list batch) * (rng_state * rng_state)
}.

(** The optimizer, of which the task only touches the learning rate. *)
Record Trainer : Type := mkTrainer {
  learning_rate : float
}.

(** What one dev task's [eval()] returns: one score or a list of scores. *)
Inductive DevResult : Type :=
| OneScore (s : Z)
| ScoreList (l : list Z).

(** ** [class SimpleTrainingTask] *)

Record SimpleTrainingTask : Type := mkTask {
  model_file : option string;
  src_file : option string;
  trg_file : option string;
  dev_tasks : option (list nat);
  lr_decay : float;
  patience : Z;
  initial_patience : option Z;
  lr_decay_times : Z;
  restart_trainer : bool;
  run_for_epochs : option Z;
  early_stopping_reached : bool;
  training_state : TrainingState;
  reload_command : option string;
  _augmentation_handle : option Popen;
  model : Model;
  pretrained_model_file : string;
  sample_train_sents : Z;              (* [False] is [0] *)
  max_num_train_sents : option Z;
  max_src_len : option Z;
  max_trg_len : option Z;
  batcher : Batcher;
  src_data : list sentence;
  trg_data : list sentence;
  src_batches : list batch;
  trg_batches : list batch;
  minibatch_order : list Z;
  (* attributes the class reads but never assigns itself; [None] when the
     instance has no such attribute *)
  trainer : option Trainer;
  corpus_parser : option unit;
  self_src_reader : option Reader;
  self_trg_reader : option Reader
}.

Definition set_training_state (t : SimpleTrainingTask) (s : TrainingState) :=
  let '(mkTask a b c d e f g h i j k _ m n o p q r u v w x y z aa ab ac ad ae af) := t in
  mkTask a b c d e f g h i j k s m n o p q r u v w x y z aa ab ac ad ae af.

Definition set_early_stopping_reached (t : SimpleTrainingTask) (s : bool) :=
  let '(mkTask a b c d e f g h i j _ l m n o p q r u v w x y z aa ab ac ad ae af) := t in
  mkTask a b c d e f g h i j s l m n o p q r u v w x y z aa ab ac ad ae af.

Definition set_augmentation_handle (t : SimpleTrainingTask) (s : option Popen) :=
  let '(mkTask a b c d e f g h i j k l m _ o p q r u v w x y z aa ab ac ad ae af) := t in
  mkTask a b c d e f g h i j k l m s o p q r u v w x y z aa ab ac ad ae af.

Definition set_sample_train_sents (t : SimpleTrainingTask) (s : Z) :=
  let '(mkTask a b c d e f g h i j k l m n o p _ r u v w x y z aa ab ac ad ae af) := t in
  mkTask a b c d e f g h i j k l m n o p s r u v w x y z aa ab ac ad ae af.

Definition set_data (t : SimpleTrainingTask) (s1 s2 : list sentence) :=
  let '(mkTask a b c d e f g h i j k l m n o p q r u v w _ _ z aa ab ac ad ae af) := t in
  mkTask a b c d e f g h i j k l m n o p q r u v w s1 s2 z aa ab ac ad ae af.

Definition set_batches (t : SimpleTrainingTask) (s1 s2 : list batch) :=
  let '(mkTask a b c d e f g h i j k l m n o p q r u v w x y _ _ ab ac ad ae af) := t in
  mkTask a b c d e f g h i j k l m n o p q r u v w x y s1 s2 ab ac ad ae af.

Definition set_minibatch_order (t : SimpleTrainingTask) (s : list Z) :=
  let '(mkTask a b c d e f g h i j k l m n o p q r u v w x y z aa _ ac ad ae af) := t in
  mkTask a b c d e f g h i j k l m n o p q r u v w x y z aa s ac ad ae af.

Definition set_trainer (t : SimpleTrainingTask) (s : option Trainer) :=
  let '(mkTask a b c d e f g h i j k l m n o p q r u v w x y z aa ab _ ad ae af) := t in
  mkTask a b c d e f g h i j k l m n o p q r u v w x y z aa ab s ad ae af.

(** Field updates of [self.training_state]. *)
Definition with_num_times_lr_decayed (s : TrainingState) (v : Z) :=
  mkTrainingState v (cur_attempt s) (epoch_num s) (steps_into_epoch s) (epoch_seed s).
Definition with_cur_attempt (s : TrainingState) (v : Z) :=
  mkTrainingState (num_times_lr_decayed s) v (epoch_num s) (steps_into_epoch s) (epoch_seed s).
Definition with_epoch_num (s : TrainingState) (v : Z) :=
  mkTrainingState (num_times_lr_decayed s) (cur_attempt s) v (steps_into_epoch s) (epoch_seed s).
Definition with_steps_into_epoch (s : TrainingState) (v : Z) :=
  mkTrainingState (num_times_lr_decayed s) (cur_attempt s) (epoch_num s) v (epoch_seed s).
Definition with_epoch_seed (s : TrainingState) (v : Z) :=
  mkTrainingState (num_times_lr_decayed s) (cur_attempt s) (epoch_num s) (steps_into_epoch s) v.

(** Python [len]. *)
Definition len {A} (l : list A) : Z := Z.of_nat (List.length l).

(** [cur_num_minibatches] and [cur_num_sentences]. *)
Definition cur_num_minibatches (self : SimpleTrainingTask) : Z := len (src_batches self).
Definition cur_num_sentences (self : SimpleTrainingTask) : Z := len (src_data self).

(** [should_stop_training]: the [or] chain is evaluated left to right and
    stops at the first true disjunct; comparing an integer with a
    [run_for_epochs] left at its default [None] is a [TypeError]. *)
Definition should_stop_training (self : SimpleTrainingTask) : result bool :=
  if early_stopping_reached self then Ok true
  else match run_for_epochs self with
       | None => Raise (TypeError "'>' not supported between instances of 'int' and 'NoneType'")
       | Some r =>
           Ok ((epoch_num (training_state self) >? r)
               || ((epoch_num (training_state self) =? r)
                   && (steps_into_epoch (training_state self) >=? cur_num_minibatches self - 1)))
       end.

(** ** Environment responses *)

(** What the operating system answers about a sub-process: the exit status
    [wait()] eventually returns, and the status visible to one [poll()]
    ([None] while the process is still running). *)
Record ProcEnv : Type := mkProcEnv {
  wait_status : nat -> Z;
  poll_status : nat -> option Z
}.

(** What the dev tasks and the logger answer during one [checkpoint]:
    the result of each dev task's [eval()] and the result of
    [logger.report_dev_and_check_model], true when the primary dev score
    improves on the best so far. *)
Record CheckpointEnv : Type := mkCheckpointEnv {
  dev_eval : nat -> DevResult;
  dev_improved : bool
}.

Definition set_py_random (s : rng_state) : M unit :=
  fun w => (Ok tt, mkWorld s (np_random w) (next_pid w) (trace w)).
Definition set_np_random (s : rng_state) : M unit :=
  fun w => (Ok tt, mkWorld (py_random w) s (next_pid w) (trace w)).
Definition get_world : M World := fun w => (Ok w, w).

Local Open Scope py_scope.

(** [Popen(cmd, shell=True)]: start a process and return its handle. *)
Definition Popen_new (cmd : string) : M Popen :=
  fun w => let p := next_pid w in
           (Ok (mkPopen p cmd None),
            mkWorld (py_random w) (np_random w) (S p) (trace w ++ [EvPopen cmd p])).

(** [handle.wait()]: block until the process has exited. *)
Definition Popen_wait (env : ProcEnv) (h : Popen) : M Popen :=
  emit (EvWait (pid h)) ;;;
  ret (mkPopen (pid h) (args h)
         (Some (match returncode h with Some c => c | None => wait_status env (pid h) end))).

(** [handle.poll()]: record the exit status if the process has exited. *)
Definition Popen_poll (env : ProcEnv) (h : Popen) : M Popen :=
  emit (EvPoll (pid h)) ;;;
  ret (mkPopen (pid h) (args h)
         (match returncode h with Some c => Some c | None => poll_status env (pid h) end)).

(** [list(range(0, n))]. *)
Definition range (n : Z) : list Z := map Z.of_nat (seq 0 (Z.to_nat n)).

(** [l[i]] for a Python list and integer index. *)
Definition py_index {A} (l : list A) (i : Z) : result A :=
  let j := if i <? 0 then i + len l else i in
  if (j <? 0) || (len l <=? j) then Raise (IndexError "list index out of range")
  else match nth_error l (Z.to_nat j) with
       | Some a => Ok a
       | None => Raise (IndexError "list index out of range")
       end.

Definition lift {A} (r : result A) : M A := fun w => (r, w).

(** [cmd + " --epoch %d" % n]; adding a string to [None] is a [TypeError]. *)
Definition epoch_command (cmd : option string) (n : Z) : M string :=
  match cmd with
  | Some c => ret (String.append c (String.append " --epoch " (str_of_int n)))
  | None => raise (TypeError "unsupported operand type(s) for +: 'NoneType' and 'str'")
  end.

(** [_augment_data_initial] *)
Definition _augment_data_initial (env : ProcEnv) (self : SimpleTrainingTask)
  : M SimpleTrainingTask :=
  let augment_command := reload_command self in
  print "initial augmentation" ;;;
  match _augmentation_handle self with
  | None =>
      cmd <- epoch_command augment_command 0 ;;
      h <- Popen_new cmd ;;
      h <- Popen_wait env h ;;
      ret (set_augmentation_handle self (Some h))
  | Some _ => ret self
  end.

(** [_augment_data_next_epoch] *)
Definition _augment_data_next_epoch (env : ProcEnv) (self : SimpleTrainingTask)
  : M SimpleTrainingTask :=
  let augment_command := reload_command self in
  h <- match _augmentation_handle self with
       | None =>
           cmd <- epoch_command augment_command (epoch_num (training_state self)) ;;
           h <- Popen_new cmd ;;
           Popen_wait env h
       | Some h => ret h
       end ;;
  h <- Popen_poll env h ;;
  let self := set_augmentation_handle self (Some h) in
  let retcode := returncode h in
  match retcode with
  | Some _ =>
      (if epoch_num (training_state self) >? 0 then print "using reloaded data" else ret tt) ;;;
      match corpus_parser self with
      | None => raise (AttributeError "corpus_parser")
      | Some _ => emit EvReadTrainingCorpus
      end ;;;
      cmd <- epoch_command augment_command (epoch_num (training_state self)) ;;
      h <- Popen_new cmd ;;
      ret (set_augmentation_handle self (Some h))
  | None =>
      print "new data set is not ready yet, using data from last epoch." ;;;
      ret self
  end.

Section WithRandom.

Variable R : RandomLib.

(** [random.randint(lo, hi)] on the global generator. *)
Definition randint (lo hi : Z) : M Z :=
  emit (EvRandint lo hi) ;;;
  w <- get_world ;;
  let '(v, s) := random_randint R (py_random w) lo hi in
  set_py_random s ;;; ret v.

(** [random.seed(s)] and [np.random.seed(s)]. *)
Definition seed (s : Z) : M unit := emit (EvSeed s) ;;; set_py_random (random_seed R s).
Definition np_seed (s : Z) : M unit := emit (EvNpSeed s) ;;; set_np_random (np_random_seed R s).

(** [np.random.shuffle(l)]: the list object is permuted in place. *)
Definition shuffle (l : list Z) : M (list Z) :=
  emit EvShuffle ;;;
  w <- get_world ;;
  let '(l', s) := np_random_shuffle R (np_random w) l in
  set_np_random s ;;; ret l'.

(** [np.random.choice(n, k, replace=False)]. *)
Definition choice (n k : Z) : M (list Z) :=
  emit (EvNpChoice n k) ;;;
  w <- get_world ;;
  let '(l, s) := np_random_choice R (np_random w) n k in
  set_np_random s ;;; ret l.

(** [self.batcher.pack(self.src_data, self.trg_data)]. *)
Definition pack_batches (self : SimpleTrainingTask) : M (list batch * list batch) :=
  emit EvPack ;;;
  w <- get_world ;;
  let '(bs, (s1, s2)) :=
    pack (batcher self) (py_random w) (np_random w) (src_data self) (trg_data self) in
  set_py_random s1 ;;; set_np_random s2 ;;; ret bs.

(** [TrainingState.__init__] *)
Definition TrainingState_init : M TrainingState :=
  s <- randint 1 2147483647 ;;
  ret (mkTrainingState 0 0 0 0 s).

(** [new_epoch]: the event handler itself does nothing; registered listeners
    are notified. *)
Definition new_epoch (num_sents : Z) : M unit := emit (EvNewEpoch num_sents).

(** [advance_epoch] *)
Definition advance_epoch (env : ProcEnv) (self : SimpleTrainingTask)
  : M SimpleTrainingTask :=
  self <- match reload_command self with
          | Some _ => _augment_data_next_epoch env self
          | None => ret self
          end ;;
  s <- randint 1 2147483647 ;;
  let self := set_training_state self (with_epoch_seed (training_state self) s) in
  seed (epoch_seed (training_state self)) ;;;
  np_seed (epoch_seed (training_state self)) ;;;
  bs <- pack_batches self ;;
  let self := set_batches self (fst bs) (snd bs) in
  let self := set_training_state self
                (with_epoch_num (training_state self) (epoch_num (training_state self) + 1)) in
  let self := set_training_state self (with_steps_into_epoch (training_state self) 0) in
  let self := set_minibatch_order self (range (cur_num_minibatches self)) in
  order <- shuffle (minibatch_order self) ;;
  let self := set_minibatch_order self order in
  new_epoch (cur_num_sentences self) ;;;
  ret self.

(** ** [next_minibatch]: the generator

    A generator object is either not yet started or suspended at its [yield]
    with the part of [self.minibatch_order] the [for] loop has not visited.
    The task is the object shared with the consumer: each pull takes the
    task as it is then and returns it as the generator leaves it. *)
Inductive generator : Type :=
| GenCreated
| GenSuspended (rest : list Z).

Inductive pulled : Type :=
| Yield (src trg : batch) (g : generator) (self : SimpleTrainingTask)
| OutOfFuel.

(** The body of the [for] loop up to its [yield]. *)
Definition yield_batch (self : SimpleTrainingTask) (batch_num : Z) (rest : list Z)
  : M pulled :=
  src <- lift (py_index (src_batches self) batch_num) ;;
  trg <- lift (py_index (trg_batches self) batch_num) ;;
  ret (Yield src trg (GenSuspended rest) self).

(** The [while True] loop entered at its top; [fuel] bounds the number of
    epochs that may go by without a single minibatch. *)
Fixpoint sweep (fuel : nat) (env : ProcEnv) (self : SimpleTrainingTask) : M pulled :=
  match fuel with
  | O => ret OutOfFuel
  | S fuel' =>
      self <- advance_epoch env self ;;
      match minibatch_order self with
      | batch_num :: rest => yield_batch self batch_num rest
      | [] => sweep fuel' env self
      end
  end.

(** One [next()] on the generator. *)
Definition next_minibatch (fuel : nat) (env : ProcEnv) (g : generator)
  (self : SimpleTrainingTask) : M pulled :=
  match g with
  | GenCreated => sweep fuel env self
  | GenSuspended rest =>
      let self := set_training_state self
        (with_steps_into_epoch (training_state self)
           (steps_into_epoch (training_state self) + 1)) in
      match rest with
      | batch_num :: rest' => yield_batch self batch_num rest'
      | [] => sweep fuel env self
      end
  end.

(** ** [read_training_corpus] *)

Definition mismatch_message (a b : Z) : string :=
  String.append "training src sentences don't match trg sentences: "
    (String.append (str_of_int a) (String.append " != " (String.append (str_of_int b) "!"))).

(** [n or reader.count_sents(file)], where [reader] is an attribute of
    [self]. *)
Definition or_count (n : Z) (attr : string) (reader : option Reader) (file : option string)
  : result Z :=
  if n =? 0 then
    match reader with
    | Some r => Ok (count_sents r file)
    | None => Raise (AttributeError attr)
    end
  else Ok n.

(** The exception raised inside the paired loop. *)
Definition loop_mismatch (self : SimpleTrainingTask) (src_len trg_len : Z) : exn :=
  match or_count src_len "src_reader" (self_src_reader self) (src_file self) with
  | Raise e => e
  | Ok a =>
      match or_count trg_len "trg_reader" (self_trg_reader self) (trg_file self) with
      | Raise e => e
      | Ok b => RuntimeError (mismatch_message a b)
      end
  end.

Definition len_ok (bound : option Z) (s : sentence) : bool :=
  match bound with
  | None => true
  | Some m => len s <=? m
  end.

(** The loop over [zip_longest(src_train_iterator, trg_train_iterator)];
    [src_data] and [trg_data] are the lists built so far. *)
Fixpoint read_loop (self : SimpleTrainingTask) (src_len trg_len : Z)
  (src_it trg_it : list sentence) (src_data trg_data : list sentence)
  : result (list sentence * list sentence) :=
  match src_it, trg_it with
  | [], [] => Ok (src_data, trg_data)
  | src_sent :: src_it', trg_sent :: trg_it' =>
      let src_len_ok := len_ok (max_src_len self) src_sent in
      let trg_len_ok := len_ok (max_trg_len self) trg_sent in
      if src_len_ok && trg_len_ok
      then read_loop self src_len trg_len src_it' trg_it'
             (src_data ++ [src_sent]) (trg_data ++ [trg_sent])
      else read_loop self src_len trg_len src_it' trg_it' src_data trg_data
  | _, _ => Raise (loop_mismatch self src_len trg_len)
  end.

Definition truthy_opt (o : option Z) : bool :=
  match o with
  | Some n => negb (n =? 0)
  | None => false
  end.

Definition read_training_corpus (self : SimpleTrainingTask) : M SimpleTrainingTask :=
  let self := set_data self [] [] in
  emit (EvCountSents "src") ;;;
  let src_len := count_sents (src_reader (model self)) (src_file self) in
  emit (EvCountSents "trg") ;;;
  let trg_len := count_sents (trg_reader (model self)) (trg_file self) in
  sf <- (if negb (sample_train_sents self =? 0) then
           (if negb (src_len =? trg_len)
            then raise (RuntimeError (mismatch_message src_len trg_len)) else ret tt) ;;;
           let self := set_sample_train_sents self (sample_train_sents self) in
           ids <- choice src_len (sample_train_sents self) ;;
           ret (self, Some ids)
         else if truthy_opt (max_num_train_sents self) then
           (if negb (src_len =? trg_len)
            then raise (RuntimeError (mismatch_message src_len trg_len)) else ret tt) ;;;
           ret (self, Some (range (Z.min (match max_num_train_sents self with
                                          | Some m => m | None => 0 end) trg_len)))
         else ret (self, None)) ;;
  let self := fst sf in
  let filter_ids := snd sf in
  emit (EvReadSents "src") ;;;
  let src_train_iterator := read_sents (src_reader (model self)) (src_file self) filter_ids in
  emit (EvReadSents "trg") ;;;
  let trg_train_iterator := read_sents (trg_reader (model self)) (trg_file self) filter_ids in
  data <- lift (read_loop self src_len trg_len src_train_iterator trg_train_iterator [] []) ;;
  let self := set_data self (fst data) (snd data) in
  emit EvFreeze ;;;
  emit EvFreeze ;;;
  bs <- pack_batches self ;;
  ret (set_batches self (fst bs) (snd bs)).

(** ** [training_step] *)

(** Modelled from the spec: the class [LossBuilder] of [xnmt/loss.py] is
    missing from the sources at hand.  The spec describes the loss record as
    a mapping from loss-component name to scalar value plus a combined total:
    [add_loss] records a named term, [compute] returns the combined scalar,
    the sum of the recorded terms.  [training_step] itself iterates
    [loss_nodes] as (name, expression) pairs, hence the list of pairs. *)
Definition LossBuilder : Type := list (string * Expression).

(** Modelled from the spec: [LossBuilder.add_loss], missing from the sources;
    it records one named term. *)
Definition add_loss (lb : LossBuilder) (loss_name : string) (loss_expr : Expression)
  : LossBuilder := lb ++ [(loss_name, loss_expr)].

(** The sum of a non-empty list of expressions, added left to right. *)
Definition esum (l : list Expression) : Expression :=
  match l with
  | [] => EInput 0%float
  | e :: rest => fold_left EAdd rest e
  end.

(** Modelled from the spec: [LossBuilder.compute], missing from the sources;
    it returns the combined scalar, the sum of the recorded terms. *)
Definition compute (lb : LossBuilder) : Expression := esum (map snd lb).

(** The scalar an expression evaluates to. *)
Fixpoint value (e : Expression) : float :=
  match e with
  | EInput v => v
  | EAdd a b => PrimFloat.add (value a) (value b)
  | ENeg a => PrimFloat.opp (value a)
  | ENoBackprop a => value a
  end.

(** The inputs an expression back-propagates into: [dy.nobackprop] cuts the
    gradient path. *)
Fixpoint gradient_inputs (e : Expression) : list float :=
  match e with
  | EInput v => [v]
  | EAdd a b => gradient_inputs a ++ gradient_inputs b
  | ENeg a => gradient_inputs a
  | ENoBackprop _ => []
  end.

(** One turn of the loop over [standard_loss.loss_nodes].  An expression
    object is true in a condition, so [not loss] holds only while [loss] is
    still [None]. *)
Definition bundle_step (acc : LossBuilder * option Expression) (node : string * Expression)
  : LossBuilder * option Expression :=
  let '(loss_builder, loss) := acc in
  let '(loss_name, loss_expr) := node in
  (add_loss loss_builder loss_name loss_expr,
   Some (match loss with
         | None => loss_expr
         | Some l => EAdd l loss_expr
         end)).

(** The branch on [standard_loss.__class__ == LossBuilder]: the builder and
    the primary loss it leaves. *)
Definition record_standard_loss (loss_builder : LossBuilder) (standard_loss : Loss)
  : LossBuilder * option Expression :=
  match standard_loss with
  | BundleLoss loss_nodes => fold_left bundle_step loss_nodes (loss_builder, None)
  | ScalarLoss e => (add_loss loss_builder "loss" e, Some e)
  end.

Definition training_step (self : SimpleTrainingTask) (src trg : batch) : M Expression :=
  let loss_builder : LossBuilder := [] in
  emit (EvCalcLoss src trg) ;;;
  let standard_loss := calc_loss (model self) src trg in
  let '(loss_builder, standard_loss) := record_standard_loss loss_builder standard_loss in
  neg <- match standard_loss with
         | Some l => ret (ENeg l)
         | None => raise (TypeError "bad operand type for unary -: 'NoneType'")
         end ;;
  emit (EvCalcAdditionalLoss (ENoBackprop neg)) ;;;
  let additional_loss := calc_additional_loss (model self) (ENoBackprop neg) in
  let loss_builder :=
    match additional_loss with
    | Some a => add_loss loss_builder "additional_loss" a
    | None => loss_builder
    end in
  let loss_value := compute loss_builder in
  emit (EvUpdateEpochLoss loss_builder) ;;;
  emit EvReportTrainProcess ;;;
  ret loss_value.

(** ** [checkpoint] *)

(** The evaluation loop: [dev_scores] after every dev task was run. *)
Fixpoint eval_dev_tasks (env : CheckpointEnv) (tasks : list nat) (dev_scores : list Z)
  : M (list Z) :=
  match tasks with
  | [] => ret dev_scores
  | dev_task :: tasks' =>
      emit (EvDevEval dev_task) ;;;
      match dev_eval env dev_task with
      | ScoreList l => eval_dev_tasks env tasks' (dev_scores ++ l)
      | OneScore s => eval_dev_tasks env tasks' (dev_scores ++ [s])
      end
  end.

Fixpoint report_auxiliary_scores (scores : list Z) : M unit :=
  match scores with
  | [] => ret tt
  | s :: scores' => emit (EvReportAuxiliaryScore s) ;;; report_auxiliary_scores scores'
  end.

(** The local variable [should_decay], computed once [cur_attempt] has been
    incremented. *)
Definition is_None {A} (o : option A) : bool :=
  match o with
  | None => true
  | Some _ => false
  end.

Definition should_decay (self : SimpleTrainingTask) : bool :=
  let st := training_state self in
  let standard :=
    (is_None (initial_patience self) || (num_times_lr_decayed st >? 0))
    && (cur_attempt st >=? patience self) in
  let first :=
    match initial_patience self with
    | Some ip => (num_times_lr_decayed st =? 0) && (cur_attempt st >=? ip)
    | None => false
    end in
  standard || first.

(** The body of [if should_decay:]. *)
Definition apply_decay (self : SimpleTrainingTask) : M SimpleTrainingTask :=
  let self := set_training_state self
    (with_num_times_lr_decayed (training_state self)
       (num_times_lr_decayed (training_state self) + 1)) in
  if num_times_lr_decayed (training_state self) >? lr_decay_times self then
    print "  Early stopping" ;;;
    ret (set_early_stopping_reached self true)
  else
    match trainer self with
    | None => raise (AttributeError "trainer")
    | Some tr =>
        let tr := mkTrainer (PrimFloat.mul (learning_rate tr) (lr_decay self)) in
        let self := set_trainer self (Some tr) in
        emit (EvPrintLearningRate (learning_rate tr)) ;;;
        (if restart_trainer self then
           print "  restarting trainer and reverting learned weights to best checkpoint.." ;;;
           emit EvTrainerRestart ;;;
           emit EvRevertToBestModel
         else ret tt) ;;;
        ret self
    end.

(** The block under [# Perform evaluation]. *)
Definition perform_evaluation (env : CheckpointEnv) (self : SimpleTrainingTask) : M unit :=
  match dev_tasks self with
  | Some ((_ :: _) as tasks) =>
      dev_scores <- eval_dev_tasks env tasks [] ;;
      match dev_scores with
      | [] => raise (IndexError "list index out of range")
      | primary :: auxiliary =>
          emit (EvSetDevScore primary) ;;;
          report_auxiliary_scores auxiliary
      end
  | _ => ret tt
  end.

(** [self.training_state.cur_attempt += 1] *)
Definition attempt_failed (self : SimpleTrainingTask) : SimpleTrainingTask :=
  set_training_state self
    (with_cur_attempt (training_state self) (cur_attempt (training_state self) + 1)).

Definition checkpoint (env : CheckpointEnv) (self : SimpleTrainingTask)
  (control_learning_schedule : bool) : M (bool * SimpleTrainingTask) :=
  emit EvNewDev ;;;
  perform_evaluation env self ;;;
  if control_learning_schedule then
    print "> Checkpoint" ;;;
    emit EvReportDevAndCheckModel ;;;
    if dev_improved env then
      let ret_ := match model_file self with Some _ => true | None => false end in
      ret (ret_, set_training_state self (with_cur_attempt (training_state self) 0))
    else
      let self := attempt_failed self in
      if PrimFloat.ltb (lr_decay self) 1%float then
        if should_decay self then
          self <- apply_decay self ;;
          ret (false, self)
        else ret (false, self)
      else ret (false, self)
  else ret (false, self).

(** ** [__init__] *)

Record YamlContext : Type := mkYamlContext {
  dynet_param_collection_model_file : option string
}.

(** The default batcher, [SrcBatcher(32)]. *)
Variable SrcBatcher_32 : Batcher.

(** [self] is the instance being initialised: of its attributes only those
    the constructor does not assign survive. *)
Definition __init__ (env : ProcEnv) (self : SimpleTrainingTask)
  (yaml_context : option YamlContext) (model : Model)
  (src_file trg_file : option string) (batcher : option Batcher)
  (pretrained_model_file : string) (src_format : string)
  (run_for_epochs : option Z) (lr_decay : float) (lr_decay_times : Z)
  (patience : Z) (initial_patience : option Z) (dev_tasks : option (list nat))
  (restart_trainer : bool) (reload_command : option string)
  : M SimpleTrainingTask :=
  yc <- match yaml_context with
        | Some yc => ret yc
        | None => raise AssertionError
        end ;;
  (if PrimFloat.ltb 1%float lr_decay || PrimFloat.leb lr_decay 0%float
   then raise (RuntimeError "illegal lr_decay, must satisfy: 0.0 < lr_decay <= 1.0")
   else ret tt) ;;;
  training_state <- TrainingState_init ;;
  let self :=
    mkTask (dynet_param_collection_model_file yc) src_file trg_file dev_tasks
      lr_decay patience initial_patience lr_decay_times restart_trainer run_for_epochs
      false training_state reload_command (_augmentation_handle self) model
      pretrained_model_file 0 None None None
      (match batcher with Some b => b | None => SrcBatcher_32 end)
      (src_data self) (trg_data self) (src_batches self) (trg_batches self)
      (minibatch_order self)
      (trainer self) (corpus_parser self) (self_src_reader self) (self_trg_reader self) in
  self <- match reload_command with
          | Some _ => _augment_data_initial env (set_augmentation_handle self None)
          | None => ret self
          end ;;
  (if negb (String.eqb pretrained_model_file "")
   then emit (EvLoadPretrained (String.append pretrained_model_file ".data"))
   else ret tt) ;;;
  (if String.eqb src_format "contvec" then emit EvSetPadToken else ret tt) ;;;
  self <- read_training_corpus self ;;
  emit EvNewLogger ;;;
  ret self.

(** ** The training loop seen from the task

    A driver pulls minibatches, performs training steps and runs dev
    checkpoints, in any order. *)
Inductive op : Type :=
| OpNextMinibatch (fuel : nat) (env : ProcEnv)
| OpTrainingStep (src trg : batch)
| OpCheckpoint (env : CheckpointEnv) (control_learning_schedule : bool).

(** [None]: the pull ran out of fuel. *)
Definition run_op (o : op) (st : generator * SimpleTrainingTask)
  : M (option (generator * SimpleTrainingTask)) :=
  let '(g, self) := st in
  match o with
  | OpNextMinibatch fuel env =>
      p <- next_minibatch fuel env g self ;;
      match p with
      | Yield _ _ g' self' => ret (Some (g', self'))
      | OutOfFuel => ret None
      end
  | OpTrainingStep src trg =>
      training_step self src trg ;;;
      ret (Some (g, self))
  | OpCheckpoint env control =>
      r <- checkpoint env self control ;;
      ret (Some (g, snd r))
  end.

Fixpoint run (ops : list op) (st : generator * SimpleTrainingTask)
  : M (option (generator * SimpleTrainingTask)) :=
  match ops with
  | [] => ret (Some st)
  | o :: ops' =>
      r <- run_op o st ;;
      match r with
      | Some st' => run ops' st'
      | None => ret None
      end
  end.

End WithRandom.

(** ** Contracts of the random number library *)

(** [random.randint(lo, hi)] returns an integer of the closed interval. *)
Definition randint_in_range (R : RandomLib) : Prop :=
  forall s lo hi, lo <= hi ->
    lo <= fst (random_randint R s lo hi) <= hi.

(** [np.random.shuffle] reorders its argument. *)
Definition shuffle_permutes (R : RandomLib) : Prop :=
  forall s l, Permutation l (fst (np_random_shuffle R s l)).

(** ** Concrete collaborators, used to run the definitions *)

Module Toy.

Definition lcg (s : Z) : Z := (s * 1103515245 + 12345) mod 2147483648.

Definition rotate {A} (k : nat) (l : list A) : list A := skipn k l ++ firstn k l.

Definition random : RandomLib :=
  mkRandomLib
    (fun s lo hi => (lo + lcg s mod (hi - lo + 1), lcg s))
    (fun s => s)
    (fun s => s + 1)
    (fun s l => (rotate (Z.to_nat (lcg s mod (len l + 1))) l, lcg s))
    (fun s n k => (firstn (Z.to_nat k) (range n), s)).

(** A reader over a fixed file content. *)
Definition reader (sents : list sentence) : Reader :=
  mkReader
    (fun _ => len sents)
    (fun _ ids => match ids with
                  | None => sents
                  | Some l => map (fun i => nth (Z.to_nat i) sents []) l
                  end).

(** A batcher that puts every sentence in a batch of its own. *)
Definition one_per_batch : Batcher :=
  mkBatcher (fun s1 s2 src trg =>
               ((map (fun s => [s]) src, map (fun s => [s]) trg), (s1, s2))).

(** A model over a three-sentence corpus whose loss is the bundle
    [{a: 2.0, b: 3.0}], without or with the auxiliary loss [1.5]. *)
Definition corpus_src : list sentence := [[1; 2]; [3]; [4; 5; 6]].
Definition corpus_trg : list sentence := [[7]; [8; 9]; [10]].

Definition bundle_ab : Loss := BundleLoss [("a", EInput 2%float); ("b", EInput 3%float)].

Definition model : Model :=
  mkModel (reader corpus_src) (reader corpus_trg) (fun _ _ => bundle_ab) (fun _ => None).

Definition model_aux : Model :=
  mkModel (reader corpus_src) (reader corpus_trg) (fun _ _ => bundle_ab)
    (fun _ => Some (EInput 1.5%float)).

(** A model whose target file is one sentence short. *)
Definition model_short : Model :=
  mkModel (reader corpus_src) (reader [[7]; [8; 9]]) (fun _ _ => bundle_ab) (fun _ => None).


(** A fresh instance, before [__init__] has run, with a trainer attached. *)
Definition blank_with (m : Model) (parser : option unit) : SimpleTrainingTask :=
  mkTask None None None None 1%float 1 None 3 false None false
    (mkTrainingState 0 0 0 0 0) None None m "" 0 None None None one_per_batch
    [] [] [] [] [] (Some (mkTrainer 1%float)) parser None None.

Definition blank : SimpleTrainingTask := blank_with model (Some tt).

Definition world0 : World := mkWorld 42 7 0 [].

Definition no_proc : ProcEnv := mkProcEnv (fun _ => 0) (fun _ => None).
Definition exited_proc : ProcEnv := mkProcEnv (fun _ => 0) (fun _ => Some 0).

Definition yaml : option YamlContext := Some (mkYamlContext (Some "model.mod")).

(** [SimpleTrainingTask(yaml_context, model, run_for_epochs=2, lr_decay=...,
    lr_decay_times=..., patience=..., initial_patience=...)] on the
    three-sentence corpus. *)
Definition construct (m : Model) (lr_decay : float) (lr_decay_times patience : Z)
  (initial_patience : option Z) (reload_command : option string)
  : result SimpleTrainingTask * World :=
  __init__ random one_per_batch exited_proc blank yaml m (Some "train.src") (Some "train.trg")
    None "" "text" (Some 2) lr_decay lr_decay_times patience initial_patience None false
    reload_command world0.

Definition the_task (r : result SimpleTrainingTask * World) : SimpleTrainingTask :=
  match fst r with
  | Ok t => t
  | Raise _ => blank
  end.

Definition failed : CheckpointEnv := mkCheckpointEnv (fun _ => OneScore 0) false.
Definition improved : CheckpointEnv := mkCheckpointEnv (fun _ => OneScore 0) true.

End Toy.

(** ** Vocabulary of the statements *)

(** The scores [eval_dev_tasks] collects. *)
Fixpoint collect_dev_scores (env : CheckpointEnv) (tasks : list nat) (dev_scores : list Z)
  : list Z :=
  match tasks with
  | [] => dev_scores
  | dev_task :: tasks' =>
      match dev_eval env dev_task with
      | ScoreList l => collect_dev_scores env tasks' (dev_scores ++ l)
      | OneScore s => collect_dev_scores env tasks' (dev_scores ++ [s])
      end
  end.

(** The dev tasks, if any, report at least one score, so that
    [dev_scores[0]] exists. *)
Definition dev_scores_available (env : CheckpointEnv) (self : SimpleTrainingTask) : Prop :=
  match dev_tasks self with
  | Some ((_ :: _) as tasks) => collect_dev_scores env tasks [] <> []
  | _ => True
  end.

(** The part of a task the learning schedule lives in. *)
Definition schedule (self : SimpleTrainingTask)
  : Z * bool * option Trainer :=
  (num_times_lr_decayed (training_state self), early_stopping_reached self, trainer self).

(** The configuration of the learning schedule. *)
Definition schedule_config (self : SimpleTrainingTask)
  : float * Z * option Z * Z * bool :=
  (lr_decay self, patience self, initial_patience self, lr_decay_times self,
   restart_trainer self).

(** A task with [lr_decay = 0.5], [lr_decay_times = 0] and [patience = 1]
    after its first pull and one failed checkpoint: it is at step 0 of
    epoch 1 and early stopping has been reached. *)
Definition stopping_construct : result SimpleTrainingTask * World :=
  Toy.construct Toy.model 0.5%float 0 1 None None.

Definition stopped_early : SimpleTrainingTask :=
  match fst (run Toy.random [OpNextMinibatch 1 Toy.no_proc; OpCheckpoint Toy.failed true]
               (GenCreated, Toy.the_task stopping_construct) (snd stopping_construct)) with
  | Ok (Some (_, t)) => t
  | _ => Toy.blank
  end.

(** What [advance_epoch] does once the augmentation step is over, in closed
    form: the task and the world it leaves. *)
Definition begin_epoch (R : RandomLib) (self : SimpleTrainingTask) (w : World)
  : SimpleTrainingTask * World :=
  let s := fst (random_randint R (py_random w) 1 2147483647) in
  let packed := pack (batcher self) (random_seed R s) (np_random_seed R s)
                  (src_data self) (trg_data self) in
  let shuffled := np_random_shuffle R (snd (snd packed)) (range (len (fst (fst packed)))) in
  (set_minibatch_order
     (set_training_state (set_batches self (fst (fst packed)) (snd (fst packed)))
        (mkTrainingState (num_times_lr_decayed (training_state self))
           (cur_attempt (training_state self))
           (epoch_num (training_state self) + 1) 0 s))
     (fst shuffled),
   mkWorld (fst (snd packed)) (snd shuffled) (next_pid w)
     (trace w ++ [EvRandint 1 2147483647; EvSeed s; EvNpSeed s; EvPack; EvShuffle;
                  EvNewEpoch (len (src_data self))])).

(** A task with the default [lr_decay = 1.0] and [patience = 1], and one
    with [lr_decay = 0.5], [initial_patience = 1] and [patience = 3]. *)
Definition default_decay_task : SimpleTrainingTask :=
  Toy.the_task (Toy.construct Toy.model 1%float 3 1 None None).

Definition two_tier_task : SimpleTrainingTask :=
  Toy.the_task (Toy.construct Toy.model 0.5%float 3 3 (Some 1) None).

(** Two states of a task agree on the learning schedule. *)
Definition same_schedule (self self' : SimpleTrainingTask) : Prop :=
  schedule self' = schedule self /\
  schedule_config self' = schedule_config self /\
  cur_attempt (training_state self') = cur_attempt (training_state self).

(** A task with [lr_decay = 0.5], [lr_decay_times = 2] and [patience = 1],
    and the task it becomes after [n] failed checkpoints in a row. *)
Definition budget_two_task : SimpleTrainingTask :=
  Toy.the_task (Toy.construct Toy.model 0.5%float 2 1 None None).

Fixpoint after_failed_checkpoints (n : nat) (self : SimpleTrainingTask) : SimpleTrainingTask :=
  match n with
  | O => self
  | S n' =>
      match fst (checkpoint Toy.failed (after_failed_checkpoints n' self) true Toy.world0) with
      | Ok (_, self') => self'
      | Raise _ => self
      end
  end.

(** The learning rate of the attached trainer. *)
Definition learning_rate_of (self : SimpleTrainingTask) : option float :=
  match trainer self with
  | Some tr => Some (learning_rate tr)
  | None => None
  end.

(** The paired loop of [read_training_corpus] over the unfiltered streams. *)
Definition unfiltered_loop (self : SimpleTrainingTask)
  : result (list sentence * list sentence) :=
  read_loop (set_data self [] [])
    (count_sents (src_reader (model self)) (src_file self))
    (count_sents (trg_reader (model self)) (trg_file self))
    (read_sents (src_reader (model self)) (src_file self) None)
    (read_sents (trg_reader (model self)) (trg_file self) None) [] [].

(** The world after further events. *)
Definition with_trace (w : World) (events : list event) : World :=
  mkWorld (py_random w) (np_random w) (next_pid w) (trace w ++ events).

(** The sum of a non-empty list of floats, added left to right. *)
Definition float_sum (l : list float) : float :=
  match l with
  | [] => 0%float
  | x :: rest => fold_left PrimFloat.add rest x
  end.

(** What [training_step] passes to [calc_additional_loss] for a primary
    loss, what it records, and the events of one step. *)
Definition detached_negative (primary : Expression) : Expression :=
  ENoBackprop (ENeg primary).

Definition recorded (self : SimpleTrainingTask) (named : LossBuilder)
  (primary : Expression) : LossBuilder :=
  match calc_additional_loss (model self) (detached_negative primary) with
  | Some a => named ++ [("additional_loss", a)]
  | None => named
  end.

Definition step_events (self : SimpleTrainingTask) (src trg : batch)
  (named : LossBuilder) (primary : Expression) : list event :=
  [EvCalcLoss src trg; EvCalcAdditionalLoss (detached_negative primary);
   EvUpdateEpochLoss (recorded self named primary); EvReportTrainProcess].

(** The status of an outstanding sub-process as [poll()] leaves it. *)
Definition polled (env : ProcEnv) (h : Popen) : Popen :=
  mkPopen (pid h) (args h)
    (match returncode h with
     | Some c => Some c
     | None => poll_status env (pid h)
     end).

(** The world after a [Popen] call and further events. *)
Definition with_process (w : World) (events : list event) : World :=
  mkWorld (py_random w) (np_random w) (S (next_pid w)) (trace w ++ events).

(** The task a direct constructor call with [reload_command = "true"]
    returns: the instance has no [corpus_parser] attribute. *)
Definition reloading_construct : result SimpleTrainingTask * World :=
  __init__ Toy.random Toy.one_per_batch Toy.exited_proc (Toy.blank_with Toy.model None)
    Toy.yaml Toy.model (Some "train.src") (Some "train.trg") None "" "text" (Some 2)
    1%float 3 1 None None false (Some "true") Toy.world0.

Definition reloading_task : SimpleTrainingTask := Toy.the_task reloading_construct.

(** The (src, trg) pairs an epoch hands out, in the order of
    [minibatch_order]. *)
Definition epoch_batches (self : SimpleTrainingTask) : list (result batch * result batch) :=
  map (fun batch_num => (py_index (src_batches self) batch_num,
                         py_index (trg_batches self) batch_num))
    (minibatch_order self).

(** What the batcher returns when both generators were seeded with [s]. *)
Definition packed_with (R : RandomLib) (self : SimpleTrainingTask) (s : Z)
  : (list batch * list batch) * (rng_state * rng_state) :=
  pack (batcher self) (random_seed R s) (np_random_seed R s) (src_data self) (trg_data self).

(** The consumer of the generator: [k] pulls in a row, with the pairs they
    yield; [None] when a pull runs out of fuel. *)
Fixpoint drain (R : RandomLib) (fuel : nat) (env : ProcEnv) (k : nat) (g : generator)
  (self : SimpleTrainingTask)
  : M (option (list (batch * batch) * generator * SimpleTrainingTask)) :=
  match k with
  | O => ret (Some ([], g, self))
  | S k' =>
      bind (next_minibatch R fuel env g self) (fun p =>
        match p with
        | Yield src trg g' self' =>
            bind (drain R fuel env k' g' self') (fun r =>
              ret (match r with
                   | Some (yields, g'', self'') => Some ((src, trg) :: yields, g'', self'')
                   | None => None
                   end))
        | OutOfFuel => ret None
        end)
  end.

(** The task as the generator sees it when it is resumed. *)
Definition resumed (g : generator) (self : SimpleTrainingTask) : SimpleTrainingTask :=
  match g with
  | GenCreated => self
  | GenSuspended _ =>
      set_training_state self
        (with_steps_into_epoch (training_state self)
           (steps_into_epoch (training_state self) + 1))
  end.

(** Two states of a task within one epoch: same batches, same order, same
    epoch number. *)
Definition same_epoch (self self' : SimpleTrainingTask) : Prop :=
  src_batches self' = src_batches self /\
  trg_batches self' = trg_batches self /\
  minibatch_order self' = minibatch_order self /\
  epoch_num (training_state self') = epoch_num (training_state self).

Definition yielded (p : batch * batch) : result batch * result batch :=
  (Ok (fst p), Ok (snd p)).


(** The first epoch of the default task. *)
Definition first_epoch : result SimpleTrainingTask * World :=
  advance_epoch Toy.random Toy.no_proc default_decay_task Toy.world0.

Definition first_epoch_task : SimpleTrainingTask := Toy.the_task first_epoch.

(** The handle [__init__] leaves in [_augmentation_handle], and the events
    of a successful constructor call, for the process id free at the start. *)
Definition initial_command (cmd : string) : string :=
  String.append cmd (String.append " --epoch " (str_of_int 0)).

Definition initial_handle (env : ProcEnv) (blank : SimpleTrainingTask)
  (reload_command : option string) (p : nat) : option Popen :=
  match reload_command with
  | Some cmd => Some (mkPopen p (initial_command cmd) (Some (wait_status env p)))
  | None => _augmentation_handle blank
  end.

Definition corpus_events : list event :=
  [EvCountSents "src"; EvCountSents "trg"; EvReadSents "src"; EvReadSents "trg";
   EvFreeze; EvFreeze; EvPack].

Definition init_events (reload_command : option string) (pretrained_model_file : string)
  (src_format : string) (p : nat) : list event :=
  [EvRandint 1 2147483647]
  ++ match reload_command with
     | Some cmd => [EvPrint "initial augmentation"; EvPopen (initial_command cmd) p; EvWait p]
     | None => []
     end
  ++ (if negb (String.eqb pretrained_model_file "")
      then [EvLoadPretrained (String.append pretrained_model_file ".data")] else [])
  ++ (if String.eqb src_format "contvec" then [EvSetPadToken] else [])
  ++ corpus_events ++ [EvNewLogger].

(** A sentence pair passes the length limits of the task. *)
Definition pair_len_ok (self : SimpleTrainingTask) (p : sentence * sentence) : bool :=
  len_ok (max_src_len self) (fst p) && len_ok (max_trg_len self) (snd p).

(** A filter on the number of training sentences is configured. *)
Definition filter_configured (self : SimpleTrainingTask) : bool :=
  negb (sample_train_sents self =? 0) || truthy_opt (max_num_train_sents self).

(** The blank toy instance with [max_src_len = 2]. *)
Definition limited_task : SimpleTrainingTask :=
  mkTask None None None None 1%float 1 None 3 false None false
    (mkTrainingState 0 0 0 0 0) None None Toy.model "" 0 None (Some 2) None
    Toy.one_per_batch [] [] [] [] [] None None None None.

(** The blank toy instance over the short target file, with
    [max_num_train_sents = 2]. *)
Definition capped_short_task : SimpleTrainingTask :=
  mkTask None None None None 1%float 1 None 3 false None false
    (mkTrainingState 0 0 0 0 0) None None Toy.model_short "" 0 (Some 2) None None
    Toy.one_per_batch [] [] [] [] [] None None None None.

(** The scores of one dev task as a list. *)
Definition dev_scores_of (env : CheckpointEnv) (dev_task : nat) : list Z :=
  match dev_eval env dev_task with
  | OneScore s => [s]
  | ScoreList l => l
  end.

(** The events of the evaluation block of a checkpoint whose dev tasks
    report at least one score. *)
Definition evaluation_events (env : CheckpointEnv) (self : SimpleTrainingTask) : list event :=
  match dev_tasks self with
  | Some ((_ :: _) as tasks) =>
      map EvDevEval tasks
      ++ match flat_map (dev_scores_of env) tasks with
         | [] => []
         | primary :: auxiliary =>
             EvSetDevScore primary :: map EvReportAuxiliaryScore auxiliary
         end
  | _ => []
  end.

(** The events of a checkpoint up to the logger's verdict. *)
Definition verdict_events (env : CheckpointEnv) (self : SimpleTrainingTask) : list event :=
  EvNewDev :: evaluation_events env self
  ++ [EvPrint "> Checkpoint"; EvReportDevAndCheckModel].

(** A task whose two dev tasks report [[]] and [[5; 6]]... and an
    environment for them. *)
Definition two_dev_tasks : SimpleTrainingTask :=
  mkTask (Some "model.mod") None None (Some [0%nat; 1%nat]) 0.5%float 1 None 3 true None
    false (mkTrainingState 0 0 1 0 7) None None Toy.model "" 0 None None None
    Toy.one_per_batch [] [] [] [] [] (Some (mkTrainer 1%float)) None None None.

Definition scores_env (improved : bool) : CheckpointEnv :=
  mkCheckpointEnv (fun t => match t with O => ScoreList [] | _ => ScoreList [5; 6] end)
    improved.

(** The events of the body of [if should_decay:]. *)
Definition decay_events (self : SimpleTrainingTask) (tr : Trainer) : list event :=
  if num_times_lr_decayed (training_state self) + 1 >? lr_decay_times self
  then [EvPrint "  Early stopping"]
  else EvPrintLearningRate (PrimFloat.mul (learning_rate tr) (lr_decay self))
       :: (if restart_trainer self
           then [EvPrint "  restarting trainer and reverting learned weights to best checkpoint..";
                 EvTrainerRestart; EvRevertToBestModel]
           else []).

(** The condition of the standard rule on the counters before a failed
    checkpoint. *)
Definition decays_next (self : SimpleTrainingTask) : Prop :=
  (initial_patience self = None \/ num_times_lr_decayed (training_state self) > 0) /\
  cur_attempt (training_state self) + 1 >= patience self.

(** A task with [lr_decay = 0.5], [lr_decay_times = 3] and [patience = 3]
    that restarts its trainer on decay, after four failed checkpoints. *)
Definition patient_task : SimpleTrainingTask :=
  mkTask (Some "model.mod") None None None 0.5%float 3 None 3 true None
    false (mkTrainingState 1 3 1 0 7) None None Toy.model "" 0 None None None
    Toy.one_per_batch [] [] [] [] [] (Some (mkTrainer 0.5%float)) None None None.

(** What [should_stop_training] reads besides the epoch counters. *)
Definition stop_config (self : SimpleTrainingTask) : bool * option Z :=
  (early_stopping_reached self, run_for_epochs self).

(** The second epoch of the default task, entered after the three pulls of
    the first. *)
Definition first_epoch_drained : result (option (list (batch * batch) * generator
                                                 * SimpleTrainingTask)) * World :=
  drain Toy.random 1 Toy.no_proc 3 GenCreated default_decay_task Toy.world0.

Definition drained_task : SimpleTrainingTask :=
  match fst first_epoch_drained with
  | Ok (Some (_, _, t)) => t
  | _ => Toy.blank
  end.

Definition second_epoch : result SimpleTrainingTask * World :=
  advance_epoch Toy.random Toy.no_proc (resumed (GenSuspended []) drained_task)
    (snd first_epoch_drained).

(** The regeneration command for an epoch number. *)
Definition regeneration_command (cmd : string) (n : Z) : string :=
  String.append cmd (String.append " --epoch " (str_of_int n)).

(** The events of [advance_epoch] after the augmentation step, for the seed
    drawn and the number of sentences. *)
Definition epoch_events (s : Z) (num_sents : Z) : list event :=
  [EvRandint 1 2147483647; EvSeed s; EvNpSeed s; EvPack; EvShuffle; EvNewEpoch num_sents].

(** The toy task with a corpus parser attached, constructed with
    [reload_command = "true"], and the same after its first epoch. *)
Definition reloading_parser_construct : result SimpleTrainingTask * World :=
  __init__ Toy.random Toy.one_per_batch Toy.exited_proc Toy.blank
    Toy.yaml Toy.model (Some "train.src") (Some "train.trg") None "" "text" (Some 2)
    1%float 3 1 None None false (Some "true") Toy.world0.

Definition reloading_parser_task : SimpleTrainingTask :=
  Toy.the_task reloading_parser_construct.

Definition reloading_second : result SimpleTrainingTask * World :=
  advance_epoch Toy.random Toy.exited_proc reloading_parser_task
    (snd reloading_parser_construct).


(** A model whose [calc_loss] returns a [LossBuilder] without loss nodes. *)
Definition model_no_terms : Model :=
  mkModel (Toy.reader Toy.corpus_src) (Toy.reader Toy.corpus_trg)
    (fun _ _ => BundleLoss []) (fun _ => Some (EInput 1.5%float)).

(** What [training_step] raises on [-None]. *)
Definition negated_none : exn := TypeError "bad operand type for unary -: 'NoneType'".

(** What an index past the end of a list raises. *)
Definition out_of_range : exn := IndexError "list index out of range".

(** A batcher that returns one batch per source sentence and no target
    batch, and a task in epoch 0 that uses it. *)
Definition source_only_batcher : Batcher :=
  mkBatcher (fun s1 s2 src trg => ((map (fun s => [s]) src, []), (s1, s2))).

Definition source_only_task : SimpleTrainingTask :=
  mkTask None None None None 1%float 1 None 3 false (Some 2) false
    (mkTrainingState 0 0 0 0 7) None None Toy.model "" 0 None None None
    source_only_batcher Toy.corpus_src Toy.corpus_trg [] [] [] None None None None.

(** * [linear.py] *)

Module Linear.

(** A shape tuple. *)
Definition dim : Type := list Z.

(** A parameter initializer ([param_init], [bias_init]); [I] is the type of
    the DyNet initializer objects that [initializer(dim)] returns. *)
Record ParamInitializer (I : Type) : Type := mkParamInitializer {
  initializer : dim -> I
}.
Arguments initializer {I} _ _.

(** A parameter of a [dy.ParameterCollection]: its position in the
    collection, its shape and the initializer it was created with. *)
Record Parameters (I : Type) : Type := mkParameters {
  p_index : nat;
  p_dim : dim;
  p_init : I
}.
Arguments mkParameters {I} _ _ _.
Arguments p_index {I} _.
Arguments p_dim {I} _.
Arguments p_init {I} _.

Definition ParameterCollection (I : Type) : Type := list (Parameters I).

(** [model.add_parameters(dim, init=init)]: the new parameter and the
    collection that holds it. *)
Definition add_parameters {I} (model : ParameterCollection I) (d : dim) (init : I)
  : Parameters I * ParameterCollection I :=
  let p := mkParameters (List.length model) d init in
  (p, model ++ [p]).

(** The expressions the layer builds with [dy.parameter], [dy.zeros] and
    [dy.affine_transform]. *)
#[local] Unset Elimination Schemes.
Inductive dy_expr (I : Type) : Type :=
| dy_parameter (p : Parameters I)
| dy_zeros (d : Z)
| dy_affine_transform (args : list (dy_expr I))
| dy_input (name : string).
#[local] Set Elimination Schemes.
Arguments dy_parameter {I} _.
Arguments dy_zeros {I} _.
Arguments dy_affine_transform {I} _.
Arguments dy_input {I} _.

(** An instance of [Linear]; [b1] is [None] when the instance has no such
    attribute. *)
Record Linear (I : Type) : Type := mkLinear {
  bias : bool;
  output_dim : Z;
  W1 : Parameters I;
  b1 : option (Parameters I)
}.
Arguments mkLinear {I} _ _ _ _.
Arguments bias {I} _.
Arguments output_dim {I} _.
Arguments W1 {I} _.
Arguments b1 {I} _.

Definition __init__ {I} (input_dim output_dim : Z) (model : ParameterCollection I)
  (bias : bool) (param_init bias_init : ParamInitializer I)
  : Linear I * ParameterCollection I :=
  let '(W1, model) :=
    add_parameters model [output_dim; input_dim]
      (initializer param_init [output_dim; input_dim]) in
  if bias then
    let '(b1, model) :=
      add_parameters model [output_dim] (initializer bias_init [output_dim]) in
    (mkLinear bias output_dim W1 (Some b1), model)
  else (mkLinear bias output_dim W1 None, model).

Definition __call__ {I} (self : Linear I) (input_expr : dy_expr I) : result (dy_expr I) :=
  let W1 := dy_parameter (W1 self) in
  match (if bias self then
           match b1 self with
           | Some p => Ok (dy_parameter p)
           | None => Raise (AttributeError "b1")
           end
         else Ok (dy_zeros (output_dim self))) with
  | Ok b1 => Ok (dy_affine_transform [b1; W1; input_expr])
  | Raise e => Raise e
  end.

End Linear.

(** * Properties *)

(** ** Reasoning about the effect monad *)

Lemma bind_Ok {A B} (m : M A) (k : A -> M B) w b w' :
  bind m k w = (Ok b, w') ->
  exists a w1, m w = (Ok a, w1) /\ k a w1 = (Ok b, w').
Proof.
  unfold bind. destruct (m w) as [[a|e] w1]; intros H.
  - exists a, w1. split; [reflexivity | exact H].
  - discriminate H.
Qed.

Lemma bind_eq {A B} (m : M A) (k : A -> M B) w a w1 :
  m w = (Ok a, w1) -> bind m k w = k a w1.
Proof. intros H. unfold bind. rewrite H. reflexivity. Qed.

Lemma bind_Raise {A B} (m : M A) (k : A -> M B) w e w1 :
  m w = (Raise e, w1) -> bind m k w = (Raise e, w1).
Proof. intros H. unfold bind. rewrite H. reflexivity. Qed.

Lemma bind_ext {A B} (m : M A) (k k' : A -> M B) w :
  (forall a w1, k a w1 = k' a w1) -> bind m k w = bind m k' w.
Proof.
  intros H. unfold bind. destruct (m w) as [[a|e] w1]; [apply H | reflexivity].
Qed.

Lemma emit_eq e w :
  emit e w = (Ok tt, mkWorld (py_random w) (np_random w) (next_pid w) (trace w ++ [e])).
Proof. reflexivity. Qed.

(** Split a successful [bind] chain in a hypothesis into its steps. *)
Ltac bind_inv H :=
  let a := fresh "a" in
  let w := fresh "w" in
  let H1 := fresh "H" in
  apply bind_Ok in H; destruct H as (a & w & H1 & H).

Ltac ok_inv H :=
  match type of H with
  | ret _ _ = (Ok _, _) => unfold ret in H; inversion H; subst; clear H
  | raise _ _ = (Ok _, _) => discriminate H
  | (Ok _, _) = (Ok _, _) => inversion H; subst; clear H
  | (Raise _, _) = (Ok _, _) => discriminate H
  end.

(** ** C1: [should_stop_training] *)

(** C1, as stated, fails: once early stopping has been reached
    [should_stop_training] returns true although the task is only at step 0
    of epoch 1 of 2. *)
Lemma should_stop_training_early_counterexample :
  run_for_epochs stopped_early = Some 2 /\
  cur_num_minibatches stopped_early = 3 /\
  epoch_num (training_state stopped_early) = 1 /\
  steps_into_epoch (training_state stopped_early) = 0 /\
  early_stopping_reached stopped_early = true /\
  should_stop_training stopped_early = Ok true /\
  ~ (epoch_num (training_state stopped_early) > 2 \/
     (epoch_num (training_state stopped_early) = 2 /\
      steps_into_epoch (training_state stopped_early)
        >= cur_num_minibatches stopped_early - 1)).
Proof.
  repeat split; try (vm_compute; reflexivity).
  vm_compute. intros [H | [H _]]; discriminate H.
Qed.

(** C1 (amended): with an integer [run_for_epochs], [should_stop_training]
    returns a boolean, and it is true if and only if early stopping has been
    reached, or [epoch_num > run_for_epochs], or
    [epoch_num = run_for_epochs] and
    [steps_into_epoch >= cur_num_minibatches() - 1].  In particular, with
    [run_for_epochs = 2], three batches per epoch and no early stopping, it
    is false throughout epochs below 2 and at steps 0 and 1 of epoch 2, and
    true at step 2 of epoch 2. *)
Theorem should_stop_training_iff (self : SimpleTrainingTask) (r : Z) :
  run_for_epochs self = Some r ->
  (exists b, should_stop_training self = Ok b) /\
  (should_stop_training self = Ok true <->
     early_stopping_reached self = true \/
     epoch_num (training_state self) > r \/
     (epoch_num (training_state self) = r /\
      steps_into_epoch (training_state self) >= cur_num_minibatches self - 1)) /\
  (r = 2 -> cur_num_minibatches self = 3 -> early_stopping_reached self = false ->
   0 <= steps_into_epoch (training_state self) ->
   (should_stop_training self = Ok true <->
      epoch_num (training_state self) > 2 \/
      (epoch_num (training_state self) = 2 /\
       steps_into_epoch (training_state self) >= 2)) /\
   (epoch_num (training_state self) < 2 \/
    (epoch_num (training_state self) = 2 /\ steps_into_epoch (training_state self) < 2) ->
    should_stop_training self = Ok false)).
Proof.
  intros Hr. unfold should_stop_training. rewrite Hr.
  destruct (early_stopping_reached self) eqn:He.
  - split; [eexists; reflexivity|]. split.
    + split; intros _; [left|]; reflexivity.
    + intros _ _ H; discriminate H.
  - split; [eexists; reflexivity|].
    set (e := epoch_num (training_state self)).
    set (s := steps_into_epoch (training_state self)).
    set (n := cur_num_minibatches self).
    assert (Hb : forall b, (Ok b : result bool) = Ok true <-> b = true).
    { intros b; split; intros H; [inversion H | subst]; reflexivity. }
    assert (Hc : (e >? r) || ((e =? r) && (s >=? n - 1)) = true <->
                 e > r \/ (e = r /\ s >= n - 1)).
    { rewrite orb_true_iff, andb_true_iff, Z.gtb_lt, Z.eqb_eq, Z.geb_le. lia. }
    split.
    + rewrite Hb, Hc. split; [intros H; right; exact H | intros [H|H]; [discriminate H | exact H]].
    + intros -> Hn _ Hs. fold n in Hn. rewrite Hn in *. split.
      * rewrite Hb, Hc. lia.
      * intros H. f_equal. apply not_true_is_false. rewrite Hc. lia.
Qed.

(** The default task at step 0 of epoch 1 of 2. *)
Lemma should_stop_training_iff_witness :
  run_for_epochs first_epoch_task = Some 2 /\
  should_stop_training first_epoch_task = Ok false.
Proof.
  assert (Hr : run_for_epochs first_epoch_task = Some 2) by (vm_compute; reflexivity).
  split; [exact Hr|].
  destruct (should_stop_training_iff first_epoch_task 2 Hr) as (_ & _ & H).
  apply H.
  - reflexivity.
  - vm_compute. reflexivity.
  - vm_compute. reflexivity.
  - vm_compute. discriminate.
  - left. vm_compute. reflexivity.
Defined.

(** ** The dev checkpoint *)

Lemma eval_dev_tasks_collect env tasks acc w :
  exists w', eval_dev_tasks env tasks acc w = (Ok (collect_dev_scores env tasks acc), w').
Proof.
  revert acc w. induction tasks as [|t tasks IH]; intros acc w; simpl.
  - eexists; reflexivity.
  - unfold bind. rewrite emit_eq. destruct (dev_eval env t); apply IH.
Qed.

Lemma report_auxiliary_scores_ok l w :
  exists w', report_auxiliary_scores l w = (Ok tt, w').
Proof.
  revert w. induction l as [|s l IH]; intros w; simpl.
  - eexists; reflexivity.
  - unfold bind. rewrite emit_eq. apply IH.
Qed.

Lemma perform_evaluation_ok env self w :
  dev_scores_available env self ->
  exists w', perform_evaluation env self w = (Ok tt, w').
Proof.
  unfold dev_scores_available, perform_evaluation.
  destruct (dev_tasks self) as [[|t tasks]|]; intros H; try (eexists; reflexivity).
  destruct (eval_dev_tasks_collect env (t :: tasks) [] w) as [w1 E].
  unfold bind at 1. rewrite E.
  destruct (collect_dev_scores env (t :: tasks) []) as [|p aux]; [contradiction|].
  unfold bind. rewrite emit_eq. apply report_auxiliary_scores_ok.
Qed.

(** Projections of the updated task. *)
Ltac fields self := destruct self; cbn in *.

Lemma attempt_failed_fields self :
  training_state (attempt_failed self)
    = with_cur_attempt (training_state self) (cur_attempt (training_state self) + 1) /\
  schedule (attempt_failed self) = schedule self /\
  schedule_config (attempt_failed self) = schedule_config self.
Proof. fields self. repeat split. Qed.

(** What the body of [if should_decay:] does. *)
Lemma apply_decay_spec self tr w :
  trainer self = Some tr ->
  exists self' w',
    apply_decay self w = (Ok self', w') /\
    num_times_lr_decayed (training_state self')
      = num_times_lr_decayed (training_state self) + 1 /\
    cur_attempt (training_state self') = cur_attempt (training_state self) /\
    schedule_config self' = schedule_config self /\
    (num_times_lr_decayed (training_state self) + 1 > lr_decay_times self ->
       early_stopping_reached self' = true /\ trainer self' = Some tr) /\
    (num_times_lr_decayed (training_state self) + 1 <= lr_decay_times self ->
       early_stopping_reached self' = early_stopping_reached self /\
       trainer self' = Some (mkTrainer (PrimFloat.mul (learning_rate tr) (lr_decay self)))).
Proof.
  intros Ht. unfold apply_decay.
  fields self. subst trainer0.
  destruct (num_times_lr_decayed training_state0 + 1 >? lr_decay_times0) eqn:E.
  - do 2 eexists. split; [reflexivity|]. cbn.
    apply Z.gtb_lt in E. repeat split; try reflexivity; lia.
  - assert (E' : num_times_lr_decayed training_state0 + 1 <= lr_decay_times0).
    { destruct (Z.gtb_spec (num_times_lr_decayed training_state0 + 1) lr_decay_times0);
        [discriminate | lia]. }
    destruct restart_trainer0; do 2 eexists; (split; [reflexivity|]); cbn;
      repeat split; try reflexivity; lia.
Qed.

(** The schedule part of [checkpoint(control_learning_schedule=True)], once
    the dev tasks have been evaluated. *)
Lemma checkpoint_control env self w :
  dev_scores_available env self ->
  exists w1,
    checkpoint env self true w =
    if dev_improved env then
      (Ok (match model_file self with Some _ => true | None => false end,
           set_training_state self (with_cur_attempt (training_state self) 0)), w1)
    else if PrimFloat.ltb (lr_decay self) 1%float && should_decay (attempt_failed self) then
      bind (apply_decay (attempt_failed self)) (fun s => ret (false, s)) w1
    else (Ok (false, attempt_failed self), w1).
Proof.
  intros Hd. unfold checkpoint, print.
  unfold bind at 1. rewrite emit_eq.
  unfold bind at 1.
  match goal with
  | |- context [perform_evaluation env self ?w0] =>
      destruct (perform_evaluation_ok env self w0 Hd) as [w1 E]; rewrite E
  end.
  unfold bind at 1. rewrite emit_eq.
  unfold bind at 1. rewrite emit_eq.
  eexists. destruct (dev_improved env); [reflexivity|].
  replace (lr_decay (attempt_failed self)) with (lr_decay self) by (fields self; reflexivity).
  destruct (PrimFloat.ltb (lr_decay self) 1); [|reflexivity].
  destruct (should_decay (attempt_failed self)); reflexivity.
Qed.

(** [checkpoint] without learning schedule control leaves the task alone. *)
Lemma checkpoint_no_control env self w r self' w' :
  checkpoint env self false w = (Ok (r, self'), w') -> self' = self.
Proof.
  unfold checkpoint. intros H. bind_inv H. bind_inv H. ok_inv H. reflexivity.
Qed.

(** ** [advance_epoch] *)

Lemma advance_epoch_eq R env self w :
  advance_epoch R env self w =
  match reload_command self with
  | None => (Ok (fst (begin_epoch R self w)), snd (begin_epoch R self w))
  | Some _ =>
      bind (_augment_data_next_epoch env self)
        (fun s w1 => (Ok (fst (begin_epoch R s w1)), snd (begin_epoch R s w1))) w
  end.
Proof.
  assert (core : forall s w1,
    (s0 <- randint R 1 2147483647 ;;
     (let self0 := set_training_state s (with_epoch_seed (training_state s) s0) in
      seed R (epoch_seed (training_state self0)) ;;;
      np_seed R (epoch_seed (training_state self0)) ;;;
      (bs <- pack_batches self0 ;;
       (let self1 := set_batches self0 (fst bs) (snd bs) in
        let self2 := set_training_state self1
                       (with_epoch_num (training_state self1)
                          (epoch_num (training_state self1) + 1)) in
        let self3 := set_training_state self2
                       (with_steps_into_epoch (training_state self2) 0) in
        let self4 := set_minibatch_order self3 (range (cur_num_minibatches self3)) in
        order <- shuffle R (minibatch_order self4) ;;
        (let self5 := set_minibatch_order self4 order in
         new_epoch (cur_num_sentences self5) ;;; ret self5))))) w1
    = (Ok (fst (begin_epoch R s w1)), snd (begin_epoch R s w1))).
  { intros s w1. unfold begin_epoch, randint, seed, np_seed, pack_batches, shuffle,
      new_epoch, bind, emit, get_world, set_py_random, set_np_random, ret.
    destruct w1 as [py np p tr]. cbn [py_random np_random next_pid trace].
    destruct (random_randint R py 1 2147483647) as [s0 py1] eqn:E1.
    fields s. cbn.
    destruct (pack batcher0 (random_seed R s0) (np_random_seed R s0) src_data0 trg_data0)
      as [[sb tb] [py2 np2]] eqn:E2. cbn.
    destruct (np_random_shuffle R np2 (range (cur_num_minibatches _))) as [order np3] eqn:E3.
    cbn in *. unfold cur_num_minibatches in E3. cbn in E3. rewrite E3. cbn.
    rewrite <- !app_assoc. reflexivity. }
  unfold advance_epoch. destruct (reload_command self).
  - apply bind_ext. intros self1 w1. apply core.
  - apply (core self w).
Qed.

(** ** C2: the patience rule *)

Lemma should_decay_iff self :
  should_decay self = true <->
  (cur_attempt (training_state self) >= patience self /\
   (initial_patience self = None \/ num_times_lr_decayed (training_state self) > 0)) \/
  (exists ip, initial_patience self = Some ip /\
              num_times_lr_decayed (training_state self) = 0 /\
              cur_attempt (training_state self) >= ip).
Proof.
  unfold should_decay.
  destruct (initial_patience self) as [ip|]; cbn [is_None orb andb].
  - rewrite orb_true_iff, !andb_true_iff, Z.gtb_lt, Z.eqb_eq, !Z.geb_le. split.
    + intros [[H1 H2] | [H1 H2]].
      * left. split; [lia | right; lia].
      * right. exists ip. repeat split; [exact H1 | lia].
    + intros [[H1 [H2 | H2]] | (ip' & H1 & H2 & H3)].
      * discriminate H2.
      * left. lia.
      * inversion H1; subst. right. lia.
  - rewrite orb_false_r, Z.geb_le. split.
    + intros H. left. split; [lia | left; reflexivity].
    + intros [[H _] | (ip & H & _)]; [lia | discriminate H].
Qed.

(** C2, as stated, fails: with the default [lr_decay = 1.0], [patience = 1]
    and no [initial_patience], a failed checkpoint brings [cur_attempt] to
    [1 >= patience], yet no decay is triggered. *)
Lemma checkpoint_decay_rule_counterexample :
  exists self' w',
    checkpoint Toy.failed default_decay_task true Toy.world0 = (Ok (false, self'), w') /\
    initial_patience default_decay_task = None /\
    cur_attempt (training_state self') >= patience default_decay_task /\
    num_times_lr_decayed (training_state self')
      = num_times_lr_decayed (training_state default_decay_task) /\
    trainer self' = trainer default_decay_task /\
    early_stopping_reached self' = false.
Proof.
  do 2 eexists. split; [vm_compute; reflexivity|].
  repeat split. vm_compute. discriminate.
Qed.

(** C2 (amended): when [lr_decay < 1.0], a checkpoint with learning schedule
    control whose dev score does not improve increments [cur_attempt] and
    triggers a decay ([num_times_lr_decayed] goes up by one) exactly when
    (a) the new [cur_attempt >= patience] and either no [initial_patience]
    was configured or a decay has occurred already, or (b) an
    [initial_patience] was configured, no decay has occurred yet and the new
    [cur_attempt >= initial_patience]; otherwise [num_times_lr_decayed] is
    unchanged.  On an improving checkpoint [cur_attempt] is reset to 0. *)
Theorem checkpoint_decay_rule (env : CheckpointEnv) (self : SimpleTrainingTask)
  (tr : Trainer) (w : World) :
  PrimFloat.ltb (lr_decay self) 1%float = true ->
  trainer self = Some tr ->
  dev_scores_available env self ->
  exists r self' w',
    checkpoint env self true w = (Ok (r, self'), w') /\
    (dev_improved env = true -> cur_attempt (training_state self') = 0) /\
    (dev_improved env = false ->
     let attempt := cur_attempt (training_state self) + 1 in
     let decayed := num_times_lr_decayed (training_state self) in
     let rule :=
       (attempt >= patience self /\ (initial_patience self = None \/ decayed > 0)) \/
       (exists ip, initial_patience self = Some ip /\ decayed = 0 /\ attempt >= ip) in
     cur_attempt (training_state self') = attempt /\
     (rule -> num_times_lr_decayed (training_state self') = decayed + 1) /\
     (~ rule -> num_times_lr_decayed (training_state self') = decayed /\
                trainer self' = trainer self /\
                early_stopping_reached self' = early_stopping_reached self)).
Proof.
  intros Hlr Ht Hd.
  destruct (checkpoint_control env self w Hd) as [w1 E]. rewrite E, Hlr. clear E.
  destruct (dev_improved env).
  - do 3 eexists. split; [reflexivity|]. split; [|discriminate].
    intros _. fields self. reflexivity.
  - destruct (attempt_failed_fields self) as (Hts & Hs & Hc).
    assert (Hrule := should_decay_iff (attempt_failed self)).
    rewrite Hts in Hrule. cbn [cur_attempt num_times_lr_decayed with_cur_attempt] in Hrule.
    replace (patience (attempt_failed self)) with (patience self) in Hrule
      by (fields self; reflexivity).
    replace (initial_patience (attempt_failed self)) with (initial_patience self) in Hrule
      by (fields self; reflexivity).
    cbn [andb].
    destruct (should_decay (attempt_failed self)) eqn:Esd.
    + assert (Ht' : trainer (attempt_failed self) = Some tr) by (fields self; exact Ht).
      destruct (apply_decay_spec (attempt_failed self) tr w1 Ht')
        as (self' & w' & Ea & Hn & Hca & _).
      exists false, self', w'. split; [rewrite (bind_eq _ _ _ _ _ Ea); reflexivity|].
      split; [discriminate|]. intros _. cbn zeta.
      rewrite Hca, Hn, Hts. cbn [cur_attempt num_times_lr_decayed with_cur_attempt].
      split; [reflexivity|]. split; [reflexivity|].
      intros Hno. exfalso. apply Hno. apply Hrule. reflexivity.
    + do 3 eexists. split; [reflexivity|]. split; [discriminate|]. intros _. cbn zeta.
      rewrite Hts. cbn [cur_attempt num_times_lr_decayed with_cur_attempt].
      split; [reflexivity|]. split.
      * intros Hr. apply Hrule in Hr. discriminate Hr.
      * intros _. unfold schedule in Hs. inversion Hs. repeat split; assumption.
Qed.

(** With [initial_patience = 1] and [patience = 3]: one failed checkpoint
    triggers the first decay. *)
Lemma checkpoint_decay_rule_witness :
  exists r self' w',
    checkpoint Toy.failed two_tier_task true Toy.world0 = (Ok (r, self'), w') /\
    num_times_lr_decayed (training_state self') = 1.
Proof.
  assert (Hlr : PrimFloat.ltb (lr_decay two_tier_task) 1%float = true)
    by (vm_compute; reflexivity).
  assert (Ht : trainer two_tier_task = Some (mkTrainer 1%float))
    by (vm_compute; reflexivity).
  assert (Hd : dev_scores_available Toy.failed two_tier_task)
    by (vm_compute; exact I).
  destruct (checkpoint_decay_rule Toy.failed two_tier_task (mkTrainer 1%float) Toy.world0
              Hlr Ht Hd)
    as (r & self' & w' & E & _ & H).
  exists r, self', w'. split; [exact E|].
  destruct (H eq_refl) as (_ & Hr & _). apply Hr.
  right. exists 1. repeat split; vm_compute; discriminate.
Defined.

(** ** Frame properties of the steps of the training loop *)

Lemma same_schedule_refl self : same_schedule self self.
Proof. repeat split. Qed.

Lemma same_schedule_trans a b c :
  same_schedule a b -> same_schedule b c -> same_schedule a c.
Proof.
  unfold same_schedule. intros (H1 & H2 & H3) (H4 & H5 & H6).
  repeat split; congruence.
Qed.

Lemma augment_data_next_epoch_frame env self w self' w' :
  _augment_data_next_epoch env self w = (Ok self', w') ->
  exists h, self' = set_augmentation_handle self (Some h).
Proof.
  unfold _augment_data_next_epoch. intros H.
  bind_inv H. bind_inv H.
  replace (training_state (set_augmentation_handle self (Some a0)))
    with (training_state self) in H by (fields self; reflexivity).
  replace (corpus_parser (set_augmentation_handle self (Some a0)))
    with (corpus_parser self) in H by (fields self; reflexivity).
  destruct (returncode a0).
  - bind_inv H. bind_inv H. bind_inv H. bind_inv H. ok_inv H.
    eexists. fields self. reflexivity.
  - bind_inv H. ok_inv H. eexists. reflexivity.
Qed.

Lemma begin_epoch_same_schedule R self w :
  same_schedule self (fst (begin_epoch R self w)).
Proof. fields self. repeat split. Qed.

Lemma advance_epoch_same_schedule R env self w self' w' :
  advance_epoch R env self w = (Ok self', w') -> same_schedule self self'.
Proof.
  rewrite advance_epoch_eq. destruct (reload_command self).
  - intros H. bind_inv H. ok_inv H.
    apply augment_data_next_epoch_frame in H0. destruct H0 as [h ->].
    eapply same_schedule_trans; [|apply begin_epoch_same_schedule].
    fields self. repeat split.
  - intros H. ok_inv H. apply begin_epoch_same_schedule.
Qed.

Lemma yield_batch_task self b rest w src trg g self' w' :
  yield_batch self b rest w = (Ok (Yield src trg g self'), w') ->
  self' = self /\ g = GenSuspended rest /\ w' = w.
Proof.
  unfold yield_batch. intros H. bind_inv H. bind_inv H. ok_inv H.
  unfold lift in *. inversion H0; inversion H1; subst. repeat split.
Qed.

Lemma sweep_same_schedule R fuel env self w src trg g self' w' :
  sweep R fuel env self w = (Ok (Yield src trg g self'), w') ->
  same_schedule self self'.
Proof.
  revert self w. induction fuel as [|fuel IH]; intros self w H; simpl in H.
  - ok_inv H.
  - bind_inv H. apply advance_epoch_same_schedule in H0.
    eapply same_schedule_trans; [exact H0|].
    destruct (minibatch_order a) as [|b rest].
    + eapply IH; exact H.
    + apply yield_batch_task in H. destruct H as (-> & _). apply same_schedule_refl.
Qed.

Lemma next_minibatch_same_schedule R fuel env g self w src trg g' self' w' :
  next_minibatch R fuel env g self w = (Ok (Yield src trg g' self'), w') ->
  same_schedule self self'.
Proof.
  unfold next_minibatch. destruct g as [|rest].
  - apply sweep_same_schedule.
  - intros H.
    eapply same_schedule_trans;
      [|destruct rest as [|b rest];
        [eapply sweep_same_schedule; exact H
        |apply yield_batch_task in H; destruct H as (-> & _); apply same_schedule_refl]].
    fields self. repeat split.
Qed.

Lemma apply_decay_inv self w self' w' :
  apply_decay self w = (Ok self', w') ->
  num_times_lr_decayed (training_state self')
    = num_times_lr_decayed (training_state self) + 1 /\
  cur_attempt (training_state self') = cur_attempt (training_state self) /\
  schedule_config self' = schedule_config self /\
  dev_tasks self' = dev_tasks self /\
  ((num_times_lr_decayed (training_state self) + 1 > lr_decay_times self /\
    early_stopping_reached self' = true /\ trainer self' = trainer self) \/
   (num_times_lr_decayed (training_state self) + 1 <= lr_decay_times self /\
    early_stopping_reached self' = early_stopping_reached self /\
    exists tr, trainer self = Some tr /\
      trainer self' = Some (mkTrainer (PrimFloat.mul (learning_rate tr) (lr_decay self))))).
Proof.
  unfold apply_decay. fields self.
  destruct (num_times_lr_decayed training_state0 + 1 >? lr_decay_times0) eqn:E.
  - intros H. bind_inv H. ok_inv H. cbn. apply Z.gtb_lt in E.
    repeat split. left. repeat split. lia.
  - assert (E' : num_times_lr_decayed training_state0 + 1 <= lr_decay_times0).
    { destruct (Z.gtb_spec (num_times_lr_decayed training_state0 + 1) lr_decay_times0);
        [discriminate | lia]. }
    destruct trainer0 as [tr|]; [|intros H; discriminate H].
    intros H. bind_inv H. bind_inv H. ok_inv H. cbn.
    repeat split. right. repeat split; [exact E'|]. exists tr. split; reflexivity.
Qed.

(** The ways in which a [checkpoint] can return. *)
Lemma checkpoint_inv env self ctl w r self' w' :
  checkpoint env self ctl w = (Ok (r, self'), w') ->
  (ctl = false /\ self' = self) \/
  (ctl = true /\ dev_improved env = true /\
   self' = set_training_state self (with_cur_attempt (training_state self) 0)) \/
  (ctl = true /\ dev_improved env = false /\
   PrimFloat.ltb (lr_decay self) 1%float && should_decay (attempt_failed self) = false /\
   self' = attempt_failed self) \/
  (ctl = true /\ dev_improved env = false /\
   PrimFloat.ltb (lr_decay self) 1%float = true /\
   should_decay (attempt_failed self) = true /\
   exists w1, apply_decay (attempt_failed self) w1 = (Ok self', w')).
Proof.
  destruct ctl.
  - unfold checkpoint, print. intros H.
    bind_inv H. bind_inv H. bind_inv H. bind_inv H.
    replace (lr_decay (attempt_failed self)) with (lr_decay self) in H
      by (fields self; reflexivity).
    destruct (dev_improved env).
    + ok_inv H. right. left. repeat split.
    + destruct (PrimFloat.ltb (lr_decay self) 1).
      * destruct (should_decay (attempt_failed self)).
        -- bind_inv H. ok_inv H. right. right. right. repeat split. eexists. exact H4.
        -- ok_inv H. right. right. left. repeat split.
      * ok_inv H. right. right. left. repeat split.
  - intros H. apply checkpoint_no_control in H. left. split; [reflexivity | exact H].
Qed.

(** One step of the training loop never lowers [num_times_lr_decayed] and
    keeps the configuration of the schedule. *)
Lemma run_op_monotone R o g self w g' self' w' :
  run_op R o (g, self) w = (Ok (Some (g', self')), w') ->
  num_times_lr_decayed (training_state self)
    <= num_times_lr_decayed (training_state self') /\
  schedule_config self' = schedule_config self.
Proof.
  destruct o as [fuel env | src trg | env ctl]; cbn [run_op]; intros H.
  - bind_inv H. destruct a as [src trg g1 self1|]; ok_inv H.
    apply next_minibatch_same_schedule in H0. destruct H0 as (Hs & Hc & _).
    unfold schedule in Hs. inversion Hs. split; [lia | exact Hc].
  - bind_inv H. ok_inv H. split; [lia | reflexivity].
  - bind_inv H. ok_inv H. destruct a as [r self1]. cbn [snd].
    apply checkpoint_inv in H0.
    destruct H0 as [(_ & ->) | [(_ & _ & ->) | [(_ & _ & _ & ->) | (_ & _ & _ & _ & w1 & E)]]].
    + split; [lia | reflexivity].
    + fields self. split; [lia | reflexivity].
    + fields self. split; [lia | reflexivity].
    + apply apply_decay_inv in E. destruct E as (Hn & _ & Hc & _).
      rewrite Hn, Hc. fields self. split; [lia | reflexivity].
Qed.

Lemma run_monotone R ops g self w g' self' w' :
  run R ops (g, self) w = (Ok (Some (g', self')), w') ->
  num_times_lr_decayed (training_state self)
    <= num_times_lr_decayed (training_state self').
Proof.
  revert g self w. induction ops as [|o ops IH]; intros g self w H; cbn [run] in H.
  - ok_inv H. lia.
  - bind_inv H. destruct a as [[g1 self1]|]; [|ok_inv H].
    apply run_op_monotone in H0. apply IH in H. lia.
Qed.

(** ** C3: what an eligible decay does *)

(** C3: on an eligible decay inside [checkpoint], [num_times_lr_decayed] is
    incremented; if the incremented value exceeds [lr_decay_times], early
    stopping is set and the learning rate is left alone, otherwise the
    learning rate is multiplied by [lr_decay]; with [lr_decay_times = 2] the
    third eligible decay sets early stopping and leaves the learning rate.
    Over any run of the training loop [num_times_lr_decayed] never
    decreases. *)
Theorem eligible_decay_effect (R : RandomLib) (env : CheckpointEnv)
  (self : SimpleTrainingTask) (tr : Trainer) (w : World) :
  PrimFloat.ltb (lr_decay self) 1%float = true ->
  dev_improved env = false ->
  should_decay (attempt_failed self) = true ->
  trainer self = Some tr ->
  dev_scores_available env self ->
  let decayed := num_times_lr_decayed (training_state self) + 1 in
  (exists self' w',
     checkpoint env self true w = (Ok (false, self'), w') /\
     num_times_lr_decayed (training_state self') = decayed /\
     (decayed > lr_decay_times self ->
        early_stopping_reached self' = true /\ trainer self' = Some tr) /\
     (decayed <= lr_decay_times self ->
        early_stopping_reached self' = early_stopping_reached self /\
        trainer self'
          = Some (mkTrainer (PrimFloat.mul (learning_rate tr) (lr_decay self)))) /\
     (lr_decay_times self = 2 -> decayed = 3 ->
        early_stopping_reached self' = true /\ trainer self' = Some tr)) /\
  (forall ops g g' self' w0 w',
     run R ops (g, self) w0 = (Ok (Some (g', self')), w') ->
     num_times_lr_decayed (training_state self)
       <= num_times_lr_decayed (training_state self')).
Proof.
  intros Hlr Hi Hsd Ht Hd decayed. split.
  - destruct (checkpoint_control env self w Hd) as [w1 E].
    rewrite E, Hi, Hlr, Hsd. cbn [andb]. clear E.
    assert (Ht' : trainer (attempt_failed self) = Some tr) by (fields self; exact Ht).
    destruct (apply_decay_spec (attempt_failed self) tr w1 Ht')
      as (self' & w' & Ea & Hn & _ & _ & Hstop & Hmul).
    replace (num_times_lr_decayed (training_state (attempt_failed self)))
      with (num_times_lr_decayed (training_state self)) in * by (fields self; reflexivity).
    replace (lr_decay_times (attempt_failed self)) with (lr_decay_times self) in *
      by (fields self; reflexivity).
    replace (lr_decay (attempt_failed self)) with (lr_decay self) in *
      by (fields self; reflexivity).
    replace (early_stopping_reached (attempt_failed self))
      with (early_stopping_reached self) in * by (fields self; reflexivity).
    exists self', w'. split; [rewrite (bind_eq _ _ _ _ _ Ea); reflexivity|].
    split; [exact Hn|]. split; [exact Hstop|]. split; [exact Hmul|].
    intros H2 H3. apply Hstop. subst decayed. lia.
  - intros ops g g' self' w0 w'. apply run_monotone.
Qed.

(** The third failed checkpoint of a task with [lr_decay_times = 2]: the
    learning rate stays at [0.25] and early stopping is set. *)
Lemma eligible_decay_effect_witness :
  learning_rate_of (after_failed_checkpoints 1 budget_two_task) = Some 0.5%float /\
  learning_rate_of (after_failed_checkpoints 2 budget_two_task) = Some 0.25%float /\
  exists self' w',
    checkpoint Toy.failed (after_failed_checkpoints 2 budget_two_task) true Toy.world0
      = (Ok (false, self'), w') /\
    num_times_lr_decayed (training_state self') = 3 /\
    early_stopping_reached self' = true /\
    learning_rate_of self' = Some 0.25%float.
Proof.
  split; [vm_compute; reflexivity|]. split; [vm_compute; reflexivity|].
  set (t := after_failed_checkpoints 2 budget_two_task).
  assert (Hlr : PrimFloat.ltb (lr_decay t) 1%float = true) by (vm_compute; reflexivity).
  assert (Hsd : should_decay (attempt_failed t) = true) by (vm_compute; reflexivity).
  assert (Ht : trainer t = Some (mkTrainer 0.25%float)) by (vm_compute; reflexivity).
  assert (Hd : dev_scores_available Toy.failed t) by (vm_compute; exact I).
  destruct (eligible_decay_effect Toy.random Toy.failed t (mkTrainer 0.25%float)
              Toy.world0 Hlr eq_refl Hsd Ht Hd)
    as [(self' & w' & E & Hn & Hstop & _) _].
  exists self', w'. split; [exact E|].
  assert (Hnum : num_times_lr_decayed (training_state t) + 1 = 3)
    by (vm_compute; reflexivity).
  split; [rewrite Hn; exact Hnum|].
  destruct Hstop as [He Htr].
  { rewrite Hnum. vm_compute. reflexivity. }
  split; [exact He|]. unfold learning_rate_of. rewrite Htr. reflexivity.
Defined.

(** ** Loading the corpus *)

Lemma read_loop_lengths self a b src_it trg_it sd td sd' td' :
  read_loop self a b src_it trg_it sd td = Ok (sd', td') ->
  List.length src_it = List.length trg_it /\
  (List.length sd = List.length td -> List.length sd' = List.length td').
Proof.
  revert trg_it sd td. induction src_it as [|s src_it IH]; intros [|t trg_it] sd td H;
    cbn [read_loop] in H; try discriminate H.
  - inversion H; subst. split; [reflexivity | tauto].
  - destruct (len_ok (max_src_len self) s && len_ok (max_trg_len self) t);
      apply IH in H; destruct H as [Hl Hd]; (split; [cbn; congruence|]); intros E.
    + apply Hd. rewrite !length_app. cbn. lia.
    + apply Hd. exact E.
Qed.

Lemma read_loop_total self a b src_it trg_it sd td :
  List.length src_it = List.length trg_it ->
  exists sd' td', read_loop self a b src_it trg_it sd td = Ok (sd', td').
Proof.
  revert trg_it sd td. induction src_it as [|s src_it IH]; intros [|t trg_it] sd td H;
    cbn in H; try discriminate H; cbn [read_loop].
  - do 2 eexists; reflexivity.
  - destruct (len_ok (max_src_len self) s && len_ok (max_trg_len self) t);
      apply IH; congruence.
Qed.

Lemma read_loop_mismatch self a b src_it trg_it sd td :
  List.length src_it <> List.length trg_it ->
  read_loop self a b src_it trg_it sd td = Raise (loop_mismatch self a b).
Proof.
  revert trg_it sd td. induction src_it as [|s src_it IH]; intros [|t trg_it] sd td H;
    cbn in H; try congruence; cbn [read_loop]; try reflexivity.
  destruct (len_ok (max_src_len self) s && len_ok (max_trg_len self) t);
    apply IH; congruence.
Qed.

Lemma pack_batches_ok self w :
  exists bs w', pack_batches self w = (Ok bs, w').
Proof.
  unfold pack_batches, bind, emit, get_world, set_py_random, set_np_random, ret.
  cbn. destruct (pack _ _ _ _ _) as [bs [s1 s2]]. do 2 eexists; reflexivity.
Qed.

(** With the settings the constructor makes ([sample_train_sents = False],
    [max_num_train_sents = None]) the only way to fail is the paired loop. *)
Lemma read_training_corpus_unfiltered R self w :
  sample_train_sents self = 0 ->
  truthy_opt (max_num_train_sents self) = false ->
  (forall sd td, unfiltered_loop self = Ok (sd, td) ->
     exists sb tb w',
       read_training_corpus R self w
         = (Ok (set_batches (set_data self sd td) sb tb), w')) /\
  (forall e, unfiltered_loop self = Raise e ->
     exists w', read_training_corpus R self w = (Raise e, w')).
Proof.
  intros Hs Hm. unfold unfiltered_loop, read_training_corpus.
  fields self. subst sample_train_sents0. rewrite Hm.
  unfold bind, emit, lift, ret, pack_batches, get_world, set_py_random, set_np_random.
  cbn. split.
  - intros sd td E. rewrite E. cbn.
    destruct (pack batcher0 (py_random w) (np_random w) sd td) as [[sb tb] [s1 s2]].
    cbn. do 3 eexists. reflexivity.
  - intros e E. rewrite E. eexists. reflexivity.
Qed.

Lemma read_training_corpus_unfiltered_inv R self w self' w' :
  sample_train_sents self = 0 ->
  truthy_opt (max_num_train_sents self) = false ->
  read_training_corpus R self w = (Ok self', w') ->
  exists sd td sb tb,
    unfiltered_loop self = Ok (sd, td) /\
    self' = set_batches (set_data self sd td) sb tb.
Proof.
  intros Hs Hm H.
  destruct (read_training_corpus_unfiltered R self w Hs Hm) as [Hok Hraise].
  destruct (unfiltered_loop self) as [[sd td]|e] eqn:E.
  - destruct (Hok sd td eq_refl) as (sb & tb & w1 & E1).
    rewrite E1 in H. inversion H; subst. exists sd, td, sb, tb. split; reflexivity.
  - destruct (Hraise e eq_refl) as (w1 & E1). rewrite E1 in H. discriminate H.
Qed.

(** ** The constructor *)

Lemma augment_data_initial_frame env self w self' w' :
  _augment_data_initial env self w = (Ok self', w') ->
  self' = self \/ exists h, self' = set_augmentation_handle self (Some h).
Proof.
  unfold _augment_data_initial, print. intros H. bind_inv H.
  destruct (_augmentation_handle self).
  - ok_inv H. left. reflexivity.
  - bind_inv H. bind_inv H. bind_inv H. ok_inv H. right. eexists. reflexivity.
Qed.

(** What a successful constructor call leaves behind. *)
Lemma init_Ok R B env blank yaml_context m sf tf b pmf fmt rfe lr times pat ip dt rt rc
  w self w' :
  __init__ R B env blank yaml_context m sf tf b pmf fmt rfe lr times pat ip dt rt rc w
    = (Ok self, w') ->
  PrimFloat.ltb 1%float lr || PrimFloat.leb lr 0%float = false /\
  lr_decay self = lr /\
  num_times_lr_decayed (training_state self) = 0 /\
  cur_attempt (training_state self) = 0 /\
  epoch_num (training_state self) = 0 /\
  steps_into_epoch (training_state self) = 0 /\
  early_stopping_reached self = false /\
  trainer self = trainer blank /\
  exists self0,
    model self0 = m /\ src_file self0 = sf /\ trg_file self0 = tf /\
    unfiltered_loop self0 = Ok (src_data self, trg_data self).
Proof.
  unfold __init__. intros H.
  bind_inv H. bind_inv H.
  destruct (PrimFloat.ltb 1 lr || PrimFloat.leb lr 0) eqn:Elr;
    [match goal with Hr : raise _ _ = _ |- _ => discriminate Hr end|].
  bind_inv H.
  match goal with
  | Hts : TrainingState_init R _ = _ |- _ =>
      unfold TrainingState_init in Hts; bind_inv Hts; ok_inv Hts
  end.
  bind_inv H. bind_inv H. bind_inv H. bind_inv H. bind_inv H. ok_inv H.
  match goal with
  | Hrc : match rc with _ => _ end _ = (Ok ?t, _),
    Hseed : randint R _ _ _ = (Ok ?sd, _),
    Hyc : match yaml_context with _ => _ end _ = (Ok ?yc, _) |- _ =>
      assert (Ha : exists h, t = mkTask (dynet_param_collection_model_file yc) sf tf dt
         lr pat ip times rt rfe false (mkTrainingState 0 0 0 0 sd) rc h m pmf 0 None None None
         (match b with Some b0 => b0 | None => B end)
         (src_data blank) (trg_data blank) (src_batches blank) (trg_batches blank)
         (minibatch_order blank) (trainer blank) (corpus_parser blank)
         (self_src_reader blank) (self_trg_reader blank));
      [destruct rc;
       [apply augment_data_initial_frame in Hrc; destruct Hrc as [-> | [h ->]]
       |ok_inv Hrc]; eexists; reflexivity|]
  end.
  destruct Ha as [h ->].
  match goal with
  | Hr : read_training_corpus R _ _ = _ |- _ =>
      apply read_training_corpus_unfiltered_inv in Hr; [|reflexivity|reflexivity];
      destruct Hr as (sd & td & sb & tb & E & ->)
  end.
  repeat split.
  match type of E with unfiltered_loop ?t = _ => exists t end.
  repeat split. exact E.
Qed.

(** ** C10: a decay factor of exactly 1.0 *)

Lemma checkpoint_without_decay env self ctl w r self' w' :
  PrimFloat.ltb (lr_decay self) 1%float = false ->
  checkpoint env self ctl w = (Ok (r, self'), w') ->
  schedule self' = schedule self /\ schedule_config self' = schedule_config self.
Proof.
  intros Hlr H. apply checkpoint_inv in H.
  destruct H as [(_ & ->) | [(_ & _ & ->) | [(_ & _ & _ & ->) | (_ & _ & Hlt & _)]]].
  - split; reflexivity.
  - fields self. split; reflexivity.
  - fields self. split; reflexivity.
  - rewrite Hlr in Hlt. discriminate Hlt.
Qed.

Lemma run_without_decay R ops g self w g' self' w' :
  PrimFloat.ltb (lr_decay self) 1%float = false ->
  run R ops (g, self) w = (Ok (Some (g', self')), w') ->
  schedule self' = schedule self /\ schedule_config self' = schedule_config self.
Proof.
  revert g self w. induction ops as [|o ops IH]; intros g self w Hlr H; cbn [run] in H.
  - ok_inv H. split; reflexivity.
  - bind_inv H. destruct a as [[g1 self1]|]; [|ok_inv H].
    assert (Hstep : schedule self1 = schedule self /\
                    schedule_config self1 = schedule_config self).
    { destruct o as [fuel env | src trg | env ctl]; cbn [run_op] in H0.
      - bind_inv H0. destruct a as [src trg g2 self2|]; ok_inv H0.
        apply next_minibatch_same_schedule in H1. destruct H1 as (Hs & Hc & _).
        split; assumption.
      - bind_inv H0. ok_inv H0. split; reflexivity.
      - bind_inv H0. ok_inv H0. destruct a as [r self2]. cbn [snd].
        eapply checkpoint_without_decay; eassumption. }
    destruct Hstep as [Hs Hc].
    assert (Hlr1 : PrimFloat.ltb (lr_decay self1) 1%float = false).
    { unfold schedule_config in Hc. inversion Hc. congruence. }
    destruct (IH _ _ _ Hlr1 H) as [Hs' Hc']. split; congruence.
Qed.

(** With no decay possible, a failed checkpoint only counts the attempt. *)
Lemma failed_checkpoint_without_decay env self w :
  PrimFloat.ltb (lr_decay self) 1%float = false ->
  dev_improved env = false ->
  dev_scores_available env self ->
  exists w', checkpoint env self true w = (Ok (false, attempt_failed self), w').
Proof.
  intros Hlr Hi Hd. destruct (checkpoint_control env self w Hd) as [w1 E].
  rewrite E, Hi, Hlr. cbn [andb]. eexists; reflexivity.
Qed.

Lemma failed_checkpoints_without_decay R env k g self w :
  PrimFloat.ltb (lr_decay self) 1%float = false ->
  dev_improved env = false ->
  dev_scores_available env self ->
  exists self' w',
    run R (repeat (OpCheckpoint env true) k) (g, self) w = (Ok (Some (g, self')), w') /\
    cur_attempt (training_state self') = cur_attempt (training_state self) + Z.of_nat k.
Proof.
  intros Hlr Hi. revert self w Hlr. induction k as [|k IH]; intros self w Hlr Hd.
  - exists self, w. split; [reflexivity | cbn; lia].
  - destruct (failed_checkpoint_without_decay env self w Hlr Hi Hd) as [w1 E].
    assert (Hlr1 : PrimFloat.ltb (lr_decay (attempt_failed self)) 1%float = false)
      by (fields self; exact Hlr).
    assert (Hd1 : dev_scores_available env (attempt_failed self))
      by (fields self; exact Hd).
    destruct (IH (attempt_failed self) w1 Hlr1 Hd1) as (self' & w' & Er & Hc).
    exists self', w'. split.
    + cbn [repeat run run_op]. unfold bind at 1. unfold bind at 1. rewrite E.
      cbn [ret snd]. exact Er.
    + rewrite Hc. replace (cur_attempt (training_state (attempt_failed self)))
        with (cur_attempt (training_state self) + 1) by (fields self; reflexivity).
      lia.
Qed.

(** C10: a task constructed with [lr_decay] exactly [1.0] starts with
    [num_times_lr_decayed = 0] and no early stopping, and no run of the
    training loop changes [num_times_lr_decayed], the learning rate or
    [early_stopping_reached]; a failed checkpoint with schedule control does
    nothing but add one to [cur_attempt], so [cur_attempt] grows without
    bound over consecutive failed checkpoints. *)
Theorem lr_decay_one_never_decays (R : RandomLib) (B : Batcher) (env0 : ProcEnv)
  (blank : SimpleTrainingTask) yaml_context m sf tf b pmf fmt rfe times pat ip dt rt rc
  (w0 : World) (self : SimpleTrainingTask) (w : World) :
  __init__ R B env0 blank yaml_context m sf tf b pmf fmt rfe 1%float times pat ip dt rt rc w0
    = (Ok self, w) ->
  (num_times_lr_decayed (training_state self) = 0 /\
   early_stopping_reached self = false /\
   cur_attempt (training_state self) = 0) /\
  (forall ops g g' self' w1 w2,
     run R ops (g, self) w1 = (Ok (Some (g', self')), w2) ->
     num_times_lr_decayed (training_state self') = 0 /\
     early_stopping_reached self' = false /\
     trainer self' = trainer self /\
     (forall env w3, dev_improved env = false -> dev_scores_available env self' ->
        exists w4, checkpoint env self' true w3 = (Ok (false, attempt_failed self'), w4))) /\
  (forall env k g w1, dev_improved env = false -> dev_scores_available env self ->
     exists self' w2,
       run R (repeat (OpCheckpoint env true) k) (g, self) w1 = (Ok (Some (g, self')), w2) /\
       cur_attempt (training_state self') = Z.of_nat k /\
       num_times_lr_decayed (training_state self') = 0 /\
       early_stopping_reached self' = false).
Proof.
  intros Hinit. apply init_Ok in Hinit.
  destruct Hinit as (_ & Hlr & Hn & Hc & _ & _ & He & _).
  assert (Hlt : PrimFloat.ltb (lr_decay self) 1%float = false) by (rewrite Hlr; reflexivity).
  split; [repeat split; assumption|]. split.
  - intros ops g g' self' w1 w2 Hrun.
    destruct (run_without_decay _ _ _ _ _ _ _ _ Hlt Hrun) as [Hs Hcfg].
    unfold schedule in Hs. inversion Hs.
    split; [congruence|]. split; [congruence|]. split; [congruence|].
    intros env w3 Hi Hd. apply failed_checkpoint_without_decay; try assumption.
    unfold schedule_config in Hcfg. inversion Hcfg. congruence.
  - intros env k g w1 Hi Hd.
    destruct (failed_checkpoints_without_decay R env k g self w1 Hlt Hi Hd)
      as (self' & w2 & Er & Hk).
    exists self', w2. split; [exact Er|]. split; [lia|].
    destruct (run_without_decay _ _ _ _ _ _ _ _ Hlt Er) as [Hs _].
    unfold schedule in Hs. inversion Hs. split; congruence.
Qed.

(** The default task: after 5 failed checkpoints [cur_attempt] is 5 and no
    decay has happened. *)
Lemma lr_decay_one_never_decays_witness :
  exists self' w2,
    run Toy.random (repeat (OpCheckpoint Toy.failed true) 5)
      (GenCreated, default_decay_task) Toy.world0 = (Ok (Some (GenCreated, self')), w2) /\
    cur_attempt (training_state self') = 5 /\
    num_times_lr_decayed (training_state self') = 0 /\
    early_stopping_reached self' = false.
Proof.
  assert (Hinit :
    __init__ Toy.random Toy.one_per_batch Toy.exited_proc Toy.blank Toy.yaml Toy.model
      (Some "train.src") (Some "train.trg") None "" "text" (Some 2) 1%float 3 1 None None
      false None Toy.world0
    = (Ok default_decay_task, snd (Toy.construct Toy.model 1%float 3 1 None None)))
    by (vm_compute; reflexivity).
  destruct (lr_decay_one_never_decays _ _ _ _ _ _ _ _ _ _ _ _ _ _ _ _ _ _ _ _ _ Hinit)
    as (_ & _ & H).
  assert (Hd : dev_scores_available Toy.failed default_decay_task) by (vm_compute; exact I).
  exact (H Toy.failed 5%nat GenCreated Toy.world0 eq_refl Hd).
Defined.

(** ** C8: the corpus is read in pairs *)

(** C8: with the settings the constructor makes, [read_training_corpus]
    raises exactly when one of the two sentence streams is exhausted before
    the other, that is when they differ in length, and returns normally
    exactly when they have the same length; the [src_data] and [trg_data] it
    then leaves have equal length.  A constructor call over mismatched
    streams raises, so no task with a partial corpus comes into being. *)
Theorem read_training_corpus_paired (R : RandomLib) (self : SimpleTrainingTask) (w : World) :
  sample_train_sents self = 0 ->
  truthy_opt (max_num_train_sents self) = false ->
  let src_it := read_sents (src_reader (model self)) (src_file self) None in
  let trg_it := read_sents (trg_reader (model self)) (trg_file self) None in
  (List.length src_it <> List.length trg_it <->
   exists e w', read_training_corpus R self w = (Raise e, w')) /\
  (List.length src_it = List.length trg_it <->
   exists self' w', read_training_corpus R self w = (Ok self', w')) /\
  (forall self' w', read_training_corpus R self w = (Ok self', w') ->
     List.length (src_data self') = List.length (trg_data self')) /\
  (forall B env blank yaml_context m sf tf b pmf fmt rfe lr times pat ip dt rt rc w0,
     List.length (read_sents (src_reader m) sf None)
       <> List.length (read_sents (trg_reader m) tf None) ->
     exists e w',
       __init__ R B env blank yaml_context m sf tf b pmf fmt rfe lr times pat ip dt rt rc w0
         = (Raise e, w')).
Proof.
  intros Hs Hm src_it trg_it.
  destruct (read_training_corpus_unfiltered R self w Hs Hm) as [Hok Hraise].
  assert (Hinv : forall self' w', read_training_corpus R self w = (Ok self', w') ->
            List.length src_it = List.length trg_it /\
            List.length (src_data self') = List.length (trg_data self')).
  { intros self' w' H.
    apply read_training_corpus_unfiltered_inv in H; try assumption.
    destruct H as (sd & td & sb & tb & E & ->).
    apply read_loop_lengths in E. destruct E as [El Ed].
    split; [exact El|]. fields self. apply Ed. reflexivity. }
  assert (Heq : List.length src_it = List.length trg_it ->
            exists self' w', read_training_corpus R self w = (Ok self', w')).
  { intros El.
    destruct (read_loop_total (set_data self [] [])
                (count_sents (src_reader (model self)) (src_file self))
                (count_sents (trg_reader (model self)) (trg_file self))
                src_it trg_it [] [] El) as (sd & td & E).
    destruct (Hok sd td E) as (sb & tb & w' & E'). do 2 eexists. exact E'. }
  assert (Hne : List.length src_it <> List.length trg_it ->
            exists e w', read_training_corpus R self w = (Raise e, w')).
  { intros El. destruct (Hraise _ (read_loop_mismatch _ _ _ _ _ _ _ El)) as [w' E].
    do 2 eexists. exact E. }
  split; [|split; [|split]].
  - split; [exact Hne|]. intros (e & w' & E) El.
    destruct (Heq El) as (self' & w1 & E'). rewrite E' in E. discriminate E.
  - split; [exact Heq|]. intros (self' & w' & E). apply (Hinv _ _ E).
  - intros self' w' E. apply (Hinv _ _ E).
  - intros B env blank yaml_context m sf tf b pmf fmt rfe lr times pat ip dt rt rc w0 El.
    destruct (__init__ R B env blank yaml_context m sf tf b pmf fmt rfe lr times pat ip
                dt rt rc w0) as [[t|e] w'] eqn:E.
    + exfalso. apply init_Ok in E.
      destruct E as (_ & _ & _ & _ & _ & _ & _ & _ & self0 & Em & Esf & Etf & Eloop).
      unfold unfiltered_loop in Eloop. rewrite Em, Esf, Etf in Eloop.
      apply read_loop_lengths in Eloop. destruct Eloop as [El' _]. contradiction.
    + do 2 eexists. reflexivity.
Qed.

(** A target file one sentence short of the source file. *)
Lemma read_training_corpus_paired_witness :
  exists e w',
    read_training_corpus Toy.random (Toy.blank_with Toy.model_short None) Toy.world0
      = (Raise e, w').
Proof.
  apply (read_training_corpus_paired Toy.random (Toy.blank_with Toy.model_short None)
           Toy.world0 eq_refl eq_refl).
  vm_compute. discriminate.
Defined.

(** ** C6: loss aggregation in [training_step] *)

Lemma fold_bundle_step nodes lb l :
  fold_left bundle_step nodes (lb, Some l)
  = (lb ++ nodes, Some (fold_left EAdd (map snd nodes) l)).
Proof.
  revert lb l. induction nodes as [|[n e] nodes IH]; intros lb l; cbn [fold_left map snd].
  - rewrite app_nil_r. reflexivity.
  - cbn [bundle_step]. unfold add_loss. rewrite IH, <- app_assoc. reflexivity.
Qed.

Lemma fold_bundle_step_first nodes :
  nodes <> [] ->
  fold_left bundle_step nodes ([], None) = (nodes, Some (esum (map snd nodes))).
Proof.
  destruct nodes as [|[n e] nodes]; [congruence|]. intros _.
  cbn [fold_left bundle_step]. unfold add_loss. rewrite fold_bundle_step. reflexivity.
Qed.

Lemma value_fold_add l e :
  value (fold_left EAdd l e) = fold_left PrimFloat.add (map value l) (value e).
Proof.
  revert e. induction l as [|x l IH]; intros e; cbn [fold_left map]; [reflexivity|].
  rewrite IH. reflexivity.
Qed.

Lemma value_esum l : l <> [] -> value (esum l) = float_sum (map value l).
Proof.
  destruct l as [|x l]; [congruence|]. intros _. apply value_fold_add.
Qed.

(** The rest of [training_step], once the primary loss is known. *)
Lemma training_step_eq self src trg w named primary :
  record_standard_loss [] (calc_loss (model self) src trg) = (named, Some primary) ->
  training_step self src trg w
  = (Ok (compute (recorded self named primary)),
     with_trace w (step_events self src trg named primary)).
Proof.
  intros H. unfold training_step, bind, emit.
  cbv beta iota zeta. rewrite H.
  unfold ret, with_trace, step_events, recorded, detached_negative.
  cbn [py_random np_random next_pid trace].
  rewrite <- !app_assoc. reflexivity.
Qed.

(** C6: for a named bundle, every term is recorded under its name, the
    primary scalar is the sum of the terms, and the value returned is the sum
    of what was recorded; a single scalar is recorded as ["loss"]; a non-null
    auxiliary loss is recorded last as ["additional_loss"]; the auxiliary
    computation receives [nobackprop(-primary)], which back-propagates into
    nothing.  The bundle [{a: 2.0, b: 3.0}] without auxiliary loss gives 5.0
    and the breakdown [{a: 2.0, b: 3.0}]. *)
Theorem training_step_losses (self : SimpleTrainingTask) (src trg : batch) (w : World) :
  (forall nodes,
     calc_loss (model self) src trg = BundleLoss nodes -> nodes <> [] ->
     let primary := esum (map snd nodes) in
     training_step self src trg w
       = (Ok (compute (recorded self nodes primary)),
          with_trace w (step_events self src trg nodes primary)) /\
     value primary = float_sum (map value (map snd nodes)) /\
     (calc_additional_loss (model self) (detached_negative primary) = None ->
        recorded self nodes primary = nodes /\
        compute (recorded self nodes primary) = primary) /\
     (forall a, calc_additional_loss (model self) (detached_negative primary) = Some a ->
        recorded self nodes primary = nodes ++ [("additional_loss", a)])) /\
  (forall e,
     calc_loss (model self) src trg = ScalarLoss e ->
     training_step self src trg w
       = (Ok (compute (recorded self [("loss", e)] e)),
          with_trace w (step_events self src trg [("loss", e)] e)) /\
     (calc_additional_loss (model self) (detached_negative e) = None ->
        recorded self [("loss", e)] e = [("loss", e)]) /\
     (forall a, calc_additional_loss (model self) (detached_negative e) = Some a ->
        recorded self [("loss", e)] e = [("loss", e); ("additional_loss", a)])) /\
  (forall primary, gradient_inputs (detached_negative primary) = []) /\
  (calc_loss (model self) src trg
     = BundleLoss [("a", EInput 2%float); ("b", EInput 3%float)] ->
   let primary := EAdd (EInput 2%float) (EInput 3%float) in
   exists loss_value w',
     training_step self src trg w = (Ok loss_value, w') /\
     (calc_additional_loss (model self) (detached_negative primary) = None ->
        value loss_value = 5%float /\
        w' = with_trace w
               [EvCalcLoss src trg; EvCalcAdditionalLoss (detached_negative primary);
                EvUpdateEpochLoss [("a", EInput 2%float); ("b", EInput 3%float)];
                EvReportTrainProcess]) /\
     (calc_additional_loss (model self) (detached_negative primary)
        = Some (EInput 1.5%float) ->
        w' = with_trace w
               [EvCalcLoss src trg; EvCalcAdditionalLoss (detached_negative primary);
                EvUpdateEpochLoss [("a", EInput 2%float); ("b", EInput 3%float);
                                   ("additional_loss", EInput 1.5%float)];
                EvReportTrainProcess])).
Proof.
  split; [|split; [|split]].
  - intros nodes Hb Hne primary.
    split.
    { apply training_step_eq. rewrite Hb. apply (fold_bundle_step_first nodes Hne). }
    split.
    { apply value_esum. destruct nodes; [congruence | discriminate]. }
    unfold recorded. split.
    + intros ->. split; reflexivity.
    + intros a ->. reflexivity.
  - intros e Hs. split.
    { apply training_step_eq. rewrite Hs. reflexivity. }
    unfold recorded. split.
    + intros ->. reflexivity.
    + intros a ->. reflexivity.
  - reflexivity.
  - intros Hb primary. do 2 eexists. split.
    { apply training_step_eq. rewrite Hb. reflexivity. }
    unfold step_events, recorded. fold primary. split.
    + intros ->. split; reflexivity.
    + intros ->. reflexivity.
Qed.

(** The toy models: the bundle [{a: 2.0, b: 3.0}]. *)
Lemma training_step_losses_witness :
  exists loss_value w',
    training_step Toy.blank [] [] Toy.world0 = (Ok loss_value, w') /\
    value loss_value = 5%float /\
    trace w' = [EvCalcLoss [] [];
                EvCalcAdditionalLoss
                  (ENoBackprop (ENeg (EAdd (EInput 2%float) (EInput 3%float))));
                EvUpdateEpochLoss [("a", EInput 2%float); ("b", EInput 3%float)];
                EvReportTrainProcess].
Proof.
  destruct (training_step_losses Toy.blank [] [] Toy.world0) as (_ & _ & _ & H).
  destruct (H eq_refl) as (v & w' & E & Hnone & _).
  exists v, w'. split; [exact E|].
  destruct (Hnone eq_refl) as [Hv ->]. split; [exact Hv | reflexivity].
Defined.

(** ** C9: the augmentation step of [advance_epoch] *)

(** The previous process is still running: nothing but a [poll] and a
    message; corpus, batches and everything else stay as they are, nothing is
    waited for and nothing is started. *)
Lemma augment_data_not_ready env self cmd h w :
  reload_command self = Some cmd ->
  _augmentation_handle self = Some h ->
  returncode (polled env h) = None ->
  _augment_data_next_epoch env self w
  = (Ok (set_augmentation_handle self (Some (polled env h))),
     with_trace w [EvPoll (pid h);
                   EvPrint "new data set is not ready yet, using data from last epoch."]).
Proof.
  intros Hc Hh Hr. unfold _augment_data_next_epoch. rewrite Hh.
  unfold Popen_poll, print, bind, emit, ret, with_trace.
  cbn [py_random np_random next_pid trace].
  fold (polled env h). rewrite Hr.
  cbn [py_random np_random next_pid trace]. rewrite <- ?app_assoc. reflexivity.
Qed.

(** The previous process has exited and a corpus parser is attached: the
    re-read is delegated to it and the next regeneration is started without
    waiting; the task's own [src_data] and [trg_data] are not assigned. *)
Lemma augment_data_ready env self cmd h w u :
  reload_command self = Some cmd ->
  _augmentation_handle self = Some h ->
  returncode (polled env h) <> None ->
  corpus_parser self = Some u ->
  let next_cmd :=
    String.append cmd (String.append " --epoch " (str_of_int (epoch_num (training_state self)))) in
  _augment_data_next_epoch env self w
  = (Ok (set_augmentation_handle self (Some (mkPopen (next_pid w) next_cmd None))),
     with_process w
       ([EvPoll (pid h)]
        ++ (if epoch_num (training_state self) >? 0
            then [EvPrint "using reloaded data"] else [])
        ++ [EvReadTrainingCorpus; EvPopen next_cmd (next_pid w)])).
Proof.
  intros Hc Hh Hr Hp next_cmd. unfold _augment_data_next_epoch. rewrite Hh.
  unfold Popen_poll, Popen_new, epoch_command, print, bind, emit, ret, with_process.
  cbn [py_random np_random next_pid trace].
  fold (polled env h). destruct (returncode (polled env h)); [|congruence].
  fields self. subst. cbn.
  destruct (epoch_num training_state0 >? 0); cbn; rewrite <- ?app_assoc; reflexivity.
Qed.

(** The previous process has exited and the instance has no [corpus_parser]:
    the reload line raises, and no regeneration is started. *)
Lemma augment_data_ready_no_parser env self cmd h w :
  reload_command self = Some cmd ->
  _augmentation_handle self = Some h ->
  returncode (polled env h) <> None ->
  corpus_parser self = None ->
  _augment_data_next_epoch env self w
  = (Raise (AttributeError "corpus_parser"),
     with_trace w
       ([EvPoll (pid h)]
        ++ (if epoch_num (training_state self) >? 0
            then [EvPrint "using reloaded data"] else []))).
Proof.
  intros Hc Hh Hr Hp. unfold _augment_data_next_epoch. rewrite Hh.
  unfold Popen_poll, Popen_new, epoch_command, print, bind, emit, ret, raise, with_trace.
  cbn [py_random np_random next_pid trace].
  fold (polled env h). destruct (returncode (polled env h)); [|congruence].
  fields self. subst. cbn.
  destruct (epoch_num training_state0 >? 0); cbn; rewrite <- ?app_assoc; reflexivity.
Qed.

(** With a corpus parser attached the augmentation step always returns. *)
Lemma augment_data_next_epoch_total env self cmd u w :
  reload_command self = Some cmd ->
  corpus_parser self = Some u ->
  exists self0 w0, _augment_data_next_epoch env self w = (Ok self0, w0).
Proof.
  intros Hc Hp. destruct (_augmentation_handle self) as [h|] eqn:Hh.
  - destruct (returncode (polled env h)) eqn:Hr.
    + do 2 eexists. eapply augment_data_ready; try eassumption. congruence.
    + do 2 eexists. eapply augment_data_not_ready; eassumption.
  - unfold _augment_data_next_epoch. rewrite Hh.
    unfold Popen_poll, Popen_wait, Popen_new, epoch_command, print, bind, emit, ret.
    fields self. subst. cbn.
    destruct (epoch_num training_state0 >? 0); do 2 eexists; reflexivity.
Qed.

(** C9 on the code: a task constructed with [reload_command = "true"] has
    an outstanding, exited sub-process and no [corpus_parser]; its first
    [advance_epoch] polls and then raises [AttributeError] on the reload
    line: nothing is reloaded and no regeneration is started. *)
Theorem reload_raises_attribute_error :
  fst reloading_construct = Ok reloading_task /\
  reload_command reloading_task = Some "true" /\
  _augmentation_handle reloading_task = Some (mkPopen 0 "true --epoch 0" (Some 0)) /\
  corpus_parser reloading_task = None /\
  advance_epoch Toy.random Toy.no_proc reloading_task (snd reloading_construct)
  = (Raise (AttributeError "corpus_parser"),
     with_trace (snd reloading_construct) [EvPoll 0]).
Proof. vm_compute. repeat split. Qed.

(** ** C5 and C7: what [advance_epoch] does *)

Lemma begin_epoch_fields R self w :
  let self' := fst (begin_epoch R self w) in
  let w' := snd (begin_epoch R self w) in
  let s := fst (random_randint R (py_random w) 1 2147483647) in
  let packed := packed_with R self s in
  epoch_seed (training_state self') = s /\
  epoch_num (training_state self') = epoch_num (training_state self) + 1 /\
  steps_into_epoch (training_state self') = 0 /\
  src_data self' = src_data self /\
  trg_data self' = trg_data self /\
  batcher self' = batcher self /\
  src_batches self' = fst (fst packed) /\
  trg_batches self' = snd (fst packed) /\
  minibatch_order self'
    = fst (np_random_shuffle R (snd (snd packed)) (range (len (fst (fst packed))))) /\
  py_random w' = fst (snd packed) /\
  np_random w'
    = snd (np_random_shuffle R (snd (snd packed)) (range (len (fst (fst packed))))) /\
  next_pid w' = next_pid w /\
  trace w' = trace w ++ [EvRandint 1 2147483647; EvSeed s; EvNpSeed s; EvPack; EvShuffle;
                         EvNewEpoch (cur_num_sentences self')].
Proof. fields self. repeat split. Qed.

Lemma advance_epoch_Ok_inv R env self w self' w' :
  advance_epoch R env self w = (Ok self', w') ->
  exists self0 w0,
    match reload_command self with
    | None => self0 = self /\ w0 = w
    | Some _ => _augment_data_next_epoch env self w = (Ok self0, w0)
    end /\
    src_data self0 = src_data self /\
    trg_data self0 = trg_data self /\
    batcher self0 = batcher self /\
    training_state self0 = training_state self /\
    self' = fst (begin_epoch R self0 w0) /\
    w' = snd (begin_epoch R self0 w0).
Proof.
  rewrite advance_epoch_eq. destruct (reload_command self).
  - intros H. bind_inv H. ok_inv H. exists a, w0.
    split; [assumption|].
    match goal with
    | Ha : _augment_data_next_epoch _ _ _ = _ |- _ =>
        apply augment_data_next_epoch_frame in Ha; destruct Ha as [h ->]
    end.
    fields self. repeat split.
  - intros H. ok_inv H. exists self, w. repeat split.
Qed.

Lemma advance_epoch_total R env self w :
  reload_command self = None \/ corpus_parser self <> None ->
  exists self' w', advance_epoch R env self w = (Ok self', w').
Proof.
  intros H. rewrite advance_epoch_eq.
  destruct (reload_command self) as [cmd|] eqn:Hc.
  - destruct H as [H|H]; [discriminate H|].
    destruct (corpus_parser self) as [u|] eqn:Hp; [|congruence].
    destruct (augment_data_next_epoch_total env self cmd u w Hc Hp) as (self0 & w0 & E).
    rewrite (bind_eq _ _ _ _ _ E). do 2 eexists. reflexivity.
  - do 2 eexists. reflexivity.
Qed.

(** The concrete random library honours the contracts. *)
Lemma toy_randint_in_range : randint_in_range Toy.random.
Proof.
  intros s lo hi H. cbn [Toy.random random_randint fst].
  pose proof (Z.mod_pos_bound (Toy.lcg s) (hi - lo + 1)). lia.
Qed.

Lemma toy_shuffle_permutes : shuffle_permutes Toy.random.
Proof.
  intros s l. cbn [Toy.random np_random_shuffle fst]. unfold Toy.rotate.
  rewrite <- (firstn_skipn (Z.to_nat (Toy.lcg s mod (len l + 1))) l) at 1.
  apply Permutation_app_comm.
Qed.

(** C5: a call to [advance_epoch], once the augmentation step has returned,
    draws [epoch_seed] with [random.randint(1, 2^31 - 1)], so within
    [1, 2^31 - 1]; seeds both generators with it; repacks the batches from
    the freshly seeded generators; adds exactly one to [epoch_num]; resets
    [steps_into_epoch] to 0; sets [minibatch_order] to a permutation of
    [0 .. cur_num_minibatches() - 1], shuffled by the generator the packer
    left; and fires the epoch-start notification last. *)
Theorem advance_epoch_effects (R : RandomLib) (env : ProcEnv)
  (self : SimpleTrainingTask) (w : World) :
  randint_in_range R ->
  shuffle_permutes R ->
  reload_command self = None \/ corpus_parser self <> None ->
  exists self0 w0 self' w',
    match reload_command self with
    | None => self0 = self /\ w0 = w
    | Some _ => _augment_data_next_epoch env self w = (Ok self0, w0)
    end /\
    advance_epoch R env self w = (Ok self', w') /\
    let s := epoch_seed (training_state self') in
    s = fst (random_randint R (py_random w0) 1 2147483647) /\
    1 <= s <= 2 ^ 31 - 1 /\
    epoch_num (training_state self') = epoch_num (training_state self) + 1 /\
    steps_into_epoch (training_state self') = 0 /\
    (src_batches self', trg_batches self') = fst (packed_with R self s) /\
    minibatch_order self'
      = fst (np_random_shuffle R (snd (snd (packed_with R self s)))
               (range (cur_num_minibatches self'))) /\
    Permutation (range (cur_num_minibatches self')) (minibatch_order self') /\
    trace w' = trace w0 ++ [EvRandint 1 2147483647; EvSeed s; EvNpSeed s; EvPack;
                            EvShuffle; EvNewEpoch (cur_num_sentences self')].
Proof.
  intros Hrange Hperm Hready.
  destruct (advance_epoch_total R env self w Hready) as (self' & w' & E).
  destruct (advance_epoch_Ok_inv _ _ _ _ _ _ E)
    as (self0 & w0 & Haug & Hsd & Htd & Hb & Hts & -> & ->).
  exists self0, w0, (fst (begin_epoch R self0 w0)), (snd (begin_epoch R self0 w0)).
  split; [exact Haug|]. split; [exact E|].
  destruct (begin_epoch_fields R self0 w0)
    as (Hseed & Hnum & Hsteps & _ & _ & _ & Hsb & Htb & Hord & _ & _ & _ & Htr).
  assert (Hpk : packed_with R self0 (fst (random_randint R (py_random w0) 1 2147483647))
                = packed_with R self (fst (random_randint R (py_random w0) 1 2147483647))).
  { unfold packed_with. rewrite Hsd, Htd, Hb. reflexivity. }
  rewrite Hpk in *. cbv zeta. rewrite Hseed.
  split; [reflexivity|].
  split; [apply (Hrange (py_random w0) 1 2147483647); lia|].
  split; [rewrite Hnum, Hts; reflexivity|].
  split; [exact Hsteps|].
  split; [rewrite Hsb, Htb; destruct (fst (packed_with R self _)); reflexivity|].
  unfold cur_num_minibatches. rewrite Hsb.
  split; [exact Hord|].
  split; [rewrite Hord; apply Hperm|].
  exact Htr.
Qed.

Lemma advance_epoch_effects_witness :
  exists self' w',
    advance_epoch Toy.random Toy.no_proc default_decay_task Toy.world0 = (Ok self', w') /\
    1 <= epoch_seed (training_state self') <= 2 ^ 31 - 1 /\
    epoch_num (training_state self') = 1 /\
    Permutation (range (cur_num_minibatches self')) (minibatch_order self').
Proof.
  assert (Hready : reload_command default_decay_task = None \/
                   corpus_parser default_decay_task <> None)
    by (left; vm_compute; reflexivity).
  destruct (advance_epoch_effects Toy.random Toy.no_proc default_decay_task Toy.world0
              toy_randint_in_range toy_shuffle_permutes Hready)
    as (self0 & w0 & self' & w' & _ & E & _ & Hs & Hn & _ & _ & _ & Hp & _).
  exists self', w'. split; [exact E|]. split; [exact Hs|]. split; [|exact Hp].
  rewrite Hn. vm_compute. reflexivity.
Defined.

(** C7: two calls of [advance_epoch] that end with the same [epoch_seed], on
    the same corpus and with the same batcher, leave the same batches and the
    same [minibatch_order], hence the same sequence of (src, trg) pairs, and
    leave both generators in the same state, whatever else differs between
    the two runs. *)
Theorem advance_epoch_deterministic (R : RandomLib) (env1 env2 : ProcEnv)
  (self1 self2 self1' self2' : SimpleTrainingTask) (w1 w2 w1' w2' : World) :
  src_data self1 = src_data self2 ->
  trg_data self1 = trg_data self2 ->
  batcher self1 = batcher self2 ->
  advance_epoch R env1 self1 w1 = (Ok self1', w1') ->
  advance_epoch R env2 self2 w2 = (Ok self2', w2') ->
  epoch_seed (training_state self1') = epoch_seed (training_state self2') ->
  src_batches self1' = src_batches self2' /\
  trg_batches self1' = trg_batches self2' /\
  minibatch_order self1' = minibatch_order self2' /\
  epoch_batches self1' = epoch_batches self2' /\
  py_random w1' = py_random w2' /\
  np_random w1' = np_random w2'.
Proof.
  intros Hsd Htd Hb E1 E2 Hseed.
  apply advance_epoch_Ok_inv in E1.
  destruct E1 as (t1 & v1 & _ & Hsd1 & Htd1 & Hb1 & _ & -> & ->).
  apply advance_epoch_Ok_inv in E2.
  destruct E2 as (t2 & v2 & _ & Hsd2 & Htd2 & Hb2 & _ & -> & ->).
  destruct (begin_epoch_fields R t1 v1)
    as (Hs1 & _ & _ & _ & _ & _ & Hsb1 & Htb1 & Ho1 & Hpy1 & Hnp1 & _).
  destruct (begin_epoch_fields R t2 v2)
    as (Hs2 & _ & _ & _ & _ & _ & Hsb2 & Htb2 & Ho2 & Hpy2 & Hnp2 & _).
  rewrite Hs1, Hs2 in Hseed.
  assert (Hpk : packed_with R t1 (fst (random_randint R (py_random v1) 1 2147483647))
                = packed_with R t2 (fst (random_randint R (py_random v2) 1 2147483647))).
  { unfold packed_with. rewrite Hseed. congruence. }
  rewrite Hpk in *.
  assert (Hsb : src_batches (fst (begin_epoch R t1 v1))
                = src_batches (fst (begin_epoch R t2 v2))) by congruence.
  assert (Htb : trg_batches (fst (begin_epoch R t1 v1))
                = trg_batches (fst (begin_epoch R t2 v2))) by congruence.
  assert (Ho : minibatch_order (fst (begin_epoch R t1 v1))
               = minibatch_order (fst (begin_epoch R t2 v2))) by congruence.
  split; [exact Hsb|]. split; [exact Htb|]. split; [exact Ho|].
  split; [unfold epoch_batches; rewrite Hsb, Htb, Ho; reflexivity|].
  split; congruence.
Qed.

(** Two tasks that differ in everything but corpus and batcher, in two
    worlds whose generators happen to draw the same seed. *)
Lemma advance_epoch_deterministic_witness :
  exists self1' w1' self2' w2',
    advance_epoch Toy.random Toy.no_proc default_decay_task Toy.world0 = (Ok self1', w1') /\
    advance_epoch Toy.random Toy.exited_proc two_tier_task
      (mkWorld 42 1000 5 [EvNewDev]) = (Ok self2', w2') /\
    minibatch_order self1' = minibatch_order self2' /\
    epoch_batches self1' = epoch_batches self2'.
Proof.
  destruct (advance_epoch Toy.random Toy.no_proc default_decay_task Toy.world0)
    as [[self1'|e1] w1'] eqn:E1; [|vm_compute in E1; discriminate E1].
  destruct (advance_epoch Toy.random Toy.exited_proc two_tier_task
              (mkWorld 42 1000 5 [EvNewDev]))
    as [[self2'|e2] w2'] eqn:E2; [|vm_compute in E2; discriminate E2].
  exists self1', w1', self2', w2'. split; [reflexivity|]. split; [reflexivity|].
  assert (Hsd : src_data default_decay_task = src_data two_tier_task)
    by (vm_compute; reflexivity).
  assert (Htd : trg_data default_decay_task = trg_data two_tier_task)
    by (vm_compute; reflexivity).
  assert (Hb : batcher default_decay_task = batcher two_tier_task)
    by (vm_compute; reflexivity).
  assert (Hseed : epoch_seed (training_state self1') = epoch_seed (training_state self2')).
  { vm_compute in E1. vm_compute in E2. inversion E1. inversion E2. reflexivity. }
  destruct (advance_epoch_deterministic Toy.random _ _ _ _ _ _ _ _ _ _ Hsd Htd Hb E1 E2 Hseed)
    as (_ & _ & Ho & Hb' & _).
  split; assumption.
Defined.

(** ** C4: the minibatch generator *)

Lemma py_index_ok {A} (l : list A) (i : Z) :
  0 <= i < len l -> exists a, py_index l i = Ok a.
Proof.
  intros H. unfold py_index.
  destruct (Z.ltb_spec i 0); [lia|].
  destruct (Z.ltb_spec i 0); [lia|].
  destruct (Z.leb_spec (len l) i); [lia|]. cbn [orb].
  destruct (nth_error l (Z.to_nat i)) eqn:E; [eexists; reflexivity|].
  apply nth_error_None in E. unfold len in H. lia.
Qed.

Lemma range_bounds n b : In b (range n) -> 0 <= b < n.
Proof.
  unfold range. rewrite in_map_iff. intros (k & <- & Hk). apply in_seq in Hk. lia.
Qed.

(** After [advance_epoch], every entry of [minibatch_order] indexes a batch
    of both lists, provided the batcher returned lists of the same length. *)
Lemma advance_epoch_order_valid R env self w self1 w1 :
  shuffle_permutes R ->
  advance_epoch R env self w = (Ok self1, w1) ->
  List.length (trg_batches self1) = List.length (src_batches self1) ->
  forall b, In b (minibatch_order self1) ->
    exists src trg,
      py_index (src_batches self1) b = Ok src /\ py_index (trg_batches self1) b = Ok trg.
Proof.
  intros Hperm E Hlen b Hb.
  apply advance_epoch_Ok_inv in E. destruct E as (t & v & _ & _ & _ & _ & _ & -> & ->).
  destruct (begin_epoch_fields R t v) as (_ & _ & _ & _ & _ & _ & Hsb & _ & Ho & _).
  rewrite Ho in Hb. rewrite <- Hsb in Hb.
  apply (Permutation_in _ (Permutation_sym (Hperm _ _))) in Hb.
  apply range_bounds in Hb.
  destruct (py_index_ok (src_batches (fst (begin_epoch R t v))) b Hb) as [src Es].
  assert (Hb' : 0 <= b < len (trg_batches (fst (begin_epoch R t v))))
    by (unfold len in *; rewrite Hlen; exact Hb).
  destruct (py_index_ok _ b Hb') as [trg Et].
  exists src, trg. split; assumption.
Qed.

(** A pull inside an epoch: the next pair is handed out, [steps_into_epoch]
    goes up by one on resumption, and [advance_epoch] is not called. *)
Lemma next_minibatch_inner R fuel env self b rest src trg w :
  py_index (src_batches self) b = Ok src ->
  py_index (trg_batches self) b = Ok trg ->
  next_minibatch R fuel env (GenSuspended (b :: rest)) self w
  = (Ok (Yield src trg (GenSuspended rest) (resumed (GenSuspended (b :: rest)) self)), w).
Proof.
  intros Hs Ht. cbn [next_minibatch resumed]. unfold yield_batch, bind, lift.
  replace (src_batches (set_training_state self _)) with (src_batches self)
    by (fields self; reflexivity).
  replace (trg_batches (set_training_state self _)) with (trg_batches self)
    by (fields self; reflexivity).
  rewrite Hs, Ht. reflexivity.
Qed.

(** A pull at an epoch boundary that enters an epoch with minibatches: one
    call of [advance_epoch], then the first pair. *)
Lemma next_minibatch_boundary R fuel env g self w self1 w1 b rest src trg :
  g = GenCreated \/ g = GenSuspended [] ->
  advance_epoch R env (resumed g self) w = (Ok self1, w1) ->
  minibatch_order self1 = b :: rest ->
  py_index (src_batches self1) b = Ok src ->
  py_index (trg_batches self1) b = Ok trg ->
  next_minibatch R (S fuel) env g self w
  = (Ok (Yield src trg (GenSuspended rest) self1), w1).
Proof.
  intros Hg E Ho Hs Ht.
  assert (Hsweep : sweep R (S fuel) env (resumed g self) w
                   = (Ok (Yield src trg (GenSuspended rest) self1), w1)).
  { cbn [sweep]. rewrite (bind_eq _ _ _ _ _ E). rewrite Ho.
    unfold yield_batch, bind, lift. rewrite Hs, Ht. reflexivity. }
  destruct Hg as [-> | ->]; exact Hsweep.
Qed.

Lemma resumed_same_epoch g self : same_epoch self (resumed g self).
Proof. destruct g; fields self; repeat split. Qed.

Lemma resumed_steps b rest self :
  steps_into_epoch (training_state (resumed (GenSuspended (b :: rest)) self))
  = steps_into_epoch (training_state self) + 1.
Proof. fields self. reflexivity. Qed.

(** [k] pulls inside an epoch. *)
Lemma drain_inner R fuel env k rest self w :
  (k <= List.length rest)%nat ->
  (forall b, In b rest ->
     exists src trg,
       py_index (src_batches self) b = Ok src /\ py_index (trg_batches self) b = Ok trg) ->
  exists yields self',
    drain R fuel env k (GenSuspended rest) self w
      = (Ok (Some (yields, GenSuspended (skipn k rest), self')), w) /\
    map yielded yields
      = firstn k (map (fun b => (py_index (src_batches self) b,
                                 py_index (trg_batches self) b)) rest) /\
    same_epoch self self' /\
    steps_into_epoch (training_state self')
      = steps_into_epoch (training_state self) + Z.of_nat k.
Proof.
  revert rest self. induction k as [|k IH]; intros rest self Hk Hvalid.
  - exists [], self. cbn. repeat split. lia.
  - destruct rest as [|b rest]; [cbn in Hk; lia|].
    destruct (Hvalid b (or_introl eq_refl)) as (src & trg & Hs & Ht).
    set (self1 := resumed (GenSuspended (b :: rest)) self).
    destruct (resumed_same_epoch (GenSuspended (b :: rest)) self) as (Esb & Etb & Eo & En).
    fold self1 in Esb, Etb, Eo, En.
    assert (Hvalid1 : forall b0, In b0 rest ->
              exists src0 trg0, py_index (src_batches self1) b0 = Ok src0 /\
                                py_index (trg_batches self1) b0 = Ok trg0).
    { intros b0 Hb0. rewrite Esb, Etb. apply Hvalid. right. exact Hb0. }
    assert (Hk1 : (k <= List.length rest)%nat) by (cbn in Hk; lia).
    destruct (IH rest self1 Hk1 Hvalid1) as (yields & self' & Ed & Hy & Hse & Hst).
    exists ((src, trg) :: yields), self'. split.
    + cbn [drain].
      rewrite (bind_eq _ _ _ _ _ (next_minibatch_inner R fuel env self b rest src trg w Hs Ht)).
      fold self1. rewrite (bind_eq _ _ _ _ _ Ed). reflexivity.
    + split.
      * cbn [map firstn]. rewrite Hs, Ht. unfold yielded at 1. cbn [fst snd].
        f_equal. rewrite Hy, Esb, Etb. reflexivity.
      * split.
        -- destruct Hse as (H1 & H2 & H3 & H4). repeat split; congruence.
        -- rewrite Hst. unfold self1. rewrite resumed_steps. lia.
Qed.





(** * Further properties of the task *)

(** ** The constructor, forwards *)

Lemma read_loop_no_bounds self a b src_it trg_it sd td :
  max_src_len self = None ->
  max_trg_len self = None ->
  List.length src_it = List.length trg_it ->
  read_loop self a b src_it trg_it sd td = Ok (sd ++ src_it, td ++ trg_it).
Proof.
  intros Hs Ht. revert trg_it sd td.
  induction src_it as [|s src_it IH]; intros [|t trg_it] sd td H;
    cbn in H; try discriminate H; cbn [read_loop].
  - rewrite !app_nil_r. reflexivity.
  - rewrite Hs, Ht. cbn [len_ok andb]. rewrite IH by congruence.
    rewrite <- !app_assoc. reflexivity.
Qed.

Lemma read_training_corpus_exact R self w sd td :
  sample_train_sents self = 0 ->
  truthy_opt (max_num_train_sents self) = false ->
  unfiltered_loop self = Ok (sd, td) ->
  let packed := pack (batcher self) (py_random w) (np_random w) sd td in
  read_training_corpus R self w
  = (Ok (set_batches (set_data self sd td) (fst (fst packed)) (snd (fst packed))),
     mkWorld (fst (snd packed)) (snd (snd packed)) (next_pid w)
       (trace w ++ corpus_events)).
Proof.
  intros Hs Hm E. unfold unfiltered_loop in E. unfold read_training_corpus.
  fields self. subst sample_train_sents0. rewrite Hm.
  unfold bind, emit, lift, ret, pack_batches, get_world, set_py_random, set_np_random.
  cbn. rewrite E. cbn.
  destruct (pack batcher0 (py_random w) (np_random w) sd td) as [[sb tb] [s1 s2]].
  cbn. unfold corpus_events. rewrite <- !app_assoc. reflexivity.
Qed.

Lemma TrainingState_init_eq R w :
  TrainingState_init R w
  = (Ok (mkTrainingState 0 0 0 0 (fst (random_randint R (py_random w) 1 2147483647))),
     mkWorld (snd (random_randint R (py_random w) 1 2147483647)) (np_random w) (next_pid w)
       (trace w ++ [EvRandint 1 2147483647])).
Proof.
  unfold TrainingState_init, randint, bind, emit, get_world, set_py_random, ret.
  cbn [py_random np_random next_pid trace].
  destruct (random_randint R (py_random w) 1 2147483647). reflexivity.
Qed.

(** The first run of [_augment_data_initial]: the command is started with
    [--epoch 0] and waited for. *)
Lemma augment_data_initial_eq env self cmd w :
  reload_command self = Some cmd ->
  _augmentation_handle self = None ->
  _augment_data_initial env self w
  = (Ok (set_augmentation_handle self
           (Some (mkPopen (next_pid w) (initial_command cmd)
                    (Some (wait_status env (next_pid w)))))),
     mkWorld (py_random w) (np_random w) (S (next_pid w))
       (trace w ++ [EvPrint "initial augmentation";
                    EvPopen (initial_command cmd) (next_pid w); EvWait (next_pid w)])).
Proof.
  intros Hc Hh. unfold _augment_data_initial. rewrite Hh, Hc.
  unfold epoch_command, Popen_new, Popen_wait, print, bind, emit, ret, initial_command.
  cbn [py_random np_random next_pid trace pid args returncode].
  rewrite <- !app_assoc. reflexivity.
Qed.

(** The constructor in closed form: with a [yaml_context], a legal
    [lr_decay] and streams of the same length it returns this task and
    leaves this world. *)
Lemma init_forward R B env blank yc m sf tf b pmf fmt rfe lr times pat ip dt rt rc w :
  PrimFloat.ltb 1%float lr || PrimFloat.leb lr 0%float = false ->
  List.length (read_sents (src_reader m) sf None)
    = List.length (read_sents (trg_reader m) tf None) ->
  let draw := random_randint R (py_random w) 1 2147483647 in
  let the_batcher := match b with Some b0 => b0 | None => B end in
  let src_it := read_sents (src_reader m) sf None in
  let trg_it := read_sents (trg_reader m) tf None in
  let packed := pack the_batcher (snd draw) (np_random w) src_it trg_it in
  __init__ R B env blank (Some yc) m sf tf b pmf fmt rfe lr times pat ip dt rt rc w
  = (Ok (mkTask (dynet_param_collection_model_file yc) sf tf dt lr pat ip times rt rfe
           false (mkTrainingState 0 0 0 0 (fst draw)) rc
           (initial_handle env blank rc (next_pid w)) m pmf 0 None None None the_batcher
           src_it trg_it (fst (fst packed)) (snd (fst packed)) (minibatch_order blank)
           (trainer blank) (corpus_parser blank) (self_src_reader blank)
           (self_trg_reader blank)),
     mkWorld (fst (snd packed)) (snd (snd packed))
       (match rc with Some _ => S (next_pid w) | None => next_pid w end)
       (trace w ++ init_events rc pmf fmt (next_pid w))).
Proof.
  intros Hlr Hlen draw the_batcher src_it trg_it packed.
  unfold __init__. rewrite Hlr.
  erewrite bind_eq by reflexivity.
  erewrite bind_eq by reflexivity.
  erewrite bind_eq by apply TrainingState_init_eq.
  fold draw.
  set (w1 := mkWorld (snd draw) (np_random w) (next_pid w)
               (trace w ++ [EvRandint 1 2147483647])).
  set (self0 := mkTask (dynet_param_collection_model_file yc) sf tf dt lr pat ip times rt
                  rfe false (mkTrainingState 0 0 0 0 (fst draw)) rc
                  (_augmentation_handle blank) m pmf 0 None None None the_batcher
                  (src_data blank) (trg_data blank) (src_batches blank) (trg_batches blank)
                  (minibatch_order blank) (trainer blank) (corpus_parser blank)
                  (self_src_reader blank) (self_trg_reader blank)).
  assert (Hloop : forall h,
    unfiltered_loop (set_augmentation_handle self0 h) = Ok (src_it, trg_it)).
  { intros h. unfold unfiltered_loop. cbn.
    apply (read_loop_no_bounds _ _ _ _ _ [] []); [reflexivity | reflexivity | exact Hlen]. }
  assert (Hrest : forall h w2,
    ((if negb (String.eqb pmf "")
      then emit (EvLoadPretrained (String.append pmf ".data")) else ret tt) ;;;
     (if String.eqb fmt "contvec" then emit EvSetPadToken else ret tt) ;;;
     self <- read_training_corpus R (set_augmentation_handle self0 h) ;;
     emit EvNewLogger ;;; ret self)%py w2
    = (Ok (set_batches (set_data (set_augmentation_handle self0 h) src_it trg_it)
             (fst (fst (pack the_batcher (py_random w2) (np_random w2) src_it trg_it)))
             (snd (fst (pack the_batcher (py_random w2) (np_random w2) src_it trg_it)))),
       mkWorld (fst (snd (pack the_batcher (py_random w2) (np_random w2) src_it trg_it)))
         (snd (snd (pack the_batcher (py_random w2) (np_random w2) src_it trg_it)))
         (next_pid w2)
         (trace w2
          ++ (if negb (String.eqb pmf "")
              then [EvLoadPretrained (String.append pmf ".data")] else [])
          ++ (if String.eqb fmt "contvec" then [EvSetPadToken] else [])
          ++ corpus_events ++ [EvNewLogger]))).
  { intros h w2.
    destruct (negb (String.eqb pmf "")); destruct (String.eqb fmt "contvec");
      unfold bind at 1; unfold emit at 1; unfold ret at 1;
      unfold bind at 1; try unfold emit at 1; try unfold ret at 1;
      unfold bind at 1;
      erewrite read_training_corpus_exact by (try reflexivity; apply Hloop);
      unfold bind, emit, ret;
      cbn [py_random np_random next_pid trace fst snd batcher set_augmentation_handle self0
           app];
      rewrite <- ?app_assoc; reflexivity. }
  destruct rc as [cmd|].
  - erewrite bind_eq
      by (apply (augment_data_initial_eq env (set_augmentation_handle self0 None) cmd);
          reflexivity).
    etransitivity;
      [exact (Hrest (Some (mkPopen (next_pid w1) (initial_command cmd)
                             (Some (wait_status env (next_pid w1)))))
                (mkWorld (py_random w1) (np_random w1) (S (next_pid w1))
                   (trace w1 ++ [EvPrint "initial augmentation";
                                 EvPopen (initial_command cmd) (next_pid w1);
                                 EvWait (next_pid w1)])))|].
    unfold init_events, initial_handle.
    cbn [py_random np_random next_pid trace w1 self0 set_augmentation_handle set_data
         set_batches].
    fold packed. rewrite <- !app_assoc. reflexivity.
  - erewrite bind_eq by reflexivity.
    etransitivity; [exact (Hrest (_augmentation_handle blank) w1)|].
    unfold init_events, initial_handle.
    cbn [py_random np_random next_pid trace w1 self0 set_augmentation_handle set_data
         set_batches].
    fold packed. rewrite <- !app_assoc. reflexivity.
Qed.

Lemma init_no_context R B env blank m sf tf b pmf fmt rfe lr times pat ip dt rt rc w :
  __init__ R B env blank None m sf tf b pmf fmt rfe lr times pat ip dt rt rc w
  = (Raise AssertionError, w).
Proof. reflexivity. Qed.

Lemma init_illegal_lr_decay R B env blank yc m sf tf b pmf fmt rfe lr times pat ip dt rt rc w :
  PrimFloat.ltb 1%float lr || PrimFloat.leb lr 0%float = true ->
  __init__ R B env blank (Some yc) m sf tf b pmf fmt rfe lr times pat ip dt rt rc w
  = (Raise (RuntimeError "illegal lr_decay, must satisfy: 0.0 < lr_decay <= 1.0"), w).
Proof. intros H. unfold __init__. rewrite H. reflexivity. Qed.

(** A successful constructor call, backwards: its arguments were fit and its
    result is the closed form. *)
Lemma init_Ok_forward R B env blank yaml_context m sf tf b pmf fmt rfe lr times pat ip dt
  rt rc w self w' :
  __init__ R B env blank yaml_context m sf tf b pmf fmt rfe lr times pat ip dt rt rc w
    = (Ok self, w') ->
  exists yc,
    yaml_context = Some yc /\
    PrimFloat.ltb 1%float lr || PrimFloat.leb lr 0%float = false /\
    List.length (read_sents (src_reader m) sf None)
      = List.length (read_sents (trg_reader m) tf None) /\
    __init__ R B env blank (Some yc) m sf tf b pmf fmt rfe lr times pat ip dt rt rc w
      = (Ok self, w').
Proof.
  intros H. destruct yaml_context as [yc|]; [|rewrite init_no_context in H; discriminate H].
  exists yc. split; [reflexivity|].
  pose proof (init_Ok _ _ _ _ _ _ _ _ _ _ _ _ _ _ _ _ _ _ _ _ _ _ H)
    as (Hlr & _ & _ & _ & _ & _ & _ & _ & self0 & Em & Esf & Etf & Eloop).
  split; [exact Hlr|]. split; [|exact H].
  unfold unfiltered_loop in Eloop. rewrite Em, Esf, Etf in Eloop.
  apply read_loop_lengths in Eloop. exact (proj1 Eloop).
Qed.

(** X1: the constructor succeeds exactly when a [yaml_context] is given,
    [lr_decay] is neither above 1.0 nor at or below 0.0, and the two
    sentence streams have the same length.  A missing context is an
    [AssertionError] and an illegal [lr_decay] a [RuntimeError], both raised
    before anything else has happened: no seed drawn, no process started, no
    file read. *)
Theorem init_succeeds_iff (R : RandomLib) (B : Batcher) (env : ProcEnv)
  (blank : SimpleTrainingTask) yaml_context m sf tf b pmf fmt rfe lr times pat ip dt rt rc
  (w : World) :
  ((exists self w',
      __init__ R B env blank yaml_context m sf tf b pmf fmt rfe lr times pat ip dt rt rc w
        = (Ok self, w')) <->
   yaml_context <> None /\
   PrimFloat.ltb 1%float lr || PrimFloat.leb lr 0%float = false /\
   List.length (read_sents (src_reader m) sf None)
     = List.length (read_sents (trg_reader m) tf None)) /\
  (yaml_context = None ->
   __init__ R B env blank yaml_context m sf tf b pmf fmt rfe lr times pat ip dt rt rc w
     = (Raise AssertionError, w)) /\
  (yaml_context <> None ->
   PrimFloat.ltb 1%float lr || PrimFloat.leb lr 0%float = true ->
   __init__ R B env blank yaml_context m sf tf b pmf fmt rfe lr times pat ip dt rt rc w
     = (Raise (RuntimeError "illegal lr_decay, must satisfy: 0.0 < lr_decay <= 1.0"), w)).
Proof.
  split; [|split].
  - split.
    + intros (self & w' & H). apply init_Ok_forward in H.
      destruct H as (yc & -> & Hlr & Hlen & _). repeat split; [discriminate | assumption..].
    + intros (Hy & Hlr & Hlen). destruct yaml_context as [yc|]; [|congruence].
      do 2 eexists. apply init_forward; assumption.
  - intros ->. apply init_no_context.
  - intros Hy Hlr. destruct yaml_context as [yc|]; [|congruence].
    apply init_illegal_lr_decay. exact Hlr.
Qed.

(** X2: a successful constructor call loads the whole corpus, unfiltered and
    in stream order, packs it with the generators as the seed draw left
    them, and starts from a zeroed training state whose [epoch_seed] lies in
    [1, 2^31 - 1]; [minibatch_order] is not assigned yet. *)
Theorem init_postcondition (R : RandomLib) (B : Batcher) (env : ProcEnv)
  (blank : SimpleTrainingTask) yaml_context m sf tf b pmf fmt rfe lr times pat ip dt rt rc
  (w : World) (self : SimpleTrainingTask) (w' : World) :
  randint_in_range R ->
  __init__ R B env blank yaml_context m sf tf b pmf fmt rfe lr times pat ip dt rt rc w
    = (Ok self, w') ->
  let draw := random_randint R (py_random w) 1 2147483647 in
  src_data self = read_sents (src_reader m) sf None /\
  trg_data self = read_sents (trg_reader m) tf None /\
  List.length (src_data self) = List.length (trg_data self) /\
  (src_batches self, trg_batches self)
    = fst (pack (batcher self) (snd draw) (np_random w) (src_data self) (trg_data self)) /\
  batcher self = match b with Some b0 => b0 | None => B end /\
  training_state self = mkTrainingState 0 0 0 0 (fst draw) /\
  1 <= epoch_seed (training_state self) <= 2 ^ 31 - 1 /\
  early_stopping_reached self = false /\
  minibatch_order self = minibatch_order blank /\
  (max_src_len self, max_trg_len self, max_num_train_sents self, sample_train_sents self)
    = (None, None, None, 0).
Proof.
  intros Hrange H draw. apply init_Ok_forward in H.
  destruct H as (yc & _ & Hlr & Hlen & H).
  rewrite (init_forward _ _ _ _ _ _ _ _ _ _ _ _ _ _ _ _ _ _ _ _ Hlr Hlen) in H.
  inversion H; subst; clear H. cbn. fold draw.
  repeat split; try assumption.
  - destruct (fst (pack _ _ _ _ _)). reflexivity.
  - apply (Hrange (py_random w) 1 2147483647). lia.
  - pose proof (Hrange (py_random w) 1 2147483647). fold draw in H. lia.
Qed.

Lemma init_postcondition_witness :
  src_data default_decay_task = Toy.corpus_src /\
  trg_data default_decay_task = Toy.corpus_trg /\
  training_state default_decay_task = mkTrainingState 0 0 0 0 1250496028.
Proof.
  assert (Hinit :
    __init__ Toy.random Toy.one_per_batch Toy.exited_proc Toy.blank Toy.yaml Toy.model
      (Some "train.src") (Some "train.trg") None "" "text" (Some 2) 1%float 3 1 None None
      false None Toy.world0
    = (Ok default_decay_task, snd (Toy.construct Toy.model 1%float 3 1 None None)))
    by (vm_compute; reflexivity).
  destruct (init_postcondition _ _ _ _ _ _ _ _ _ _ _ _ _ _ _ _ _ _ _ _ _ _
              toy_randint_in_range Hinit) as (Hs & Ht & _ & _ & _ & Hts & _).
  split; [exact Hs|]. split; [exact Ht|]. rewrite Hts. vm_compute. reflexivity.
Defined.

(** X3: with a [reload_command], a successful constructor call has started
    [cmd --epoch 0] and waited for it before the first corpus file is
    touched, and leaves its handle with the exit status; without one no
    process is started. *)
Theorem init_initial_augmentation (R : RandomLib) (B : Batcher) (env : ProcEnv)
  (blank : SimpleTrainingTask) yaml_context m sf tf b pmf fmt rfe lr times pat ip dt rt rc
  (w : World) (self : SimpleTrainingTask) (w' : World) :
  __init__ R B env blank yaml_context m sf tf b pmf fmt rfe lr times pat ip dt rt rc w
    = (Ok self, w') ->
  let p := next_pid w in
  let later :=
    (if negb (String.eqb pmf "")
     then [EvLoadPretrained (String.append pmf ".data")] else [])
    ++ (if String.eqb fmt "contvec" then [EvSetPadToken] else [])
    ++ [EvCountSents "src"; EvCountSents "trg"; EvReadSents "src"; EvReadSents "trg";
        EvFreeze; EvFreeze; EvPack; EvNewLogger] in
  match rc with
  | Some cmd =>
      _augmentation_handle self
        = Some (mkPopen p (String.append cmd " --epoch 0") (Some (wait_status env p))) /\
      next_pid w' = S p /\
      trace w' = trace w ++ [EvRandint 1 2147483647; EvPrint "initial augmentation";
                             EvPopen (String.append cmd " --epoch 0") p; EvWait p] ++ later
  | None =>
      _augmentation_handle self = _augmentation_handle blank /\
      next_pid w' = p /\
      trace w' = trace w ++ [EvRandint 1 2147483647] ++ later
  end.
Proof.
  intros H p later. apply init_Ok_forward in H.
  destruct H as (yc & _ & Hlr & Hlen & H).
  rewrite (init_forward _ _ _ _ _ _ _ _ _ _ _ _ _ _ _ _ _ _ _ _ Hlr Hlen) in H.
  inversion H; subst; clear H.
  unfold init_events, initial_handle, initial_command, corpus_events.
  cbn [_augmentation_handle next_pid trace]. fold p.
  destruct rc as [cmd|]; cbn [str_of_int]; repeat split;
    subst later; rewrite <- ?app_assoc; reflexivity.
Qed.

Lemma init_initial_augmentation_witness :
  _augmentation_handle reloading_task = Some (mkPopen 0 "true --epoch 0" (Some 0)) /\
  trace (snd reloading_construct)
  = [EvRandint 1 2147483647; EvPrint "initial augmentation"; EvPopen "true --epoch 0" 0;
     EvWait 0; EvCountSents "src"; EvCountSents "trg"; EvReadSents "src";
     EvReadSents "trg"; EvFreeze; EvFreeze; EvPack; EvNewLogger].
Proof.
  assert (Hinit :
    __init__ Toy.random Toy.one_per_batch Toy.exited_proc (Toy.blank_with Toy.model None)
      Toy.yaml Toy.model (Some "train.src") (Some "train.trg") None "" "text" (Some 2)
      1%float 3 1 None None false (Some "true") Toy.world0
    = (Ok reloading_task, snd reloading_construct)) by (vm_compute; reflexivity).
  pose proof (init_initial_augmentation _ _ _ _ _ _ _ _ _ _ _ _ _ _ _ _ _ _ _ _ _ _ Hinit)
    as (Hh & _ & Ht).
  split; [exact Hh | exact Ht].
Defined.

(** ** Reading the corpus: limits, filters and the kind of error *)

Lemma combine_snoc {A B} (l1 : list A) (l2 : list B) x y :
  List.length l1 = List.length l2 ->
  combine (l1 ++ [x]) (l2 ++ [y]) = combine l1 l2 ++ [(x, y)].
Proof.
  revert l2. induction l1 as [|a l1 IH]; intros [|b l2] H; cbn in H; try discriminate H.
  - reflexivity.
  - cbn. rewrite IH by congruence. reflexivity.
Qed.

Lemma read_loop_filter self0 self a b src_it trg_it sd td sd' td' :
  max_src_len self0 = max_src_len self ->
  max_trg_len self0 = max_trg_len self ->
  read_loop self0 a b src_it trg_it sd td = Ok (sd', td') ->
  List.length sd = List.length td ->
  combine sd' td' = combine sd td ++ filter (pair_len_ok self) (combine src_it trg_it).
Proof.
  intros Hs Ht. revert trg_it sd td.
  induction src_it as [|s src_it IH]; intros [|t trg_it] sd td H Hlen;
    cbn [read_loop] in H; try discriminate H.
  - inversion H; subst. cbn. rewrite app_nil_r. reflexivity.
  - cbn [combine filter]. unfold pair_len_ok at 1. cbn [fst snd]. rewrite <- Hs, <- Ht.
    destruct (len_ok (max_src_len self0) s && len_ok (max_trg_len self0) t).
    + rewrite (IH _ _ _ H) by (rewrite !length_app; cbn; lia).
      rewrite combine_snoc by exact Hlen. rewrite <- app_assoc. reflexivity.
    + apply (IH _ _ _ H Hlen).
Qed.

(** X4: the length limits drop sentence pairs as a whole.  When
    [read_training_corpus] returns (no sentence-count filter configured),
    pairing [src_data] with [trg_data] gives exactly the pairs of the two
    streams whose source fits [max_src_len] and whose target fits
    [max_trg_len], in stream order: what stays stays aligned. *)
Theorem read_training_corpus_length_limits (R : RandomLib) (self self' : SimpleTrainingTask)
  (w w' : World) :
  filter_configured self = false ->
  read_training_corpus R self w = (Ok self', w') ->
  List.length (src_data self') = List.length (trg_data self') /\
  combine (src_data self') (trg_data self')
  = filter (pair_len_ok self)
      (combine (read_sents (src_reader (model self)) (src_file self) None)
               (read_sents (trg_reader (model self)) (trg_file self) None)).
Proof.
  unfold filter_configured. intros Hf H.
  apply orb_false_iff in Hf. destruct Hf as [Hs Hm].
  apply negb_false_iff, Z.eqb_eq in Hs.
  apply read_training_corpus_unfiltered_inv in H; try assumption.
  destruct H as (sd & td & sb & tb & E & ->).
  unfold unfiltered_loop in E.
  pose proof (read_loop_lengths _ _ _ _ _ _ _ _ _ E) as [_ Hl].
  apply (read_loop_filter _ self) in E;
    [|fields self; reflexivity|fields self; reflexivity|reflexivity].
  fields self. split; [apply Hl; reflexivity | exact E].
Qed.

Lemma read_training_corpus_length_limits_witness :
  exists self' w',
    read_training_corpus Toy.random limited_task Toy.world0 = (Ok self', w') /\
    List.length (src_data self') = List.length (trg_data self') /\
    combine (src_data self') (trg_data self')
    = filter (pair_len_ok limited_task) (combine Toy.corpus_src Toy.corpus_trg).
Proof.
  destruct (read_training_corpus Toy.random limited_task Toy.world0)
    as [[self'|e] w'] eqn:E; [|vm_compute in E; discriminate E].
  exists self', w'. split; [reflexivity|].
  exact (read_training_corpus_length_limits Toy.random limited_task self' Toy.world0 w'
           eq_refl E).
Defined.


(** X5: when a filter on the number of sentences is configured
    ([sample_train_sents] or [max_num_train_sents]) and the two sentence
    counts differ, [read_training_corpus] raises a [RuntimeError] naming both
    counts right after counting: neither file is read, no reader is frozen
    and nothing is packed. *)
Theorem read_training_corpus_count_mismatch (R : RandomLib) (self : SimpleTrainingTask)
  (w : World) :
  filter_configured self = true ->
  let src_len := count_sents (src_reader (model self)) (src_file self) in
  let trg_len := count_sents (trg_reader (model self)) (trg_file self) in
  src_len <> trg_len ->
  read_training_corpus R self w
  = (Raise (RuntimeError (mismatch_message src_len trg_len)),
     with_trace w [EvCountSents "src"; EvCountSents "trg"]).
Proof.
  intros Hf src_len trg_len Hne. unfold filter_configured in Hf.
  assert (Hneq : negb (src_len =? trg_len) = true)
    by (apply negb_true_iff, Z.eqb_neq; exact Hne).
  unfold read_training_corpus. subst src_len trg_len.
  fields self.
  unfold bind, emit, raise, ret, with_trace. cbn.
  destruct (negb (sample_train_sents0 =? 0)).
  - rewrite Hneq. cbn. rewrite <- !app_assoc. reflexivity.
  - cbn in Hf. rewrite Hf, Hneq. cbn. rewrite <- !app_assoc. reflexivity.
Qed.

Lemma read_training_corpus_count_mismatch_witness :
  read_training_corpus Toy.random capped_short_task Toy.world0
  = (Raise (RuntimeError "training src sentences don't match trg sentences: 3 != 2!"),
     with_trace Toy.world0 [EvCountSents "src"; EvCountSents "trg"]).
Proof.
  apply (read_training_corpus_count_mismatch Toy.random capped_short_task Toy.world0 eq_refl).
  vm_compute. discriminate.
Defined.



(** ** The dev checkpoint: evaluation, verdict and return value *)

Lemma collect_dev_scores_flat env tasks acc :
  collect_dev_scores env tasks acc = acc ++ flat_map (dev_scores_of env) tasks.
Proof.
  revert acc. induction tasks as [|t tasks IH]; intros acc; cbn [collect_dev_scores flat_map].
  - rewrite app_nil_r. reflexivity.
  - unfold dev_scores_of at 1. destruct (dev_eval env t); rewrite IH, <- app_assoc; reflexivity.
Qed.

Lemma eval_dev_tasks_exact env tasks acc w :
  eval_dev_tasks env tasks acc w
  = (Ok (acc ++ flat_map (dev_scores_of env) tasks), with_trace w (map EvDevEval tasks)).
Proof.
  revert acc w. induction tasks as [|t tasks IH]; intros acc w; cbn [eval_dev_tasks].
  - unfold ret, with_trace. cbn. rewrite !app_nil_r. destruct w; reflexivity.
  - unfold bind at 1. rewrite emit_eq.
    cbn [flat_map map].
    assert (Hs : dev_scores_of env t
                 = match dev_eval env t with OneScore s => [s] | ScoreList l => l end)
      by reflexivity.
    destruct (dev_eval env t); rewrite IH, Hs; unfold with_trace;
      cbn [py_random np_random next_pid trace];
      rewrite <- !app_assoc; reflexivity.
Qed.

Lemma report_auxiliary_scores_exact l w :
  report_auxiliary_scores l w = (Ok tt, with_trace w (map EvReportAuxiliaryScore l)).
Proof.
  revert w. induction l as [|x l IH]; intros w; cbn [report_auxiliary_scores map].
  - unfold ret, with_trace. rewrite app_nil_r. destruct w; reflexivity.
  - unfold bind at 1. rewrite emit_eq, IH. unfold with_trace. cbn.
    rewrite <- app_assoc. reflexivity.
Qed.

Lemma dev_scores_available_flat env self :
  dev_scores_available env self <->
  match dev_tasks self with
  | Some ((_ :: _) as tasks) => flat_map (dev_scores_of env) tasks <> []
  | _ => True
  end.
Proof.
  unfold dev_scores_available.
  destruct (dev_tasks self) as [[|t tasks]|]; try tauto.
  rewrite collect_dev_scores_flat. reflexivity.
Qed.

Lemma perform_evaluation_exact env self w :
  dev_scores_available env self ->
  perform_evaluation env self w = (Ok tt, with_trace w (evaluation_events env self)).
Proof.
  intros H. apply dev_scores_available_flat in H.
  unfold perform_evaluation, evaluation_events.
  destruct (dev_tasks self) as [[|t tasks]|].
  - unfold ret, with_trace. rewrite app_nil_r. destruct w; reflexivity.
  - unfold bind at 1. rewrite eval_dev_tasks_exact. cbn [app].
    destruct (flat_map (dev_scores_of env) (t :: tasks)) as [|p aux]; [congruence|].
    unfold bind at 1. rewrite emit_eq, report_auxiliary_scores_exact.
    unfold with_trace. cbn [py_random np_random next_pid trace].
    rewrite <- !app_assoc. reflexivity.
  - unfold ret, with_trace. rewrite app_nil_r. destruct w; reflexivity.
Qed.

Lemma with_trace_app w l1 l2 : with_trace (with_trace w l1) l2 = with_trace w (l1 ++ l2).
Proof. unfold with_trace. cbn. rewrite <- app_assoc. reflexivity. Qed.

(** The schedule part of a checkpoint, with the world it starts from. *)
Lemma checkpoint_control_exact env self w :
  dev_scores_available env self ->
  checkpoint env self true w =
  if dev_improved env then
    (Ok (match model_file self with Some _ => true | None => false end,
         set_training_state self (with_cur_attempt (training_state self) 0)),
     with_trace w (verdict_events env self))
  else if PrimFloat.ltb (lr_decay self) 1%float && should_decay (attempt_failed self) then
    bind (apply_decay (attempt_failed self)) (fun s => ret (false, s))
      (with_trace w (verdict_events env self))
  else (Ok (false, attempt_failed self), with_trace w (verdict_events env self)).
Proof.
  intros Hd. unfold checkpoint, print.
  unfold bind at 1. rewrite emit_eq.
  unfold bind at 1. rewrite (perform_evaluation_exact env self _ Hd).
  unfold bind at 1. rewrite emit_eq.
  unfold bind at 1. rewrite emit_eq.
  match goal with
  | |- context [mkWorld ?a ?b ?c ?d] =>
      replace (mkWorld a b c d) with (with_trace w (verdict_events env self))
        by (unfold with_trace, verdict_events; cbn;
            rewrite <- !app_assoc; reflexivity)
  end.
  destruct (dev_improved env); [reflexivity|].
  replace (lr_decay (attempt_failed self)) with (lr_decay self) by (fields self; reflexivity).
  destruct (PrimFloat.ltb (lr_decay self) 1); [|reflexivity].
  destruct (should_decay (attempt_failed self)); reflexivity.
Qed.

(** X7: a checkpoint without learning schedule control only evaluates: it
    returns [False], leaves the task exactly as it was, never asks the
    logger whether the model improved and prints nothing, whatever the dev
    scores are. *)
Theorem checkpoint_evaluation_only (env : CheckpointEnv) (self : SimpleTrainingTask)
  (w : World) :
  dev_scores_available env self ->
  checkpoint env self false w
  = (Ok (false, self), with_trace w (EvNewDev :: evaluation_events env self)) /\
  ~ In EvReportDevAndCheckModel (EvNewDev :: evaluation_events env self) /\
  (forall msg, ~ In (EvPrint msg) (EvNewDev :: evaluation_events env self)).
Proof.
  intros Hd. split.
  - unfold checkpoint. unfold bind at 1. rewrite emit_eq.
    unfold bind at 1. rewrite (perform_evaluation_exact env self _ Hd).
    unfold ret, with_trace. cbn. rewrite <- app_assoc. reflexivity.
  - assert (Hin : forall e, In e (EvNewDev :: evaluation_events env self) ->
              e = EvNewDev \/ (exists t, e = EvDevEval t) \/
              (exists x, e = EvSetDevScore x) \/ (exists x, e = EvReportAuxiliaryScore x)).
    { intros e [<- | He]; [left; reflexivity|]. right.
      unfold evaluation_events in He.
      destruct (dev_tasks self) as [[|t tasks]|]; try contradiction.
      apply in_app_or in He. destruct He as [He | He].
      - apply in_map_iff in He. destruct He as (x & <- & _). left. eexists; reflexivity.
      - destruct (flat_map (dev_scores_of env) (t :: tasks)) as [|p aux]; [contradiction|].
        destruct He as [<- | He]; [right; left; eexists; reflexivity|].
        apply in_map_iff in He. destruct He as (x & <- & _).
        right. right. eexists; reflexivity. }
    split.
    + intros H. apply Hin in H.
      destruct H as [H | [[t H] | [[x H] | [x H]]]]; discriminate H.
    + intros msg H. apply Hin in H.
      destruct H as [H | [[t H] | [[x H] | [x H]]]]; discriminate H.
Qed.

Lemma checkpoint_evaluation_only_witness :
  checkpoint (scores_env true) two_dev_tasks false Toy.world0
  = (Ok (false, two_dev_tasks),
     with_trace Toy.world0
       [EvNewDev; EvDevEval 0; EvDevEval 1; EvSetDevScore 5; EvReportAuxiliaryScore 6]).
Proof.
  assert (Hd : dev_scores_available (scores_env true) two_dev_tasks)
    by (vm_compute; discriminate).
  exact (proj1 (checkpoint_evaluation_only (scores_env true) two_dev_tasks Toy.world0 Hd)).
Defined.

Lemma perform_evaluation_no_scores env self tasks w :
  dev_tasks self = Some tasks ->
  tasks <> [] ->
  flat_map (dev_scores_of env) tasks = [] ->
  perform_evaluation env self w
  = (Raise (IndexError "list index out of range"), with_trace w (map EvDevEval tasks)).
Proof.
  intros Ht Hne Hs. unfold perform_evaluation. rewrite Ht.
  destruct tasks as [|t tasks]; [congruence|].
  unfold bind at 1. rewrite eval_dev_tasks_exact. cbn [app]. rewrite Hs. reflexivity.
Qed.

(** X8: the dev scores of a checkpoint.  The scores of all dev tasks are
    taken in task order, a list of scores counting as that many; the first
    one is handed to the logger as the dev score and the others are reported
    as auxiliary scores, in order.  If there are dev tasks but none reports
    a score, the checkpoint raises [IndexError] after having run them all,
    with or without schedule control, before the logger is asked anything. *)
Theorem checkpoint_dev_scores (env : CheckpointEnv) (self : SimpleTrainingTask)
  (tasks : list nat) (w : World) :
  dev_tasks self = Some tasks ->
  tasks <> [] ->
  let scores := flat_map (dev_scores_of env) tasks in
  (scores = [] ->
   forall ctl,
     checkpoint env self ctl w
     = (Raise (IndexError "list index out of range"),
        with_trace w (EvNewDev :: map EvDevEval tasks))) /\
  (forall primary auxiliary,
     scores = primary :: auxiliary ->
     checkpoint env self false w
     = (Ok (false, self),
        with_trace w (EvNewDev :: map EvDevEval tasks
                      ++ EvSetDevScore primary :: map EvReportAuxiliaryScore auxiliary))).
Proof.
  intros Ht Hne scores. split.
  - intros Hs ctl. unfold checkpoint. unfold bind at 1. rewrite emit_eq.
    unfold bind at 1.
    rewrite (perform_evaluation_no_scores env self tasks _ Ht Hne Hs).
    unfold with_trace. cbn. rewrite <- app_assoc. reflexivity.
  - intros primary auxiliary Hs.
    assert (Hd : dev_scores_available env self).
    { apply dev_scores_available_flat. rewrite Ht.
      destruct tasks as [|t tasks]; [congruence|]. fold scores. rewrite Hs. discriminate. }
    destruct (checkpoint_evaluation_only env self w Hd) as [E _]. rewrite E.
    unfold evaluation_events. rewrite Ht.
    destruct tasks as [|t tasks]; [congruence|]. fold scores. rewrite Hs. reflexivity.
Qed.

Lemma checkpoint_dev_scores_witness :
  checkpoint (scores_env false) two_dev_tasks false Toy.world0
  = (Ok (false, two_dev_tasks),
     with_trace Toy.world0
       (EvNewDev :: map EvDevEval [0%nat; 1%nat]
        ++ EvSetDevScore 5 :: map EvReportAuxiliaryScore [6])).
Proof.
  assert (Hne : [0%nat; 1%nat] <> []) by discriminate.
  destruct (checkpoint_dev_scores (scores_env false) two_dev_tasks [0%nat; 1%nat]
              Toy.world0 eq_refl Hne) as [_ H].
  apply H. reflexivity.
Defined.

(** X9: what [checkpoint] returns.  The result is [True] exactly when the
    learning schedule is controlled, the logger found the model improved
    and a model file is configured; an evaluation-only checkpoint and a
    failed one return [False]. *)
Theorem checkpoint_return_value (env : CheckpointEnv) (self self' : SimpleTrainingTask)
  (ctl r : bool) (w w' : World) :
  checkpoint env self ctl w = (Ok (r, self'), w') ->
  r = ctl && dev_improved env && negb (is_None (model_file self)).
Proof.
  destruct ctl.
  - unfold checkpoint, print. intros H.
    bind_inv H. bind_inv H. bind_inv H. bind_inv H.
    destruct (dev_improved env).
    + ok_inv H. destruct (model_file self); reflexivity.
    + replace (lr_decay (attempt_failed self)) with (lr_decay self) in H
        by (fields self; reflexivity).
      destruct (PrimFloat.ltb (lr_decay self) 1).
      * destruct (should_decay (attempt_failed self)).
        -- bind_inv H. ok_inv H. reflexivity.
        -- ok_inv H. reflexivity.
      * ok_inv H. reflexivity.
  - unfold checkpoint. intros H. bind_inv H. bind_inv H. ok_inv H. reflexivity.
Qed.

Lemma checkpoint_return_value_witness :
  exists self' w',
    checkpoint (scores_env true) two_dev_tasks true Toy.world0 = (Ok (true, self'), w').
Proof.
  destruct (checkpoint (scores_env true) two_dev_tasks true Toy.world0)
    as [[[r self']|e] w'] eqn:E; [|vm_compute in E; discriminate E].
  exists self', w'.
  rewrite (checkpoint_return_value _ _ _ _ _ _ _ E). reflexivity.
Defined.

(** ** Early stopping as a terminal state *)

Lemma run_op_early_stopping R o g self w g' self' w' :
  run_op R o (g, self) w = (Ok (Some (g', self')), w') ->
  early_stopping_reached self = true ->
  early_stopping_reached self' = true.
Proof.
  destruct o as [fuel env | src trg | env ctl]; cbn [run_op]; intros H He.
  - bind_inv H. destruct a as [src trg g1 self1|]; ok_inv H.
    apply next_minibatch_same_schedule in H0. destruct H0 as (Hs & _).
    unfold schedule in Hs. inversion Hs. congruence.
  - bind_inv H. ok_inv H. exact He.
  - bind_inv H. ok_inv H. destruct a as [r self1]. cbn [snd].
    apply checkpoint_inv in H0.
    destruct H0 as [(_ & ->) | [(_ & _ & ->) | [(_ & _ & _ & ->) | (_ & _ & _ & _ & w1 & E)]]].
    + exact He.
    + fields self. exact He.
    + fields self. exact He.
    + apply apply_decay_inv in E.
      destruct E as (_ & _ & _ & _ & [(_ & E & _) | (_ & E & _)]); [exact E|].
      rewrite E. fields self. exact He.
Qed.

(** X10: early stopping is terminal.  Once [early_stopping_reached] is set,
    no pull, training step or checkpoint, improving or not, clears it, and
    [should_stop_training] answers [True] from then on, whatever
    [run_for_epochs] is. *)
Theorem early_stopping_is_terminal (R : RandomLib) (ops : list op) (g g' : generator)
  (self self' : SimpleTrainingTask) (w w' : World) :
  early_stopping_reached self = true ->
  run R ops (g, self) w = (Ok (Some (g', self')), w') ->
  early_stopping_reached self' = true /\
  should_stop_training self' = Ok true.
Proof.
  intros He H.
  assert (He' : early_stopping_reached self' = true).
  { revert g self w He H. induction ops as [|o ops IH]; intros g self w He H; cbn [run] in H.
    - ok_inv H. exact He.
    - bind_inv H. destruct a as [[g1 self1]|]; [|ok_inv H].
      apply (IH g1 self1 w0); [|exact H].
      eapply run_op_early_stopping; eassumption. }
  split; [exact He'|]. unfold should_stop_training. rewrite He'. reflexivity.
Qed.

Lemma early_stopping_is_terminal_witness :
  exists g' self' w',
    run Toy.random [OpCheckpoint Toy.improved true; OpNextMinibatch 1 Toy.no_proc]
      (GenSuspended [1; 2], stopped_early) Toy.world0 = (Ok (Some (g', self')), w') /\
    early_stopping_reached self' = true /\
    should_stop_training self' = Ok true.
Proof.
  destruct (run Toy.random [OpCheckpoint Toy.improved true; OpNextMinibatch 1 Toy.no_proc]
              (GenSuspended [1; 2], stopped_early) Toy.world0)
    as [[[[g' self']|]|e] w'] eqn:E;
    [|vm_compute in E; discriminate E|vm_compute in E; discriminate E].
  exists g', self', w'. split; [reflexivity|].
  assert (He : early_stopping_reached stopped_early = true) by (vm_compute; reflexivity).
  exact (early_stopping_is_terminal _ _ _ _ _ _ _ _ He E).
Defined.

Lemma run_op_budget R o g self w g' self' w' :
  run_op R o (g, self) w = (Ok (Some (g', self')), w') ->
  (early_stopping_reached self = true ->
   num_times_lr_decayed (training_state self) > lr_decay_times self /\
   PrimFloat.ltb (lr_decay self) 1%float = true) ->
  early_stopping_reached self' = true ->
  num_times_lr_decayed (training_state self') > lr_decay_times self' /\
  PrimFloat.ltb (lr_decay self') 1%float = true.
Proof.
  intros H Hinv He'.
  pose proof (run_op_monotone _ _ _ _ _ _ _ _ H) as [Hmono Hcfg].
  assert (Hlr : lr_decay self' = lr_decay self /\ lr_decay_times self' = lr_decay_times self).
  { unfold schedule_config in Hcfg. inversion Hcfg. split; congruence. }
  destruct Hlr as [Hlr Htimes]. rewrite Hlr, Htimes.
  destruct (early_stopping_reached self) eqn:He.
  - destruct (Hinv eq_refl) as [Hn Hl]. split; [lia | exact Hl].
  - clear Hinv. destruct o as [fuel env | src trg | env ctl]; cbn [run_op] in H.
    + bind_inv H. destruct a as [src trg g1 self1|]; ok_inv H.
      apply next_minibatch_same_schedule in H0. destruct H0 as (Hs & _).
      unfold schedule in Hs. inversion Hs. congruence.
    + bind_inv H. ok_inv H. congruence.
    + bind_inv H. ok_inv H. destruct a as [r self1]. cbn [snd] in *.
      apply checkpoint_inv in H0.
      destruct H0 as [(_ & ->) | [(_ & _ & ->) | [(_ & _ & _ & ->) | (_ & _ & Hl & _ & w1 & E)]]].
      * congruence.
      * exfalso. fields self. congruence.
      * exfalso. fields self. congruence.
      * apply apply_decay_inv in E.
        destruct E as (Hn & _ & _ & _ & [(Hgt & _ & _) | (_ & E & _)]).
        -- split; [|exact Hl]. rewrite Hn.
           replace (num_times_lr_decayed (training_state (attempt_failed self)))
             with (num_times_lr_decayed (training_state self)) in * by (fields self; reflexivity).
           replace (lr_decay_times (attempt_failed self)) with (lr_decay_times self) in *
             by (fields self; reflexivity).
           lia.
        -- exfalso. rewrite E in He'. fields self. congruence.
Qed.

(** X11: early stopping comes from the decay budget alone.  In a task
    returned by the constructor, after any run of pulls, training steps and
    checkpoints, [early_stopping_reached] is set only if
    [num_times_lr_decayed] exceeds [lr_decay_times] and [lr_decay < 1.0]. *)
Theorem early_stopping_only_by_budget (R : RandomLib) (B : Batcher) (env0 : ProcEnv)
  (blank : SimpleTrainingTask) yaml_context m sf tf b pmf fmt rfe lr times pat ip dt rt rc
  (w0 w : World) (ops : list op) (g g' : generator) (self self' : SimpleTrainingTask)
  (w1 w2 : World) :
  __init__ R B env0 blank yaml_context m sf tf b pmf fmt rfe lr times pat ip dt rt rc w0
    = (Ok self, w) ->
  run R ops (g, self) w1 = (Ok (Some (g', self')), w2) ->
  early_stopping_reached self' = true ->
  num_times_lr_decayed (training_state self') > times /\
  PrimFloat.ltb lr 1%float = true.
Proof.
  intros Hinit Hrun.
  assert (Hgen : forall ops g self w1,
    run R ops (g, self) w1 = (Ok (Some (g', self')), w2) ->
    (early_stopping_reached self = true ->
     num_times_lr_decayed (training_state self) > lr_decay_times self /\
     PrimFloat.ltb (lr_decay self) 1%float = true) ->
    early_stopping_reached self' = true ->
    num_times_lr_decayed (training_state self') > lr_decay_times self' /\
    PrimFloat.ltb (lr_decay self') 1%float = true /\
    schedule_config self' = schedule_config self).
  { clear. intros ops. induction ops as [|o ops IH]; intros g self w1 H Hinv He; cbn [run] in H.
    - ok_inv H. destruct (Hinv He). repeat split; assumption.
    - bind_inv H. destruct a as [[g1 self1]|]; [|ok_inv H].
      pose proof (run_op_monotone _ _ _ _ _ _ _ _ H0) as [_ Hcfg].
      destruct (IH g1 self1 w H (run_op_budget _ _ _ _ _ _ _ _ H0 Hinv) He) as (H1 & H2 & H3).
      repeat split; try assumption. congruence. }
  intros He.
  pose proof Hinit as Hinit'. apply init_Ok_forward in Hinit'.
  destruct Hinit' as (yc & _ & Hlr & Hlen & Hinit').
  rewrite (init_forward _ _ _ _ _ _ _ _ _ _ _ _ _ _ _ _ _ _ _ _ Hlr Hlen) in Hinit'.
  inversion Hinit' as [[Hself Hw]]. clear Hinit'.
  assert (Hcfg0 : lr_decay self = lr /\ lr_decay_times self = times /\
                  early_stopping_reached self = false)
    by (rewrite <- Hself; repeat split).
  destruct Hcfg0 as (Hl & Ht & He0).
  destruct (Hgen ops g self w1 Hrun) as (H1 & H2 & H3); [congruence | exact He |].
  unfold schedule_config in H3. inversion H3. split; congruence.
Qed.

Lemma early_stopping_only_by_budget_witness :
  early_stopping_reached stopped_early = true /\
  num_times_lr_decayed (training_state stopped_early) > 0 /\
  PrimFloat.ltb 0.5%float 1%float = true.
Proof.
  assert (Hinit :
    __init__ Toy.random Toy.one_per_batch Toy.exited_proc Toy.blank Toy.yaml Toy.model
      (Some "train.src") (Some "train.trg") None "" "text" (Some 2) 0.5%float 0 1 None None
      false None Toy.world0
    = (Ok (Toy.the_task stopping_construct), snd stopping_construct))
    by (vm_compute; reflexivity).
  assert (Hrun :
    run Toy.random [OpNextMinibatch 1 Toy.no_proc; OpCheckpoint Toy.failed true]
      (GenCreated, Toy.the_task stopping_construct) (snd stopping_construct)
    = (Ok (Some (GenSuspended [1; 2], stopped_early)),
       snd (run Toy.random [OpNextMinibatch 1 Toy.no_proc; OpCheckpoint Toy.failed true]
              (GenCreated, Toy.the_task stopping_construct) (snd stopping_construct))))
    by (vm_compute; reflexivity).
  assert (He : early_stopping_reached stopped_early = true) by (vm_compute; reflexivity).
  split; [exact He|].
  exact (early_stopping_only_by_budget _ _ _ _ _ _ _ _ _ _ _ _ _ _ _ _ _ _ _ _ _ _ _ _ _ _ _ _
           Hinit Hrun He).
Defined.

(** ** Decays in a row *)

Lemma attempt_failed_decays self :
  decays_next self -> should_decay (attempt_failed self) = true.
Proof.
  intros [Hip Hc]. apply should_decay_iff. left.
  destruct (attempt_failed_fields self) as (Hts & _ & _). rewrite Hts.
  cbn [cur_attempt num_times_lr_decayed with_cur_attempt].
  replace (patience (attempt_failed self)) with (patience self) by (fields self; reflexivity).
  replace (initial_patience (attempt_failed self)) with (initial_patience self)
    by (fields self; reflexivity).
  split; assumption.
Qed.

Lemma apply_decay_exact self tr w :
  trainer self = Some tr ->
  exists self',
    apply_decay self w = (Ok self', with_trace w (decay_events self tr)) /\
    num_times_lr_decayed (training_state self')
      = num_times_lr_decayed (training_state self) + 1 /\
    cur_attempt (training_state self') = cur_attempt (training_state self) /\
    schedule_config self' = schedule_config self /\
    dev_tasks self' = dev_tasks self /\
    (num_times_lr_decayed (training_state self) + 1 > lr_decay_times self ->
       early_stopping_reached self' = true /\ trainer self' = Some tr) /\
    (num_times_lr_decayed (training_state self) + 1 <= lr_decay_times self ->
       early_stopping_reached self' = early_stopping_reached self /\
       trainer self'
         = Some (mkTrainer (PrimFloat.mul (learning_rate tr) (lr_decay self)))).
Proof.
  intros Ht. unfold apply_decay, decay_events. fields self. subst trainer0.
  unfold bind, print, emit, ret, with_trace.
  destruct (num_times_lr_decayed training_state0 + 1 >? lr_decay_times0) eqn:E.
  - eexists. split; [reflexivity|]. cbn.
    apply Z.gtb_lt in E. repeat split; try reflexivity; lia.
  - assert (E' : num_times_lr_decayed training_state0 + 1 <= lr_decay_times0).
    { destruct (Z.gtb_spec (num_times_lr_decayed training_state0 + 1) lr_decay_times0);
        [discriminate | lia]. }
    destruct restart_trainer0;
      (eexists; split; [cbn; rewrite <- ?app_assoc; reflexivity|]);
      cbn; repeat split; try reflexivity; lia.
Qed.

(** A failed checkpoint that decays, with its events. *)
Lemma failed_checkpoint_decays env self tr w :
  PrimFloat.ltb (lr_decay self) 1%float = true ->
  dev_improved env = false ->
  should_decay (attempt_failed self) = true ->
  trainer self = Some tr ->
  dev_scores_available env self ->
  exists self',
    checkpoint env self true w
      = (Ok (false, self'), with_trace w (verdict_events env self ++ decay_events self tr)) /\
    num_times_lr_decayed (training_state self')
      = num_times_lr_decayed (training_state self) + 1 /\
    cur_attempt (training_state self') = cur_attempt (training_state self) + 1 /\
    schedule_config self' = schedule_config self /\
    dev_tasks self' = dev_tasks self /\
    (num_times_lr_decayed (training_state self) + 1 > lr_decay_times self ->
       early_stopping_reached self' = true /\ trainer self' = Some tr) /\
    (num_times_lr_decayed (training_state self) + 1 <= lr_decay_times self ->
       early_stopping_reached self' = early_stopping_reached self /\
       trainer self'
         = Some (mkTrainer (PrimFloat.mul (learning_rate tr) (lr_decay self)))).
Proof.
  intros Hlr Hi Hsd Ht Hd.
  rewrite (checkpoint_control_exact env self w Hd), Hi, Hlr, Hsd. cbn [andb].
  assert (Ht' : trainer (attempt_failed self) = Some tr) by (fields self; exact Ht).
  destruct (apply_decay_exact (attempt_failed self) tr
              (with_trace w (verdict_events env self)) Ht')
    as (self' & Ea & Hn & Hc & Hcfg & Hdt & Hstop & Hmul).
  assert (Hev : decay_events (attempt_failed self) tr = decay_events self tr)
    by (fields self; reflexivity).
  assert (Hf : num_times_lr_decayed (training_state (attempt_failed self))
               = num_times_lr_decayed (training_state self) /\
               cur_attempt (training_state (attempt_failed self))
               = cur_attempt (training_state self) + 1 /\
               schedule_config (attempt_failed self) = schedule_config self /\
               dev_tasks (attempt_failed self) = dev_tasks self /\
               lr_decay_times (attempt_failed self) = lr_decay_times self /\
               lr_decay (attempt_failed self) = lr_decay self /\
               early_stopping_reached (attempt_failed self) = early_stopping_reached self)
    by (fields self; repeat split).
  destruct Hf as (F1 & F2 & F3 & F4 & F5 & F6 & F7).
  rewrite F1, F5 in Hstop, Hmul. rewrite F6, F7 in Hmul.
  exists self'. split.
  - rewrite (bind_eq _ _ _ _ _ Ea). unfold ret. rewrite with_trace_app, Hev. reflexivity.
  - repeat split; try congruence; try (apply Hstop; assumption); apply Hmul; assumption.
Qed.

(** X12: a decay does not reset [cur_attempt].  Once the standard rule
    applies (no [initial_patience] or a decay behind, and the next attempt
    reaches [patience]), every further failed checkpoint in a row decays
    again: within the budget, [k] failed checkpoints multiply the learning
    rate [k] times and add [k] to [num_times_lr_decayed] and to
    [cur_attempt]. *)
Theorem decays_in_a_row (R : RandomLib) (env : CheckpointEnv) (k : nat) (g : generator)
  (self : SimpleTrainingTask) (tr : Trainer) (w : World) :
  PrimFloat.ltb (lr_decay self) 1%float = true ->
  dev_improved env = false ->
  dev_scores_available env self ->
  trainer self = Some tr ->
  decays_next self ->
  num_times_lr_decayed (training_state self) + Z.of_nat k <= lr_decay_times self ->
  exists self' w',
    run R (repeat (OpCheckpoint env true) k) (g, self) w = (Ok (Some (g, self')), w') /\
    num_times_lr_decayed (training_state self')
      = num_times_lr_decayed (training_state self) + Z.of_nat k /\
    cur_attempt (training_state self') = cur_attempt (training_state self) + Z.of_nat k /\
    early_stopping_reached self' = early_stopping_reached self /\
    trainer self'
      = Some (mkTrainer (Nat.iter k (fun x => PrimFloat.mul x (lr_decay self))
                           (learning_rate tr))).
Proof.
  intros Hlr Hi. revert self tr w Hlr.
  induction k as [|k IH]; intros self tr w Hlr Hd Ht Hnext Hbudget.
  - exists self, w. cbn [repeat run Nat.iter]. split; [reflexivity|].
    repeat split; try lia. rewrite Ht. destruct tr. reflexivity.
  - destruct (failed_checkpoint_decays env self tr w Hlr Hi (attempt_failed_decays _ Hnext)
                Ht Hd) as (self1 & E & Hn & Hc & Hcfg & Hdt & _ & Hin).
    destruct Hin as [He1 Ht1]; [lia|].
    unfold schedule_config in Hcfg. inversion Hcfg as [[Hlr1 Hpat Hip Htimes Hrt]].
    assert (Hnext1 : decays_next self1).
    { destruct Hnext as [Hip0 Hc0]. unfold decays_next. rewrite Hip, Hn, Hc, Hpat.
      split; [destruct Hip0; [left; assumption | right; lia] | lia]. }
    assert (Hd1 : dev_scores_available env self1)
      by (unfold dev_scores_available in *; rewrite Hdt; exact Hd).
    destruct (IH self1 _ (with_trace w (verdict_events env self ++ decay_events self tr))
                ltac:(rewrite Hlr1; exact Hlr) Hd1 Ht1 Hnext1 ltac:(rewrite Hn, Htimes; lia))
      as (self' & w' & Er & Hn' & Hc' & He' & Ht').
    exists self', w'. split.
    + cbn [repeat run run_op]. unfold bind at 1. unfold bind at 1. rewrite E.
      cbn [ret snd]. exact Er.
    + rewrite Hn', Hc', He', Ht', Hn, Hc, He1, Hlr1.
      repeat split; try lia.
      cbn [learning_rate]. rewrite Nat.iter_succ_r. reflexivity.
Qed.

Lemma decays_in_a_row_witness :
  exists self' w',
    run Toy.random (repeat (OpCheckpoint Toy.failed true) 2) (GenCreated, patient_task)
      Toy.world0 = (Ok (Some (GenCreated, self')), w') /\
    num_times_lr_decayed (training_state self') = 3 /\
    trainer self' = Some (mkTrainer 0.125%float).
Proof.
  assert (Hnext : decays_next patient_task)
    by (split; [left; reflexivity | vm_compute; discriminate]).
  assert (Hb : num_times_lr_decayed (training_state patient_task) + Z.of_nat 2
               <= lr_decay_times patient_task) by (vm_compute; discriminate).
  destruct (decays_in_a_row Toy.random Toy.failed 2 GenCreated patient_task
              (mkTrainer 0.5%float) Toy.world0 eq_refl eq_refl I eq_refl Hnext Hb)
    as (self' & w' & E & Hn & _ & _ & Ht).
  exists self', w'. split; [exact E|]. split; [exact Hn | exact Ht].
Defined.

(** A failed checkpoint on an exhausted budget; no trainer is needed. *)
Lemma failed_checkpoint_stops env self w :
  PrimFloat.ltb (lr_decay self) 1%float = true ->
  dev_improved env = false ->
  should_decay (attempt_failed self) = true ->
  dev_scores_available env self ->
  num_times_lr_decayed (training_state self) + 1 > lr_decay_times self ->
  exists self' w',
    checkpoint env self true w = (Ok (false, self'), w') /\
    num_times_lr_decayed (training_state self')
      = num_times_lr_decayed (training_state self) + 1 /\
    cur_attempt (training_state self') = cur_attempt (training_state self) + 1 /\
    schedule_config self' = schedule_config self /\
    dev_tasks self' = dev_tasks self /\
    early_stopping_reached self' = true /\
    trainer self' = trainer self.
Proof.
  intros Hlr Hi Hsd Hd Hgt.
  rewrite (checkpoint_control_exact env self w Hd), Hi, Hlr, Hsd. cbn [andb].
  unfold apply_decay. fields self.
  assert (E : (num_times_lr_decayed training_state0 + 1 >? lr_decay_times0) = true)
    by (apply Z.gtb_lt; lia).
  rewrite E. unfold bind, print, emit, ret.
  do 2 eexists. split; [reflexivity|]. cbn. repeat split.
Qed.

(** X13: past the budget the learning rate is frozen.  When the next decay
    would exceed [lr_decay_times], every failed checkpoint in a row still
    counts ([num_times_lr_decayed] and [cur_attempt] go up by one each) and
    sets early stopping, but the trainer is left as it is; this needs no
    trainer at all. *)
Theorem budget_exhausted (R : RandomLib) (env : CheckpointEnv) (k : nat) (g : generator)
  (self : SimpleTrainingTask) (w : World) :
  PrimFloat.ltb (lr_decay self) 1%float = true ->
  dev_improved env = false ->
  dev_scores_available env self ->
  decays_next self ->
  num_times_lr_decayed (training_state self) + 1 > lr_decay_times self ->
  exists self' w',
    run R (repeat (OpCheckpoint env true) (S k)) (g, self) w = (Ok (Some (g, self')), w') /\
    num_times_lr_decayed (training_state self')
      = num_times_lr_decayed (training_state self) + Z.of_nat (S k) /\
    cur_attempt (training_state self') = cur_attempt (training_state self) + Z.of_nat (S k) /\
    early_stopping_reached self' = true /\
    trainer self' = trainer self.
Proof.
  intros Hlr Hi. revert self w Hlr.
  induction k as [|k IH]; intros self w Hlr Hd Hnext Hgt;
    destruct (failed_checkpoint_stops env self w Hlr Hi (attempt_failed_decays _ Hnext)
                Hd Hgt) as (self1 & w1 & E & Hn & Hc & Hcfg & Hdt & He & Ht).
  - exists self1, w1. split.
    + cbn [repeat run run_op]. unfold bind at 1. unfold bind at 1. rewrite E. reflexivity.
    + repeat split; try assumption; lia.
  - unfold schedule_config in Hcfg. inversion Hcfg as [[Hlr1 Hpat Hip Htimes Hrt]].
    assert (Hnext1 : decays_next self1).
    { destruct Hnext as [Hip0 Hc0]. unfold decays_next. rewrite Hip, Hn, Hc, Hpat.
      split; [destruct Hip0; [left; assumption | right; lia] | lia]. }
    assert (Hd1 : dev_scores_available env self1)
      by (unfold dev_scores_available in *; rewrite Hdt; exact Hd).
    destruct (IH self1 w1 ltac:(rewrite Hlr1; exact Hlr) Hd1 Hnext1
                ltac:(rewrite Hn, Htimes; lia))
      as (self' & w' & Er & Hn' & Hc' & He' & Ht').
    exists self', w'. split.
    + change (repeat (OpCheckpoint env true) (S (S k)))
        with (OpCheckpoint env true :: repeat (OpCheckpoint env true) (S k)).
      cbn [run run_op]. unfold bind at 1. unfold bind at 1. rewrite E.
      cbn [ret snd]. exact Er.
    + rewrite Hn', Hc', Ht', Hn, Hc, Ht. repeat split; try assumption; lia.
Qed.

Lemma budget_exhausted_witness :
  exists self' w',
    run Toy.random (repeat (OpCheckpoint Toy.failed true) 2)
      (GenCreated, after_failed_checkpoints 2 budget_two_task) Toy.world0
      = (Ok (Some (GenCreated, self')), w') /\
    num_times_lr_decayed (training_state self') = 4 /\
    early_stopping_reached self' = true /\
    trainer self' = Some (mkTrainer 0.25%float).
Proof.
  set (t := after_failed_checkpoints 2 budget_two_task).
  assert (Hlr : PrimFloat.ltb (lr_decay t) 1%float = true) by (vm_compute; reflexivity).
  assert (Hd : dev_scores_available Toy.failed t) by (vm_compute; exact I).
  assert (Hnext : decays_next t)
    by (split; [left; vm_compute; reflexivity | vm_compute; discriminate]).
  assert (Hgt : num_times_lr_decayed (training_state t) + 1 > lr_decay_times t)
    by (vm_compute; reflexivity).
  destruct (budget_exhausted Toy.random Toy.failed 1 GenCreated t Toy.world0
              Hlr eq_refl Hd Hnext Hgt) as (self' & w' & E & Hn & _ & He & Ht).
  exists self', w'. split; [exact E|].
  split; [rewrite Hn; vm_compute; reflexivity|].
  split; [exact He|]. rewrite Ht. vm_compute. reflexivity.
Defined.

(** X14: what a decaying checkpoint does besides counting.  Within the
    budget it prints the new learning rate and, only if [restart_trainer] is
    set, then restarts the trainer and reverts the weights to the best
    model, in that order; on an exhausted budget it only prints the early
    stopping message: the trainer is never restarted and the weights never
    reverted when training stops. *)
Theorem checkpoint_decay_events (env : CheckpointEnv) (self : SimpleTrainingTask)
  (tr : Trainer) (w : World) :
  PrimFloat.ltb (lr_decay self) 1%float = true ->
  dev_improved env = false ->
  should_decay (attempt_failed self) = true ->
  trainer self = Some tr ->
  dev_scores_available env self ->
  let within := num_times_lr_decayed (training_state self) + 1 <=? lr_decay_times self in
  let new_rate := PrimFloat.mul (learning_rate tr) (lr_decay self) in
  exists self',
    checkpoint env self true w
    = (Ok (false, self'),
       with_trace w
         (verdict_events env self
          ++ if within then
               EvPrintLearningRate new_rate
               :: (if restart_trainer self
                   then [EvPrint "  restarting trainer and reverting learned weights to best checkpoint..";
                         EvTrainerRestart; EvRevertToBestModel]
                   else [])
             else [EvPrint "  Early stopping"])) /\
    restart_trainer self' = restart_trainer self.
Proof.
  intros Hlr Hi Hsd Ht Hd within new_rate.
  destruct (failed_checkpoint_decays env self tr w Hlr Hi Hsd Ht Hd)
    as (self' & E & _ & _ & Hcfg & _).
  exists self'. split.
  - rewrite E. unfold decay_events. subst within.
    rewrite Z.gtb_ltb, Z.leb_antisym.
    destruct (lr_decay_times self <? num_times_lr_decayed (training_state self) + 1);
      reflexivity.
  - unfold schedule_config in Hcfg. inversion Hcfg. congruence.
Qed.

Lemma checkpoint_decay_events_witness :
  exists self',
    checkpoint Toy.failed patient_task true Toy.world0
    = (Ok (false, self'),
       with_trace Toy.world0
         [EvNewDev; EvPrint "> Checkpoint"; EvReportDevAndCheckModel;
          EvPrintLearningRate 0.25%float;
          EvPrint "  restarting trainer and reverting learned weights to best checkpoint..";
          EvTrainerRestart; EvRevertToBestModel]).
Proof.
  assert (Hsd : should_decay (attempt_failed patient_task) = true)
    by (vm_compute; reflexivity).
  destruct (checkpoint_decay_events Toy.failed patient_task (mkTrainer 0.5%float) Toy.world0
              eq_refl eq_refl Hsd eq_refl I) as (self' & E & _).
  exists self'. exact E.
Defined.

(** ** The generator and the stop signal *)

Lemma advance_epoch_stop_config R env self w self' w' :
  advance_epoch R env self w = (Ok self', w') -> stop_config self' = stop_config self.
Proof.
  rewrite advance_epoch_eq. destruct (reload_command self).
  - intros H. bind_inv H. ok_inv H.
    apply augment_data_next_epoch_frame in H0. destruct H0 as [h ->].
    fields self. reflexivity.
  - intros H. ok_inv H. fields self. reflexivity.
Qed.

Lemma sweep_stop_config R fuel env self w src trg g self' w' :
  sweep R fuel env self w = (Ok (Yield src trg g self'), w') ->
  stop_config self' = stop_config self.
Proof.
  revert self w. induction fuel as [|fuel IH]; intros self w H; simpl in H.
  - ok_inv H.
  - bind_inv H. apply advance_epoch_stop_config in H0. rewrite <- H0.
    destruct (minibatch_order a) as [|b rest].
    + eapply IH; exact H.
    + apply yield_batch_task in H. destruct H as (-> & _). reflexivity.
Qed.

Lemma next_minibatch_stop_config R fuel env g self w src trg g' self' w' :
  next_minibatch R fuel env g self w = (Ok (Yield src trg g' self'), w') ->
  stop_config self' = stop_config self.
Proof.
  unfold next_minibatch. destruct g as [|rest].
  - apply sweep_stop_config.
  - intros H.
    transitivity (stop_config (resumed (GenSuspended rest) self));
      [|fields self; reflexivity].
    destruct rest as [|b rest].
    + eapply sweep_stop_config; exact H.
    + apply yield_batch_task in H. destruct H as (-> & _). reflexivity.
Qed.

Lemma drain_stop_config R fuel env k g self w yields g' self' w' :
  drain R fuel env k g self w = (Ok (Some (yields, g', self')), w') ->
  stop_config self' = stop_config self.
Proof.
  revert g self w yields. induction k as [|k IH]; intros g self w yields H; cbn [drain] in H.
  - ok_inv H. reflexivity.
  - bind_inv H. destruct a as [src trg g1 self1|]; [|ok_inv H].
    bind_inv H. ok_inv H. destruct a as [[[ys g2] self2]|]; [|discriminate].
    match goal with Heq : Some _ = Some _ |- _ => inversion Heq; subst end.
    apply next_minibatch_stop_config in H0. apply IH in H1. congruence.
Qed.

(** [k] pulls from an epoch boundary into an epoch with minibatches. *)
Lemma drain_epoch R fuel env g self w self1 w1 :
  shuffle_permutes R ->
  g = GenCreated \/ g = GenSuspended [] ->
  advance_epoch R env (resumed g self) w = (Ok self1, w1) ->
  minibatch_order self1 <> [] ->
  List.length (trg_batches self1) = List.length (src_batches self1) ->
  forall k, (1 <= k <= List.length (minibatch_order self1))%nat ->
    exists yields self_k,
      drain R (S fuel) env k g self w
        = (Ok (Some (yields, GenSuspended (skipn k (minibatch_order self1)), self_k)), w1) /\
      same_epoch self1 self_k /\
      steps_into_epoch (training_state self_k) = Z.of_nat k - 1.
Proof.
  intros Hperm Hg E Hne Hlen k Hk.
  pose proof (advance_epoch_order_valid R env _ w self1 w1 Hperm E Hlen) as Hvalid.
  assert (Hsteps : steps_into_epoch (training_state self1) = 0).
  { pose proof E as E'. apply advance_epoch_Ok_inv in E'.
    destruct E' as (t & v & _ & _ & _ & _ & _ & -> & ->).
    destruct (begin_epoch_fields R t v) as (_ & _ & Hst & _). exact Hst. }
  destruct (minibatch_order self1) as [|b rest] eqn:Ho; [congruence|].
  destruct (Hvalid b (or_introl eq_refl)) as (src & trg & Hs & Ht).
  destruct k as [|k]; [lia|].
  assert (Hk1 : (k <= List.length rest)%nat) by (cbn in Hk; lia).
  assert (Hvalid1 : forall b0, In b0 rest ->
            exists src0 trg0, py_index (src_batches self1) b0 = Ok src0 /\
                              py_index (trg_batches self1) b0 = Ok trg0).
  { intros b0 Hb0. apply Hvalid. right. exact Hb0. }
  destruct (drain_inner R (S fuel) env k rest self1 w1 Hk1 Hvalid1)
    as (yields & self_k & Ed & _ & Hse & Hst).
  exists ((src, trg) :: yields), self_k. split.
  - cbn [drain].
    rewrite (bind_eq _ _ _ _ _
               (next_minibatch_boundary R fuel env g self w self1 w1 b rest src trg
                  Hg E Ho Hs Ht)).
    rewrite (bind_eq _ _ _ _ _ Ed). reflexivity.
  - split; [exact Hse|]. rewrite Hst, Hsteps. lia.
Qed.

(** X15: the stop signal and the generator.  In an epoch with minibatches,
    for a task that has not stopped early and has an integer
    [run_for_epochs], [should_stop_training] asked after the [k]-th pull of
    the epoch is true exactly when the epoch is beyond [run_for_epochs], or
    is the epoch number [run_for_epochs] and the pull was the last of it:
    a loop that asks after every step takes every minibatch of every epoch
    up to [run_for_epochs] and stops before entering the next one. *)
Theorem stop_after_last_minibatch (R : RandomLib) (fuel : nat) (env : ProcEnv)
  (g : generator) (self self1 : SimpleTrainingTask) (w w1 : World) (r : Z) (k : nat) :
  shuffle_permutes R ->
  g = GenCreated \/ g = GenSuspended [] ->
  advance_epoch R env (resumed g self) w = (Ok self1, w1) ->
  minibatch_order self1 <> [] ->
  List.length (trg_batches self1) = List.length (src_batches self1) ->
  run_for_epochs self = Some r ->
  early_stopping_reached self = false ->
  (1 <= k <= List.length (minibatch_order self1))%nat ->
  exists yields g' self_k,
    drain R (S fuel) env k g self w = (Ok (Some (yields, g', self_k)), w1) /\
    (exists stop, should_stop_training self_k = Ok stop) /\
    (should_stop_training self_k = Ok true <->
     epoch_num (training_state self1) > r \/
     (epoch_num (training_state self1) = r /\
      k = List.length (minibatch_order self1))).
Proof.
  intros Hperm Hg E Hne Hlen Hr He Hk.
  destruct (drain_epoch R fuel env g self w self1 w1 Hperm Hg E Hne Hlen k Hk)
    as (yields & self_k & Ed & (Hsb & _ & _ & Hen) & Hst).
  exists yields, (GenSuspended (skipn k (minibatch_order self1))), self_k.
  split; [exact Ed|].
  pose proof (drain_stop_config _ _ _ _ _ _ _ _ _ _ _ Ed) as Hcfg.
  unfold stop_config in Hcfg. inversion Hcfg as [[He' Hr']].
  assert (Hcount : len (minibatch_order self1) = cur_num_minibatches self1).
  { pose proof E as E'. apply advance_epoch_Ok_inv in E'.
    destruct E' as (t & v & _ & _ & _ & _ & _ & -> & ->).
    destruct (begin_epoch_fields R t v) as (_ & _ & _ & _ & _ & _ & Hsb1 & _ & Ho & _).
    unfold cur_num_minibatches, len. rewrite Ho, Hsb1. f_equal.
    rewrite <- (Permutation_length (Hperm _ _)). unfold range.
    rewrite length_map, length_seq. apply Nat2Z.id. }
  unfold should_stop_training. rewrite He', He, Hr', Hr, Hen, Hst.
  unfold cur_num_minibatches. rewrite Hsb. fold (cur_num_minibatches self1).
  rewrite <- Hcount. unfold len.
  split; [eexists; reflexivity|].
  split.
  - intros H. inversion H as [Hb]. clear H.
    rewrite orb_true_iff, andb_true_iff, Z.gtb_lt, Z.eqb_eq, Z.geb_le in Hb. lia.
  - intros H. f_equal.
    rewrite orb_true_iff, andb_true_iff, Z.gtb_lt, Z.eqb_eq, Z.geb_le. lia.
Qed.

(** The second and last epoch of the default task: the signal is off after
    its second pull and on after its third. *)
Lemma stop_after_last_minibatch_witness :
  (exists yields g' self_k,
     drain Toy.random 1 Toy.no_proc 2 (GenSuspended []) drained_task
       (snd first_epoch_drained) = (Ok (Some (yields, g', self_k)), snd second_epoch) /\
     should_stop_training self_k = Ok false) /\
  (exists yields g' self_k,
     drain Toy.random 1 Toy.no_proc 3 (GenSuspended []) drained_task
       (snd first_epoch_drained) = (Ok (Some (yields, g', self_k)), snd second_epoch) /\
     should_stop_training self_k = Ok true).
Proof.
  assert (E : advance_epoch Toy.random Toy.no_proc (resumed (GenSuspended []) drained_task)
                (snd first_epoch_drained)
              = (Ok (Toy.the_task second_epoch), snd second_epoch))
    by (vm_compute; reflexivity).
  assert (Hne : minibatch_order (Toy.the_task second_epoch) <> [])
    by (vm_compute; discriminate).
  assert (Hlen : List.length (trg_batches (Toy.the_task second_epoch))
                 = List.length (src_batches (Toy.the_task second_epoch)))
    by (vm_compute; reflexivity).
  assert (Hr : run_for_epochs drained_task = Some 2) by (vm_compute; reflexivity).
  assert (He : early_stopping_reached drained_task = false) by (vm_compute; reflexivity).
  assert (Hen : epoch_num (training_state (Toy.the_task second_epoch)) = 2)
    by (vm_compute; reflexivity).
  assert (Hn : List.length (minibatch_order (Toy.the_task second_epoch)) = 3%nat)
    by (vm_compute; reflexivity).
  split.
  - assert (Hk : (1 <= 2 <= List.length (minibatch_order (Toy.the_task second_epoch)))%nat)
      by (rewrite Hn; lia).
    destruct (stop_after_last_minibatch Toy.random 0 Toy.no_proc (GenSuspended [])
                drained_task (Toy.the_task second_epoch) (snd first_epoch_drained)
                (snd second_epoch) 2 2 toy_shuffle_permutes (or_intror eq_refl)
                E Hne Hlen Hr He Hk) as (ys & g' & t & Ed & [stop Hs] & Hiff).
    exists ys, g', t. split; [exact Ed|].
    destruct stop; [|exact Hs].
    apply Hiff in Hs. rewrite Hen, Hn in Hs. lia.
  - assert (Hk : (1 <= 3 <= List.length (minibatch_order (Toy.the_task second_epoch)))%nat)
      by (rewrite Hn; lia).
    destruct (stop_after_last_minibatch Toy.random 0 Toy.no_proc (GenSuspended [])
                drained_task (Toy.the_task second_epoch) (snd first_epoch_drained)
                (snd second_epoch) 2 3 toy_shuffle_permutes (or_intror eq_refl)
                E Hne Hlen Hr He Hk) as (ys & g' & t & Ed & _ & Hiff).
    exists ys, g', t. split; [exact Ed|].
    apply Hiff. right. rewrite Hen, Hn. split; reflexivity.
Defined.

(** ** [advance_epoch] with a regeneration command *)

(** X16: entering an epoch while the previous regeneration has finished.
    The corpus parser is asked to re-read, and the next regeneration is
    started in the background with the epoch number the task had before the
    call: advancing from epoch [n] to [n + 1] runs [cmd --epoch n].  Nothing
    is waited for, and the batches of the new epoch are packed from the
    [src_data] and [trg_data] already in memory. *)
Theorem advance_epoch_regeneration (R : RandomLib) (env : ProcEnv)
  (self : SimpleTrainingTask) (cmd : string) (h : Popen) (u : unit) (w : World) :
  reload_command self = Some cmd ->
  _augmentation_handle self = Some h ->
  returncode (polled env h) <> None ->
  corpus_parser self = Some u ->
  let n := epoch_num (training_state self) in
  exists self' w',
    advance_epoch R env self w = (Ok self', w') /\
    epoch_num (training_state self') = n + 1 /\
    _augmentation_handle self'
      = Some (mkPopen (next_pid w) (regeneration_command cmd n) None) /\
    next_pid w' = S (next_pid w) /\
    src_data self' = src_data self /\
    trg_data self' = trg_data self /\
    (src_batches self', trg_batches self')
      = fst (packed_with R self (epoch_seed (training_state self'))) /\
    trace w'
    = trace w
      ++ [EvPoll (pid h)]
      ++ (if n >? 0 then [EvPrint "using reloaded data"] else [])
      ++ [EvReadTrainingCorpus; EvPopen (regeneration_command cmd n) (next_pid w)]
      ++ epoch_events (epoch_seed (training_state self')) (cur_num_sentences self).
Proof.
  intros Hc Hh Hr Hp n.
  pose proof (augment_data_ready env self cmd h w u Hc Hh Hr Hp) as Ea. cbv zeta in Ea.
  rewrite advance_epoch_eq, Hc, (bind_eq _ _ _ _ _ Ea).
  do 2 eexists. split; [reflexivity|].
  match goal with
  | |- context [begin_epoch R ?t ?v] =>
      destruct (begin_epoch_fields R t v)
        as (Hseed & Hnum & _ & Hsd & Htd & _ & Hsb & Htb & _ & _ & _ & Hpid & Htr);
      set (self0 := t) in *; set (w0 := v) in *
  end.
  assert (Hpk : packed_with R self0 (fst (random_randint R (py_random w0) 1 2147483647))
                = packed_with R self (fst (random_randint R (py_random w0) 1 2147483647)))
    by (unfold packed_with, self0; fields self; reflexivity).
  rewrite Hpk in Hsb, Htb. cbn [fst snd].
  split; [rewrite Hnum; unfold self0; fields self; reflexivity|].
  split; [unfold self0; fields self; reflexivity|].
  split; [rewrite Hpid; reflexivity|].
  split; [rewrite Hsd; unfold self0; fields self; reflexivity|].
  split; [rewrite Htd; unfold self0; fields self; reflexivity|].
  split; [rewrite Hsb, Htb, Hseed; destruct (fst (packed_with R self _)); reflexivity|].
  assert (Hcur : cur_num_sentences (fst (begin_epoch R self0 w0)) = cur_num_sentences self)
    by (unfold cur_num_sentences; rewrite Hsd; unfold self0; fields self; reflexivity).
  rewrite Htr, Hseed, Hcur. unfold epoch_events, w0, with_process, regeneration_command.
  cbn [trace py_random]. rewrite <- !app_assoc. reflexivity.
Qed.

Lemma advance_epoch_regeneration_witness :
  exists self' w',
    advance_epoch Toy.random Toy.exited_proc (Toy.the_task reloading_second)
      (snd reloading_second) = (Ok self', w') /\
    epoch_num (training_state self') = 2 /\
    _augmentation_handle self' = Some (mkPopen 2 "true --epoch 1" None).
Proof.
  set (t := Toy.the_task reloading_second).
  assert (Hc : reload_command t = Some "true") by (vm_compute; reflexivity).
  assert (Hh : _augmentation_handle t = Some (mkPopen 1 "true --epoch 0" None))
    by (vm_compute; reflexivity).
  assert (Hr : returncode (polled Toy.exited_proc (mkPopen 1 "true --epoch 0" None)) <> None)
    by (vm_compute; discriminate).
  assert (Hp : corpus_parser t = Some tt) by (vm_compute; reflexivity).
  destruct (advance_epoch_regeneration Toy.random Toy.exited_proc t "true" _ tt
              (snd reloading_second) Hc Hh Hr Hp)
    as (self' & w' & E & Hn & Hh' & _).
  exists self', w'. split; [exact E|].
  split; [rewrite Hn; vm_compute; reflexivity|].
  rewrite Hh'. vm_compute. reflexivity.
Defined.

(** X17: entering an epoch while the previous regeneration is still
    running.  The handle is polled once and a message printed; no process is
    started or waited for, the corpus parser is not called, and the new
    epoch is packed from the unchanged corpus. *)
Theorem advance_epoch_regeneration_pending (R : RandomLib) (env : ProcEnv)
  (self : SimpleTrainingTask) (cmd : string) (h : Popen) (w : World) :
  reload_command self = Some cmd ->
  _augmentation_handle self = Some h ->
  returncode (polled env h) = None ->
  exists self' w',
    advance_epoch R env self w = (Ok self', w') /\
    epoch_num (training_state self') = epoch_num (training_state self) + 1 /\
    _augmentation_handle self' = Some (polled env h) /\
    next_pid w' = next_pid w /\
    src_data self' = src_data self /\
    trg_data self' = trg_data self /\
    (src_batches self', trg_batches self')
      = fst (packed_with R self (epoch_seed (training_state self'))) /\
    trace w'
    = trace w
      ++ [EvPoll (pid h);
          EvPrint "new data set is not ready yet, using data from last epoch."]
      ++ epoch_events (epoch_seed (training_state self')) (cur_num_sentences self).
Proof.
  intros Hc Hh Hr.
  pose proof (augment_data_not_ready env self cmd h w Hc Hh Hr) as Ea.
  rewrite advance_epoch_eq, Hc, (bind_eq _ _ _ _ _ Ea).
  do 2 eexists. split; [reflexivity|].
  match goal with
  | |- context [begin_epoch R ?t ?v] =>
      destruct (begin_epoch_fields R t v)
        as (Hseed & Hnum & _ & Hsd & Htd & _ & Hsb & Htb & _ & _ & _ & Hpid & Htr);
      set (self0 := t) in *; set (w0 := v) in *
  end.
  assert (Hpk : packed_with R self0 (fst (random_randint R (py_random w0) 1 2147483647))
                = packed_with R self (fst (random_randint R (py_random w0) 1 2147483647)))
    by (unfold packed_with, self0; fields self; reflexivity).
  rewrite Hpk in Hsb, Htb. cbn [fst snd].
  split; [rewrite Hnum; unfold self0; fields self; reflexivity|].
  split; [unfold self0; fields self; reflexivity|].
  split; [rewrite Hpid; reflexivity|].
  split; [rewrite Hsd; unfold self0; fields self; reflexivity|].
  split; [rewrite Htd; unfold self0; fields self; reflexivity|].
  split; [rewrite Hsb, Htb, Hseed; destruct (fst (packed_with R self _)); reflexivity|].
  assert (Hcur : cur_num_sentences (fst (begin_epoch R self0 w0)) = cur_num_sentences self)
    by (unfold cur_num_sentences; rewrite Hsd; unfold self0; fields self; reflexivity).
  rewrite Htr, Hseed, Hcur. unfold epoch_events, w0, with_trace.
  cbn [trace py_random]. rewrite <- !app_assoc. reflexivity.
Qed.

Lemma advance_epoch_regeneration_pending_witness :
  exists self' w',
    advance_epoch Toy.random Toy.no_proc (Toy.the_task reloading_second)
      (snd reloading_second) = (Ok self', w') /\
    _augmentation_handle self' = Some (mkPopen 1 "true --epoch 0" None) /\
    next_pid w' = 2%nat.
Proof.
  set (t := Toy.the_task reloading_second).
  assert (Hc : reload_command t = Some "true") by (vm_compute; reflexivity).
  assert (Hh : _augmentation_handle t = Some (mkPopen 1 "true --epoch 0" None))
    by (vm_compute; reflexivity).
  destruct (advance_epoch_regeneration_pending Toy.random Toy.no_proc t "true" _
              (snd reloading_second) Hc Hh eq_refl)
    as (self' & w' & E & _ & Hh' & Hp & _).
  exists self', w'. split; [exact E|]. split; [exact Hh'|].
  rewrite Hp. vm_compute. reflexivity.
Defined.



(** ** [training_step]: when it fails *)

(** X19: a [LossBuilder] without loss nodes leaves the primary loss [None];
    negating it raises [TypeError] right after [calc_loss]: the auxiliary
    loss is not computed and the logger hears nothing of the step. *)
Theorem training_step_empty_bundle (self : SimpleTrainingTask) (src trg : batch) (w : World) :
  calc_loss (model self) src trg = BundleLoss [] ->
  training_step self src trg w = (Raise negated_none, with_trace w [EvCalcLoss src trg]).
Proof.
  intros H. unfold training_step, bind, emit. cbv beta iota zeta. rewrite H.
  reflexivity.
Qed.

Lemma training_step_empty_bundle_witness :
  training_step (Toy.blank_with model_no_terms None) [[1]] [[2]] Toy.world0
  = (Raise negated_none, with_trace Toy.world0 [EvCalcLoss [[1]] [[2]]]).
Proof.
  exact (training_step_empty_bundle (Toy.blank_with model_no_terms None) [[1]] [[2]]
           Toy.world0 eq_refl).
Defined.

(** X20: with any other loss the step returns: the model is asked for the
    loss and then for the auxiliary loss, the logger is updated once with a
    breakdown that is not empty and asked once to report, in that order, and
    the value returned is the sum of the breakdown. *)
Theorem training_step_returns (self : SimpleTrainingTask) (src trg : batch) (w : World) :
  calc_loss (model self) src trg <> BundleLoss [] ->
  exists breakdown primary,
    breakdown <> [] /\
    training_step self src trg w
    = (Ok (compute breakdown),
       with_trace w [EvCalcLoss src trg;
                     EvCalcAdditionalLoss (ENoBackprop (ENeg primary));
                     EvUpdateEpochLoss breakdown;
                     EvReportTrainProcess]).
Proof.
  intros H.
  assert (Hr : exists named primary,
             named <> [] /\
             record_standard_loss [] (calc_loss (model self) src trg) = (named, Some primary)).
  { destruct (calc_loss (model self) src trg) as [e|nodes].
    - exists [("loss", e)], e. split; [discriminate|reflexivity].
    - assert (Hn : nodes <> []) by (intros ->; apply H; reflexivity).
      exists nodes, (esum (map snd nodes)). split; [exact Hn|].
      cbn [record_standard_loss]. apply fold_bundle_step_first. exact Hn. }
  destruct Hr as (named & primary & Hn & Hr).
  exists (recorded self named primary), primary. split.
  - unfold recorded. destruct (calc_additional_loss _ _); unfold add_loss;
      destruct named; try congruence; discriminate.
  - rewrite (training_step_eq self src trg w named primary Hr). reflexivity.
Qed.

Lemma training_step_returns_witness :
  exists breakdown primary,
    breakdown <> [] /\
    training_step (Toy.blank_with Toy.model_aux None) [[1]] [[2]] Toy.world0
    = (Ok (compute breakdown),
       with_trace Toy.world0
         [EvCalcLoss [[1]] [[2]];
          EvCalcAdditionalLoss (ENoBackprop (ENeg primary));
          EvUpdateEpochLoss breakdown;
          EvReportTrainProcess]).
Proof.
  apply (training_step_returns (Toy.blank_with Toy.model_aux None) [[1]] [[2]] Toy.world0).
  vm_compute. discriminate.
Defined.

(** ** [next_minibatch]: batch lists of different lengths *)

Lemma py_index_past_end {A} (l : list A) (i : Z) :
  0 <= i -> len l <= i -> py_index l i = Raise out_of_range.
Proof.
  intros H0 H. unfold py_index.
  destruct (Z.ltb_spec i 0); [lia|].
  destruct (Z.ltb_spec i 0); [lia|].
  destruct (Z.leb_spec (len l) i); [|lia]. reflexivity.
Qed.

Lemma yield_batch_cases self b rest w :
  0 <= b < len (src_batches self) ->
  (len (trg_batches self) <= b /\
   yield_batch self b rest w = (Raise out_of_range, w)) \/
  (b < len (trg_batches self) /\
   exists src trg, yield_batch self b rest w = (Ok (Yield src trg (GenSuspended rest) self), w)).
Proof.
  intros Hb. destruct (py_index_ok (src_batches self) b Hb) as [src Hs].
  unfold yield_batch, bind, lift. rewrite Hs.
  destruct (Z.le_gt_cases (len (trg_batches self)) b) as [Hle|Hgt].
  - left. split; [exact Hle|]. rewrite (py_index_past_end _ b); [reflexivity|lia|exact Hle].
  - right. split; [lia|].
    destruct (py_index_ok (trg_batches self) b) as [trg Ht]; [lia|].
    exists src, trg. rewrite Ht. reflexivity.
Qed.

Lemma drain_missing_target R fuel env rest self w :
  (forall b, In b rest -> 0 <= b < len (src_batches self)) ->
  (exists b, In b rest /\ len (trg_batches self) <= b) ->
  drain R fuel env (List.length rest) (GenSuspended rest) self w = (Raise out_of_range, w).
Proof.
  revert self. induction rest as [|b rest IH]; intros self Hsrc (b0 & Hin & Hb0).
  - destruct Hin.
  - set (self1 := resumed (GenSuspended (b :: rest)) self).
    destruct (resumed_same_epoch (GenSuspended (b :: rest)) self) as (Esb & Etb & _ & _).
    fold self1 in Esb, Etb.
    assert (Hb : 0 <= b < len (src_batches self1))
      by (rewrite Esb; apply Hsrc; left; reflexivity).
    cbn [List.length drain next_minibatch]. fold (resumed (GenSuspended (b :: rest)) self).
    fold self1. unfold bind at 1.
    destruct (yield_batch_cases self1 b rest w Hb) as [[_ E] | [Hlt (src & trg & E)]];
      rewrite E; [reflexivity|].
    cbv beta iota. unfold bind at 1. rewrite IH; [reflexivity| |].
    + intros b1 Hb1. rewrite Esb. apply Hsrc. right. exact Hb1.
    + exists b0. destruct Hin as [<- | Hin].
      * rewrite Etb in Hlt. lia.
      * split; [exact Hin|]. rewrite Etb. exact Hb0.
Qed.

(** X21: the batch lists are indexed independently.  When the batcher
    returns fewer target batches than source batches, the epoch cannot be
    taken to its end: one of its pulls raises [IndexError], after
    [advance_epoch] has run and before the next epoch is entered. *)
Theorem next_minibatch_missing_target_batches (R : RandomLib) (fuel : nat) (env : ProcEnv)
  (g : generator) (self self1 : SimpleTrainingTask) (w w1 : World) :
  shuffle_permutes R ->
  g = GenCreated \/ g = GenSuspended [] ->
  advance_epoch R env (resumed g self) w = (Ok self1, w1) ->
  (List.length (trg_batches self1) < List.length (src_batches self1))%nat ->
  drain R (S fuel) env (List.length (minibatch_order self1)) g self w
  = (Raise out_of_range, w1).
Proof.
  intros Hperm Hg E Hlen.
  assert (Hp : Permutation (range (len (src_batches self1))) (minibatch_order self1)).
  { pose proof E as E'. apply advance_epoch_Ok_inv in E'.
    destruct E' as (t & v & _ & _ & _ & _ & _ & -> & ->).
    destruct (begin_epoch_fields R t v) as (_ & _ & _ & _ & _ & _ & Hsb & _ & Ho & _).
    rewrite Ho, <- Hsb. apply Hperm. }
  assert (Hsrc : forall b, In b (minibatch_order self1) -> 0 <= b < len (src_batches self1)).
  { intros b Hb. apply range_bounds.
    exact (Permutation_in _ (Permutation_sym Hp) Hb). }
  assert (Hmiss : exists b, In b (minibatch_order self1) /\ len (trg_batches self1) <= b).
  { exists (len (trg_batches self1)). split; [|lia].
    apply (Permutation_in _ Hp). unfold range, len. apply in_map_iff.
    exists (List.length (trg_batches self1)). split; [reflexivity|].
    apply in_seq. rewrite Nat2Z.id. lia. }
  assert (Hsweep : forall k,
            drain R (S fuel) env (S k) g self w
            = bind (sweep R (S fuel) env (resumed g self)) (fun p =>
                match p with
                | Yield src trg g' self' =>
                    bind (drain R (S fuel) env k g' self') (fun r =>
                      ret (match r with
                           | Some (yields, g'', self'') =>
                               Some ((src, trg) :: yields, g'', self'')
                           | None => None
                           end))
                | OutOfFuel => ret None
                end) w).
  { intros k. destruct Hg as [-> | ->]; reflexivity. }
  destruct (minibatch_order self1) as [|b rest] eqn:Ho.
  { destruct Hmiss as (b & [] & _). }
  cbn [List.length]. rewrite Hsweep. cbn [sweep].
  unfold bind at 1. unfold bind at 1. rewrite E, Ho.
  destruct (yield_batch_cases self1 b rest w1 (Hsrc b (or_introl eq_refl)))
    as [[_ Ey] | [Hlt (src & trg & Ey)]]; rewrite Ey; [reflexivity|].
  cbv beta iota. unfold bind at 1. rewrite drain_missing_target; [reflexivity| |].
  - intros b1 Hb1. apply Hsrc. right. exact Hb1.
  - destruct Hmiss as (b0 & [<- | Hin] & Hb0); [lia|]. exists b0. split; assumption.
Qed.

Lemma next_minibatch_missing_target_batches_witness :
  exists w1,
    drain Toy.random 1 Toy.no_proc 3 GenCreated source_only_task Toy.world0
    = (Raise out_of_range, w1).
Proof.
  destruct (advance_epoch Toy.random Toy.no_proc source_only_task Toy.world0)
    as [[self1|e] w1] eqn:E; [|vm_compute in E; discriminate E].
  exists w1.
  assert (Hlen : (List.length (trg_batches self1) < List.length (src_batches self1))%nat).
  { vm_compute in E. inversion E. cbn. lia. }
  assert (Ho : List.length (minibatch_order self1) = 3%nat).
  { vm_compute in E. inversion E. reflexivity. }
  rewrite <- Ho.
  exact (next_minibatch_missing_target_batches Toy.random 0 Toy.no_proc GenCreated
           source_only_task self1 Toy.world0 w1 toy_shuffle_permutes (or_introl eq_refl)
           E Hlen).
Defined.

(** ** The [Linear] layer *)

(** X22: a layer called after its construction.  [__init__] adds the weight
    matrix of shape [(output_dim, input_dim)] to the collection and, only
    with [bias], a vector of shape [(output_dim,)] after it, each with the
    initializer its own [ParamInitializer] gives for that shape; [__call__]
    then never fails, and returns the affine transform of the input by the
    weight matrix and either the bias parameter or [zeros(output_dim)]. *)
Theorem linear_call_after_init (I : Type) (input_dim output_dim : Z)
  (model : Linear.ParameterCollection I) (bias : bool)
  (param_init bias_init : Linear.ParamInitializer I) (input_expr : Linear.dy_expr I) :
  let W := Linear.mkParameters (List.length model) [output_dim; input_dim]
             (Linear.initializer param_init [output_dim; input_dim]) in
  let b := Linear.mkParameters (S (List.length model)) [output_dim]
             (Linear.initializer bias_init [output_dim]) in
  let built := Linear.__init__ input_dim output_dim model bias param_init bias_init in
  snd built = model ++ W :: (if bias then [b] else []) /\
  Linear.__call__ (fst built) input_expr
  = Ok (Linear.dy_affine_transform
          [if bias then Linear.dy_parameter b else Linear.dy_zeros output_dim;
           Linear.dy_parameter W; input_expr]).
Proof.
  intros W b built. subst built W b. unfold Linear.__init__, Linear.add_parameters.
  destruct bias; cbn [fst snd]; unfold Linear.__call__; cbn.
  - rewrite <- app_assoc, length_app. cbn. rewrite Nat.add_1_r. split; reflexivity.
  - split; reflexivity.
Qed.

(** X23: [__call__] reads [b1] only when [bias] is true: it fails exactly on
    an instance whose [bias] is true and that has no [b1], with
    [AttributeError], and on an instance whose [bias] is false a [b1] that
    is there is left out of the result. *)
Theorem linear_call_raises_iff (I : Type) (self : Linear.Linear I)
  (input_expr : Linear.dy_expr I) :
  ((exists e, Linear.__call__ self input_expr = Raise e) <->
   Linear.bias self = true /\ Linear.b1 self = None) /\
  (forall e, Linear.__call__ self input_expr = Raise e -> e = AttributeError "b1") /\
  (Linear.bias self = false ->
   Linear.__call__ self input_expr
   = Ok (Linear.dy_affine_transform
           [Linear.dy_zeros (Linear.output_dim self);
            Linear.dy_parameter (Linear.W1 self); input_expr])).
Proof.
  destruct self as [bs od W [p|]]; destruct bs; unfold Linear.__call__; cbn;
    (split; [split; [intros (e & He); discriminate || (split; reflexivity)
                    | intros (Hb & Hn); discriminate || (eexists; reflexivity)]
            | split; [intros e He; inversion He; reflexivity || discriminate
                     | intros Hb; discriminate || reflexivity]]).
Qed.
